(** * The SCTP association of ext/sctp/sctpassociation.c

    A shallow embedding of the association object: its fields, the public
    operations, the connection worker and the handlers that the transport
    engine (usrsctp) calls back.

    Modelling conventions.
    - One association is modelled.  Its fields are a record; every function of
      the C file that reads or writes them is a computation in a small
      state-and-failure monad over a [world]: the association together with
      the chronological list of externally visible actions (engine calls,
      GObject notifications and signals, warnings, callbacks, thread calls).
    - What the engine answers is an input of the operation that asks.
    - [None] stands for an execution with no defined result: a read past the
      end of an event's stream list, a failed [g_assert], or a bind retry loop
      whose answers run out while the address is still in use.
    - The instance mutex is not modelled: operations run one after the other.
      The windows in which the C code drops the mutex
      ([gst_sctp_association_change_state_unlocked], the thread join, the bind
      sleep) are points where another operation of the sequence may be
      scheduled in C; here an observer that is notified is recorded in the
      trace and does not call back into the association.
    - Messages of level info ([g_info], [g_log] with [G_LOG_LEVEL_INFO]) are
      not recorded; warnings are. *)

From Stdlib Require Import ZArith List String Bool Lia Permutation.
Import ListNotations.
Open Scope string_scope.
Open Scope list_scope.
Open Scope Z_scope.

(** ** Data *)

(** [GstSctpAssociationState], in the order of the [GEnumValue] table of
    [gst_sctp_association_state_get_type]. *)
Inductive GstSctpAssociationState : Set :=
| GST_SCTP_ASSOCIATION_STATE_NEW
| GST_SCTP_ASSOCIATION_STATE_READY
| GST_SCTP_ASSOCIATION_STATE_CONNECTING
| GST_SCTP_ASSOCIATION_STATE_CONNECTED
| GST_SCTP_ASSOCIATION_STATE_DISCONNECTING
| GST_SCTP_ASSOCIATION_STATE_DISCONNECTED
| GST_SCTP_ASSOCIATION_STATE_ERROR.

Definition state_eqb (s t : GstSctpAssociationState) : bool :=
  match s, t with
  | GST_SCTP_ASSOCIATION_STATE_NEW, GST_SCTP_ASSOCIATION_STATE_NEW
  | GST_SCTP_ASSOCIATION_STATE_READY, GST_SCTP_ASSOCIATION_STATE_READY
  | GST_SCTP_ASSOCIATION_STATE_CONNECTING, GST_SCTP_ASSOCIATION_STATE_CONNECTING
  | GST_SCTP_ASSOCIATION_STATE_CONNECTED, GST_SCTP_ASSOCIATION_STATE_CONNECTED
  | GST_SCTP_ASSOCIATION_STATE_DISCONNECTING,
    GST_SCTP_ASSOCIATION_STATE_DISCONNECTING
  | GST_SCTP_ASSOCIATION_STATE_DISCONNECTED,
    GST_SCTP_ASSOCIATION_STATE_DISCONNECTED
  | GST_SCTP_ASSOCIATION_STATE_ERROR, GST_SCTP_ASSOCIATION_STATE_ERROR => true
  | _, _ => false
  end.

(** The property identifiers of the anonymous [enum] ([PROP_0] ..
    [NUM_PROPERTIES]). *)
Inductive prop_id : Set :=
| PROP_0
| PROP_ASSOCIATION_ID
| PROP_LOCAL_PORT
| PROP_REMOTE_PORT
| PROP_STATE
| PROP_USE_SOCK_STREAM
| PROP_DEBUG_SCTP
| PROP_AGGRESSIVE_HEARTBEAT
| NUM_PROPERTIES.

(** A [GValue] of one of the three types the properties have. *)
Inductive GValue : Set :=
| G_value_uint (v : Z)
| G_value_enum (s : GstSctpAssociationState)
| G_value_boolean (b : bool).

(** GLib's accessors; on a value of another type they return 0 / [FALSE]
    (GObject hands [set_property] a value of the property's own type, so
    these branches are there for totality only). *)
Definition g_value_get_uint (v : GValue) : Z :=
  match v with G_value_uint z => z | _ => 0 end.

Definition g_value_get_enum (v : GValue) : GstSctpAssociationState :=
  match v with G_value_enum s => s | _ => GST_SCTP_ASSOCIATION_STATE_NEW end.

Definition g_value_get_boolean (v : GValue) : bool :=
  match v with G_value_boolean b => b | _ => false end.

(** [GstSctpAssociationPartialReliability]. *)
Inductive GstSctpAssociationPartialReliability : Set :=
| GST_SCTP_ASSOCIATION_PARTIAL_RELIABILITY_NONE
| GST_SCTP_ASSOCIATION_PARTIAL_RELIABILITY_TTL
| GST_SCTP_ASSOCIATION_PARTIAL_RELIABILITY_BUF
| GST_SCTP_ASSOCIATION_PARTIAL_RELIABILITY_RTX.

(** Handles and pointers are opaque numbers; a C pointer that may be [NULL]
    is an [option]. *)
Definition socket := Z.
Definition GThread := Z.
Definition fnptr := Z.
Definition gpointer := Z.
Definition bytes := list Z.

(** Assignment to a [guint16] / [guint32] field. *)
Definition wrap16 (z : Z) : Z := z mod 65536.
Definition wrap32 (z : Z) : Z := z mod 4294967296.
(** [size_t] arithmetic (64 bits wide on the LP64 targets). *)
Definition wrap_size_t (z : Z) : Z := z mod 18446744073709551616.

(** The fields of [struct _GstSctpAssociation] that the C file uses. *)
Record GstSctpAssociation : Type := mkAssociation {
  association_id : Z;
  local_port : Z;
  remote_port : Z;
  use_sock_stream : bool;
  debug_sctp : bool;
  aggressive_heartbeat : bool;
  state : GstSctpAssociationState;
  sctp_ass_sock : option socket;
  sctp_assoc_id : Z;
  done_connect : bool;
  shutdown : bool;
  connection_thread : option GThread;
  packet_out_cb : option fnptr;
  packet_out_user_data : gpointer;
  packet_received_cb : option fnptr;
  packet_received_user_data : gpointer
}.

Definition set_association_id (v : Z) (a : GstSctpAssociation) :=
  mkAssociation v (local_port a) (remote_port a) (use_sock_stream a)
    (debug_sctp a) (aggressive_heartbeat a) (state a) (sctp_ass_sock a)
    (sctp_assoc_id a) (done_connect a) (shutdown a) (connection_thread a)
    (packet_out_cb a) (packet_out_user_data a) (packet_received_cb a)
    (packet_received_user_data a).

Definition set_local_port (v : Z) (a : GstSctpAssociation) :=
  mkAssociation (association_id a) v (remote_port a) (use_sock_stream a)
    (debug_sctp a) (aggressive_heartbeat a) (state a) (sctp_ass_sock a)
    (sctp_assoc_id a) (done_connect a) (shutdown a) (connection_thread a)
    (packet_out_cb a) (packet_out_user_data a) (packet_received_cb a)
    (packet_received_user_data a).

Definition set_remote_port (v : Z) (a : GstSctpAssociation) :=
  mkAssociation (association_id a) (local_port a) v (use_sock_stream a)
    (debug_sctp a) (aggressive_heartbeat a) (state a) (sctp_ass_sock a)
    (sctp_assoc_id a) (done_connect a) (shutdown a) (connection_thread a)
    (packet_out_cb a) (packet_out_user_data a) (packet_received_cb a)
    (packet_received_user_data a).

Definition set_use_sock_stream (v : bool) (a : GstSctpAssociation) :=
  mkAssociation (association_id a) (local_port a) (remote_port a) v
    (debug_sctp a) (aggressive_heartbeat a) (state a) (sctp_ass_sock a)
    (sctp_assoc_id a) (done_connect a) (shutdown a) (connection_thread a)
    (packet_out_cb a) (packet_out_user_data a) (packet_received_cb a)
    (packet_received_user_data a).

Definition set_debug_sctp (v : bool) (a : GstSctpAssociation) :=
  mkAssociation (association_id a) (local_port a) (remote_port a)
    (use_sock_stream a) v (aggressive_heartbeat a) (state a) (sctp_ass_sock a)
    (sctp_assoc_id a) (done_connect a) (shutdown a) (connection_thread a)
    (packet_out_cb a) (packet_out_user_data a) (packet_received_cb a)
    (packet_received_user_data a).

Definition set_aggressive_heartbeat (v : bool) (a : GstSctpAssociation) :=
  mkAssociation (association_id a) (local_port a) (remote_port a)
    (use_sock_stream a) (debug_sctp a) v (state a) (sctp_ass_sock a)
    (sctp_assoc_id a) (done_connect a) (shutdown a) (connection_thread a)
    (packet_out_cb a) (packet_out_user_data a) (packet_received_cb a)
    (packet_received_user_data a).

Definition set_state (v : GstSctpAssociationState) (a : GstSctpAssociation) :=
  mkAssociation (association_id a) (local_port a) (remote_port a)
    (use_sock_stream a) (debug_sctp a) (aggressive_heartbeat a) v
    (sctp_ass_sock a) (sctp_assoc_id a) (done_connect a) (shutdown a)
    (connection_thread a) (packet_out_cb a) (packet_out_user_data a)
    (packet_received_cb a) (packet_received_user_data a).

Definition set_sctp_ass_sock (v : option socket) (a : GstSctpAssociation) :=
  mkAssociation (association_id a) (local_port a) (remote_port a)
    (use_sock_stream a) (debug_sctp a) (aggressive_heartbeat a) (state a) v
    (sctp_assoc_id a) (done_connect a) (shutdown a) (connection_thread a)
    (packet_out_cb a) (packet_out_user_data a) (packet_received_cb a)
    (packet_received_user_data a).

Definition set_sctp_assoc_id (v : Z) (a : GstSctpAssociation) :=
  mkAssociation (association_id a) (local_port a) (remote_port a)
    (use_sock_stream a) (debug_sctp a) (aggressive_heartbeat a) (state a)
    (sctp_ass_sock a) v (done_connect a) (shutdown a) (connection_thread a)
    (packet_out_cb a) (packet_out_user_data a) (packet_received_cb a)
    (packet_received_user_data a).

Definition set_done_connect (v : bool) (a : GstSctpAssociation) :=
  mkAssociation (association_id a) (local_port a) (remote_port a)
    (use_sock_stream a) (debug_sctp a) (aggressive_heartbeat a) (state a)
    (sctp_ass_sock a) (sctp_assoc_id a) v (shutdown a) (connection_thread a)
    (packet_out_cb a) (packet_out_user_data a) (packet_received_cb a)
    (packet_received_user_data a).

Definition set_shutdown (v : bool) (a : GstSctpAssociation) :=
  mkAssociation (association_id a) (local_port a) (remote_port a)
    (use_sock_stream a) (debug_sctp a) (aggressive_heartbeat a) (state a)
    (sctp_ass_sock a) (sctp_assoc_id a) (done_connect a) v
    (connection_thread a) (packet_out_cb a) (packet_out_user_data a)
    (packet_received_cb a) (packet_received_user_data a).

Definition set_connection_thread (v : option GThread)
    (a : GstSctpAssociation) :=
  mkAssociation (association_id a) (local_port a) (remote_port a)
    (use_sock_stream a) (debug_sctp a) (aggressive_heartbeat a) (state a)
    (sctp_ass_sock a) (sctp_assoc_id a) (done_connect a) (shutdown a) v
    (packet_out_cb a) (packet_out_user_data a) (packet_received_cb a)
    (packet_received_user_data a).

Definition set_packet_out (cb : option fnptr) (user_data : gpointer)
    (a : GstSctpAssociation) :=
  mkAssociation (association_id a) (local_port a) (remote_port a)
    (use_sock_stream a) (debug_sctp a) (aggressive_heartbeat a) (state a)
    (sctp_ass_sock a) (sctp_assoc_id a) (done_connect a) (shutdown a)
    (connection_thread a) cb user_data (packet_received_cb a)
    (packet_received_user_data a).

Definition set_packet_received (cb : option fnptr) (user_data : gpointer)
    (a : GstSctpAssociation) :=
  mkAssociation (association_id a) (local_port a) (remote_port a)
    (use_sock_stream a) (debug_sctp a) (aggressive_heartbeat a) (state a)
    (sctp_ass_sock a) (sctp_assoc_id a) (done_connect a) (shutdown a)
    (connection_thread a) (packet_out_cb a) (packet_out_user_data a) cb
    user_data.

(** ** The engine interface *)

(** The constants and byte-order functions that the C file takes from the
    usrsctp and GLib headers.  Their values are not part of this repository;
    the development is parametric in them. *)
Class Usrsctp : Type := {
  SCTP_UNORDERED : Z;
  SCTP_SEND_SNDINFO_VALID : Z;
  SCTP_SEND_PRINFO_VALID : Z;
  SCTP_PR_SCTP_TTL : Z;
  SCTP_PR_SCTP_RTX : Z;
  SCTP_PR_SCTP_BUF : Z;
  SCTP_STREAM_RESET_OUTGOING : Z;
  SCTP_STREAM_RESET_INCOMING_SSN : Z;
  SCTP_STREAM_RESET_DENIED : Z;
  SPP_HB_ENABLE : Z;
  sizeof_sctp_stream_reset_event : Z;
  g_htonl : Z -> Z;
  g_htons : Z -> Z;
  ntohl : Z -> Z
}.

Inductive sock_type : Set := SOCK_STREAM | SOCK_SEQPACKET.

(** The notification types registered by [create_sctp_socket]. *)
Inductive sctp_event_type : Set :=
| SCTP_ASSOC_CHANGE
| SCTP_PEER_ADDR_CHANGE
| SCTP_REMOTE_ERROR
| SCTP_SEND_FAILED
| SCTP_SHUTDOWN_EVENT
| SCTP_ADAPTATION_INDICATION
| SCTP_STREAM_RESET_EVENT
| SCTP_STREAM_CHANGE_EVENT.

(** [struct sockaddr_conn] as filled by [get_sctp_socket_address]: the
    family is [AF_CONN] and [sconn_addr] is the association itself. *)
Record sockaddr_conn : Set := { sconn_port : Z }.

(** [struct sctp_sendv_spa] with its [sctp_sndinfo] and [sctp_prinfo]. *)
Record sctp_sendv_spa : Set := {
  sendv_flags : Z;
  snd_sid : Z;
  snd_flags : Z;
  snd_ppid : Z;
  snd_context : Z;
  snd_assoc_id : Z;
  pr_policy : Z;
  pr_value : Z
}.

(** [struct sctp_reset_streams]. *)
Record sctp_reset_streams : Set := {
  srs_assoc_id : Z;
  srs_flags : Z;
  srs_number_streams : Z;
  srs_stream_list : list Z
}.

(** The socket options the file sets, each with the value it passes. *)
Inductive sockopt : Set :=
| SO_LINGER (l_onoff l_linger : Z)
| SCTP_NODELAY (value : Z)
| SCTP_ENABLE_STREAM_RESET (assoc_value : Z)
| SCTP_EVENT (se_type : sctp_event_type) (se_on : Z)
| SCTP_RESET_STREAMS (srs : sctp_reset_streams)
| SCTP_ASSOCINFO (sasoc_assoc_id sasoc_asocmaxrxt : Z)
| SCTP_PEER_ADDR_PARAMS (spp_address : sockaddr_conn)
    (spp_flags spp_hbinterval : Z).

(** [sac_state] of [struct sctp_assoc_change]. *)
Inductive sac_state_t : Set :=
| SCTP_COMM_UP
| SCTP_COMM_LOST
| SCTP_RESTART
| SCTP_SHUTDOWN_COMP
| SCTP_CANT_STR_ASSOC
| sac_state_other (v : Z).

Record sctp_assoc_change : Set := {
  sac_state : sac_state_t;
  sac_assoc_id : Z
}.

(** [struct sctp_stream_reset_event]: [strreset_stream_list] is the flexible
    array that follows the fixed part, [strreset_length] the length field of
    the header. *)
Record sctp_stream_reset_event : Set := {
  strreset_flags : Z;
  strreset_length : Z;
  strreset_stream_list : list Z
}.

(** [union sctp_notification], by the [sn_type] of its header. *)
Inductive sctp_notification : Set :=
| Notification_assoc_change (sac : sctp_assoc_change)
| Notification_stream_reset (sr : sctp_stream_reset_event)
| Notification_other (sn_type : Z).

(** What [receive_cb] is handed: no data, a notification ([flags] has
    [MSG_NOTIFICATION]) with the header's [sn_length] and [datalen], or a
    message with [rcv_sid] and [rcv_ppid]. *)
Inductive delivery : Set :=
| Delivery_null
| Delivery_notification (n : sctp_notification) (sn_length datalen : Z)
| Delivery_message (data : bytes) (datalen rcv_sid rcv_ppid : Z).

Inductive errno_t : Set := EADDRINUSE | EINPROGRESS | errno_other.

(** The externally visible actions, in the order they happen. *)
Inductive action : Set :=
| Notify_state (s : GstSctpAssociationState)
| Signal_stream_reset (stream_id : Z)
| Signal_assoc_restart
| G_warning (msg : string)
| Warn_invalid_property_id (id : prop_id)
| Usrsctp_sysctl_set_sctp_logging_level (level : Z)
| Usrsctp_sysctl_set_sctp_debug_on (all : bool)
| Usrsctp_socket (t : sock_type)
| Usrsctp_set_non_blocking (sock : socket) (on : Z)
| Usrsctp_setsockopt (sock : option socket) (opt : sockopt)
| Usrsctp_close (sock : socket)
| Usrsctp_shutdown (sock : socket)
| Usrsctp_bind (sock : option socket) (addr : sockaddr_conn)
| Usrsctp_connect (sock : option socket) (addr : sockaddr_conn)
| Usrsctp_sendv (sock : option socket) (buf : bytes) (length : Z)
    (addr : sockaddr_conn) (spa : sctp_sendv_spa)
| Usrsctp_conninput (buf : bytes) (length : Z)
| Usrsctp_freedumpbuffer
| G_thread_new (association_id : Z)
| G_thread_join (t : GThread)
| G_usleep (usec : Z)
| Packet_out_cb (cb : fnptr) (buffer : bytes) (length : Z)
    (user_data : gpointer)
| Packet_received_cb (cb : fnptr) (data : bytes)
    (datalen stream_id ppid : Z) (user_data : gpointer).

(** ** The monad *)

Record world : Type := mkWorld {
  self : GstSctpAssociation;
  trace : list action
}.

Definition M (A : Type) : Type := world -> option (A * world).

Definition ret {A} (x : A) : M A := fun w => Some (x, w).

Definition bind {A B} (m : M A) (f : A -> M B) : M B :=
  fun w => match m w with
           | Some (x, w') => f x w'
           | None => None
           end.

Declare Scope sctp_scope.
Delimit Scope sctp_scope with sctp.
Notation "x <- m ;; k" := (bind m (fun x => k))
  (at level 61, m at next level, right associativity) : sctp_scope.
Notation "m ;; k" := (bind m (fun _ => k))
  (at level 61, right associativity) : sctp_scope.
Open Scope sctp_scope.

Definition get_self : M GstSctpAssociation := fun w => Some (self w, w).

Definition modify (f : GstSctpAssociation -> GstSctpAssociation) : M unit :=
  fun w => Some (tt, mkWorld (f (self w)) (trace w)).

Definition emit (e : action) : M unit :=
  fun w => Some (tt, mkWorld (self w) (trace w ++ [e])).

Definition undefined {A} : M A := fun _ => None.

Definition when (b : bool) (m : M unit) : M unit := if b then m else ret tt.

Definition not_null {A} (p : option A) : bool :=
  match p with Some _ => true | None => false end.

(** ** The functions of sctpassociation.c *)

Section Association.

Context {usrsctp : Usrsctp}.

(** The instance as GObject allocates it (zero filled) and
    [gst_sctp_association_init] sets it up.  The process-wide engine set-up
    of the first association belongs to the registry and is not modelled. *)
Definition gst_sctp_association_init : GstSctpAssociation :=
  {| association_id := 0;
     local_port := 0;
     remote_port := 0;
     use_sock_stream := false;
     debug_sctp := false;
     aggressive_heartbeat := false;
     state := GST_SCTP_ASSOCIATION_STATE_NEW;
     sctp_ass_sock := None;
     sctp_assoc_id := 0;
     done_connect := false;
     shutdown := false;
     connection_thread := None;
     packet_out_cb := None;
     packet_out_user_data := 0;
     packet_received_cb := None;
     packet_received_user_data := 0 |}.

Definition gst_sctp_association_change_state_unlocked
    (new_state : GstSctpAssociationState) : M unit :=
  modify (set_state new_state) ;;
  emit (Notify_state new_state).

Definition maybe_set_state_to_ready : M unit :=
  a <- get_self ;;
  when (state_eqb (state a) GST_SCTP_ASSOCIATION_STATE_NEW
        && (negb (local_port a =? 0) && negb (remote_port a =? 0))
        && not_null (packet_out_cb a) && not_null (packet_received_cb a))
    (gst_sctp_association_change_state_unlocked
       GST_SCTP_ASSOCIATION_STATE_READY).

Definition is_port_property (id : prop_id) : bool :=
  match id with
  | PROP_LOCAL_PORT | PROP_REMOTE_PORT => true
  | _ => false
  end.

Definition gst_sctp_association_set_property (id : prop_id) (value : GValue)
    : M unit :=
  a <- get_self ;;
  if negb (state_eqb (state a) GST_SCTP_ASSOCIATION_STATE_NEW)
     && is_port_property id
  then emit (G_warning "These properties cannot be set in this state")
  else
    match id with
    | PROP_ASSOCIATION_ID =>
        modify (set_association_id (wrap32 (g_value_get_uint value)))
    | PROP_LOCAL_PORT =>
        modify (set_local_port (wrap16 (g_value_get_uint value)))
    | PROP_REMOTE_PORT =>
        modify (set_remote_port (wrap16 (g_value_get_uint value)))
    | PROP_STATE =>
        modify (set_state (g_value_get_enum value))
    | PROP_USE_SOCK_STREAM =>
        modify (set_use_sock_stream (g_value_get_boolean value))
    | PROP_DEBUG_SCTP =>
        modify (set_debug_sctp (g_value_get_boolean value)) ;;
        if g_value_get_boolean value
        then emit (Usrsctp_sysctl_set_sctp_logging_level 4294967295) ;;
             emit (Usrsctp_sysctl_set_sctp_debug_on true)
        else emit (Usrsctp_sysctl_set_sctp_logging_level 0) ;;
             emit (Usrsctp_sysctl_set_sctp_debug_on false)
    | PROP_AGGRESSIVE_HEARTBEAT =>
        modify (set_aggressive_heartbeat (g_value_get_boolean value))
    | PROP_0 | NUM_PROPERTIES => emit (Warn_invalid_property_id id)
    end ;;
    when (is_port_property id) maybe_set_state_to_ready.

Definition gst_sctp_association_get_property (id : prop_id)
    : M (option GValue) :=
  a <- get_self ;;
  match id with
  | PROP_ASSOCIATION_ID => ret (Some (G_value_uint (association_id a)))
  | PROP_LOCAL_PORT => ret (Some (G_value_uint (local_port a)))
  | PROP_REMOTE_PORT => ret (Some (G_value_uint (remote_port a)))
  | PROP_STATE => ret (Some (G_value_enum (state a)))
  | PROP_USE_SOCK_STREAM => ret (Some (G_value_boolean (use_sock_stream a)))
  | PROP_DEBUG_SCTP => ret (Some (G_value_boolean (debug_sctp a)))
  | PROP_AGGRESSIVE_HEARTBEAT =>
      ret (Some (G_value_boolean (aggressive_heartbeat a)))
  | PROP_0 | NUM_PROPERTIES => emit (Warn_invalid_property_id id) ;; ret None
  end.

(** What the engine answers to the calls of [create_sctp_socket]. *)
Record socket_answers : Type := {
  ans_usrsctp_socket : option socket;
  ans_set_non_blocking : Z;
  ans_so_linger : Z;
  ans_nodelay : Z;
  ans_enable_stream_reset : Z;
  ans_event : sctp_event_type -> Z
}.

Definition event_types : list sctp_event_type :=
  [SCTP_ASSOC_CHANGE; SCTP_PEER_ADDR_CHANGE; SCTP_REMOTE_ERROR;
   SCTP_SEND_FAILED; SCTP_SHUTDOWN_EVENT; SCTP_ADAPTATION_INDICATION;
   SCTP_STREAM_RESET_EVENT; SCTP_STREAM_CHANGE_EVENT].

(** The [error:] label of [create_sctp_socket]. *)
Definition create_sctp_socket_error (sock : option socket)
    : M (option socket) :=
  match sock with
  | Some s =>
      emit (Usrsctp_close s) ;;
      emit (G_warning "Could not create socket. Error: (%u) %s") ;;
      ret None
  | None => ret None
  end.

Fixpoint register_events (ans : socket_answers) (sock : socket)
    (l : list sctp_event_type) : M unit :=
  match l with
  | [] => ret tt
  | t :: l' =>
      emit (Usrsctp_setsockopt (Some sock) (SCTP_EVENT t 1)) ;;
      when (ans_event ans t <? 0)
        (emit (G_warning "Failed to register event %u")) ;;
      register_events ans sock l'
  end.

Definition create_sctp_socket (ans : socket_answers) : M (option socket) :=
  a <- get_self ;;
  emit (Usrsctp_socket
          (if use_sock_stream a then SOCK_STREAM else SOCK_SEQPACKET)) ;;
  match ans_usrsctp_socket ans with
  | None => create_sctp_socket_error None
  | Some sock =>
      emit (Usrsctp_set_non_blocking sock 1) ;;
      if ans_set_non_blocking ans <? 0 then
        emit (G_warning "Could not set non-blocking mode on SCTP socket") ;;
        create_sctp_socket_error (Some sock)
      else
        emit (Usrsctp_setsockopt (Some sock) (SO_LINGER 1 0)) ;;
        if ans_so_linger ans <? 0 then
          emit (G_warning "Could not set SO_LINGER on SCTP socket") ;;
          create_sctp_socket_error (Some sock)
        else
          emit (Usrsctp_setsockopt (Some sock) (SCTP_NODELAY 1)) ;;
          if negb (ans_nodelay ans =? 0) then
            emit (G_warning "Could not set SCTP_NODELAY") ;;
            create_sctp_socket_error (Some sock)
          else
            emit (Usrsctp_setsockopt (Some sock)
                    (SCTP_ENABLE_STREAM_RESET 1)) ;;
            if negb (ans_enable_stream_reset ans =? 0) then
              emit (G_warning "Could not set SCTP_ENABLE_STREAM_RESET") ;;
              create_sctp_socket_error (Some sock)
            else
              register_events ans sock event_types ;;
              ret (Some sock)
  end.

Definition get_sctp_socket_address (port : Z) : sockaddr_conn :=
  {| sconn_port := g_htons port |}.

(** [thread] is the handle [g_thread_new] returns. *)
Definition gst_sctp_association_start (ans : socket_answers)
    (thread : GThread) : M bool :=
  a <- get_self ;;
  if negb (state_eqb (state a) GST_SCTP_ASSOCIATION_STATE_READY)
     && negb (state_eqb (state a) GST_SCTP_ASSOCIATION_STATE_DISCONNECTED)
  then
    emit (G_warning
            "SCTP association is in wrong state and cannot be started") ;;
    ret false
  else
    sock <- create_sctp_socket ans ;;
    modify (set_sctp_ass_sock sock) ;;
    match sock with
    | None =>
        gst_sctp_association_change_state_unlocked
          GST_SCTP_ASSOCIATION_STATE_ERROR ;;
        ret false
    | Some _ =>
        gst_sctp_association_change_state_unlocked
          GST_SCTP_ASSOCIATION_STATE_CONNECTING ;;
        a' <- get_self ;;
        emit (G_thread_new (association_id a')) ;;
        modify (set_connection_thread (Some thread)) ;;
        ret true
    end.

Definition gst_sctp_association_set_on_packet_out
    (packet_out_cb : option fnptr) (user_data : gpointer) : M unit :=
  modify (set_packet_out packet_out_cb user_data) ;;
  maybe_set_state_to_ready.

Definition gst_sctp_association_set_on_packet_received
    (packet_received_cb : option fnptr) (user_data : gpointer) : M unit :=
  modify (set_packet_received packet_received_cb user_data) ;;
  maybe_set_state_to_ready.

Definition gst_sctp_association_incoming_packet (buf : bytes) (length : Z)
    : M unit :=
  a <- get_self ;;
  when (done_connect a) (emit (Usrsctp_conninput buf length)).

(** The send descriptor that [gst_sctp_association_send_data] fills in. *)
Definition make_spa (stream_id ppid : Z) (ordered : bool)
    (pr : GstSctpAssociationPartialReliability) (reliability_param : Z)
    : sctp_sendv_spa :=
  {| sendv_flags :=
       match pr with
       | GST_SCTP_ASSOCIATION_PARTIAL_RELIABILITY_NONE =>
           SCTP_SEND_SNDINFO_VALID
       | _ => Z.lor SCTP_SEND_SNDINFO_VALID SCTP_SEND_PRINFO_VALID
       end;
     snd_sid := stream_id;
     snd_flags := if ordered then 0 else SCTP_UNORDERED;
     snd_ppid := g_htonl ppid;
     snd_context := 0;
     snd_assoc_id := 0;
     pr_policy :=
       match pr with
       | GST_SCTP_ASSOCIATION_PARTIAL_RELIABILITY_NONE => 0
       | GST_SCTP_ASSOCIATION_PARTIAL_RELIABILITY_TTL => SCTP_PR_SCTP_TTL
       | GST_SCTP_ASSOCIATION_PARTIAL_RELIABILITY_RTX => SCTP_PR_SCTP_RTX
       | GST_SCTP_ASSOCIATION_PARTIAL_RELIABILITY_BUF => SCTP_PR_SCTP_BUF
       end;
     pr_value :=
       match pr with
       | GST_SCTP_ASSOCIATION_PARTIAL_RELIABILITY_NONE => 0
       | _ => g_htonl reliability_param
       end |}.

(** [bytes_sent] is what [usrsctp_sendv] returns; a negative result ends the
    call with [FALSE] whatever [errno] says (the two branches differ in a
    message of level info only). *)
Definition gst_sctp_association_send_data (buf : bytes) (length : Z)
    (stream_id ppid : Z) (ordered : bool)
    (pr : GstSctpAssociationPartialReliability) (reliability_param : Z)
    (bytes_sent : Z) : M bool :=
  a <- get_self ;;
  if negb (state_eqb (state a) GST_SCTP_ASSOCIATION_STATE_CONNECTED)
  then ret false
  else
    emit (Usrsctp_sendv (sctp_ass_sock a) buf length
            (get_sctp_socket_address (remote_port a))
            (make_spa stream_id ppid ordered pr reliability_param)) ;;
    if bytes_sent <? 0 then ret false else ret true.

Definition gst_sctp_association_reset_stream (stream_id : Z) : M unit :=
  a <- get_self ;;
  when (state_eqb (state a) GST_SCTP_ASSOCIATION_STATE_CONNECTED)
    (emit (Usrsctp_setsockopt (sctp_ass_sock a)
             (SCTP_RESET_STREAMS
                {| srs_assoc_id := sctp_assoc_id a;
                   srs_flags := SCTP_STREAM_RESET_OUTGOING;
                   srs_number_streams := 1;
                   srs_stream_list := [stream_id] |}))).

Definition gst_sctp_association_force_close_unlocked : M unit :=
  a <- get_self ;;
  match sctp_ass_sock a with
  | Some sock =>
      emit (Usrsctp_close sock) ;;
      modify (set_sctp_ass_sock None)
  | None => ret tt
  end ;;
  modify (set_done_connect false) ;;
  modify (set_sctp_assoc_id 0).

Definition gst_sctp_association_force_close : M unit :=
  gst_sctp_association_force_close_unlocked.

(** The wait of the graceful shutdown: [cs_to_wait] polls of 10 ms.  The
    engine's callback thread sets [shutdown] while this thread sleeps;
    [arrival] is the number of sleeps that end before it does so. *)
Fixpoint wait_for_shutdown (cs_to_wait arrival : nat) : M unit :=
  a <- get_self ;;
  if shutdown a then ret tt
  else
    match cs_to_wait with
    | O => ret tt
    | S n =>
        emit (G_usleep 10000) ;;
        when (Nat.eqb arrival 0) (modify (set_shutdown true)) ;;
        wait_for_shutdown n (Nat.pred arrival)
    end.

(** The [if (try_shutdown && self->use_sock_stream && self->sctp_ass_sock)]
    block of the disconnect sequence; [ans_shutdown] is what
    [usrsctp_shutdown] returns. *)
Definition shutdown_handshake (try_shutdown : bool) (ans_shutdown : Z)
    (arrival : nat) : M unit :=
  a <- get_self ;;
  match sctp_ass_sock a with
  | Some sock =>
      when (try_shutdown && use_sock_stream a)
        (modify (set_shutdown false) ;;
         emit (Usrsctp_shutdown sock) ;;
         when (ans_shutdown =? 0)
           (wait_for_shutdown 100 arrival ;;
            modify (set_shutdown false)))
  | None => ret tt
  end.

Definition gst_sctp_association_disconnect_unlocked (try_shutdown : bool)
    (ans_shutdown : Z) (arrival : nat) : M unit :=
  a <- get_self ;;
  when (state_eqb (state a) GST_SCTP_ASSOCIATION_STATE_CONNECTED)
    (gst_sctp_association_change_state_unlocked
       GST_SCTP_ASSOCIATION_STATE_DISCONNECTING ;;
     shutdown_handshake try_shutdown ans_shutdown arrival) ;;
  a2 <- get_self ;;
  when (state_eqb (state a2) GST_SCTP_ASSOCIATION_STATE_DISCONNECTING)
    (match connection_thread a2 with
     | Some t =>
         emit (G_thread_join t) ;;
         modify (set_connection_thread None)
     | None => ret tt
     end ;;
     gst_sctp_association_force_close_unlocked ;;
     gst_sctp_association_change_state_unlocked
       GST_SCTP_ASSOCIATION_STATE_DISCONNECTED).

Definition gst_sctp_association_disconnect (ans_shutdown : Z)
    (arrival : nat) : M unit :=
  gst_sctp_association_disconnect_unlocked true ans_shutdown arrival.

(** The [do ... while (ret < 0)] of [client_role_connect]: one answer
    (return value, [errno]) per call of [usrsctp_bind].  [true] is a bound
    socket, [false] the jump to [error:]. *)
Fixpoint bind_with_retry (addr : sockaddr_conn)
    (answers : list (Z * errno_t)) : M bool :=
  match answers with
  | [] => undefined
  | (r, e) :: rest =>
      a <- get_self ;;
      emit (Usrsctp_bind (sctp_ass_sock a) addr) ;;
      if r <? 0 then
        match e with
        | EADDRINUSE => emit (G_usleep 10000) ;; bind_with_retry addr rest
        | _ => ret false
        end
      else ret true
  end.

Definition client_role_connect (ans_bind : list (Z * errno_t))
    (ans_connect : Z * errno_t) : M bool :=
  a <- get_self ;;
  bound <- bind_with_retry (get_sctp_socket_address (local_port a))
             ans_bind ;;
  if bound then
    a1 <- get_self ;;
    emit (Usrsctp_connect (sctp_ass_sock a1)
            (get_sctp_socket_address (remote_port a1))) ;;
    if (fst ans_connect <? 0)
       && negb match snd ans_connect with EINPROGRESS => true | _ => false end
    then ret false
    else modify (set_done_connect true) ;; ret true
  else ret false.

Definition connection_thread_func (ans_bind : list (Z * errno_t))
    (ans_connect : Z * errno_t) : M unit :=
  client_role_connect ans_bind ans_connect ;;
  ret tt.

(** [valid] is the answer of [association_is_valid], the registry's
    membership test. *)
Definition sctp_packet_out (valid : bool) (buffer : bytes) (length : Z)
    : M Z :=
  a <- get_self ;;
  match packet_out_cb a with
  | Some cb =>
      when valid (emit (Packet_out_cb cb buffer length
                          (packet_out_user_data a)))
  | None => ret tt
  end ;;
  ret 0.

(** The two answers are those of [usrsctp_setsockopt]; a failure only
    warns. *)
Definition _apply_aggressive_heartbeat_unlocked
    (ans_associnfo ans_peer_addr_params : Z) : M unit :=
  a <- get_self ;;
  when (aggressive_heartbeat a)
    (emit (Usrsctp_setsockopt (sctp_ass_sock a)
             (SCTP_ASSOCINFO (sctp_assoc_id a) 1)) ;;
     when (negb (ans_associnfo =? 0))
       (emit (G_warning "Could not set SCTP_ASSOCINFO")) ;;
     emit (Usrsctp_setsockopt (sctp_ass_sock a)
             (SCTP_PEER_ADDR_PARAMS
                (get_sctp_socket_address (remote_port a)) SPP_HB_ENABLE 10)) ;;
     when (negb (ans_peer_addr_params =? 0))
       (emit (G_warning "Could not set SCTP_PEER_ADDR_PARAMS"))).

Definition handle_sctp_comm_up (sac : sctp_assoc_change)
    (ans_associnfo ans_peer_addr_params : Z) : M unit :=
  a <- get_self ;;
  if state_eqb (state a) GST_SCTP_ASSOCIATION_STATE_CONNECTING then
    modify (set_sctp_assoc_id (sac_assoc_id sac)) ;;
    _apply_aggressive_heartbeat_unlocked ans_associnfo ans_peer_addr_params ;;
    gst_sctp_association_change_state_unlocked
      GST_SCTP_ASSOCIATION_STATE_CONNECTED
  else ret tt.

Definition handle_sctp_comm_lost_or_shutdown (sac : sctp_assoc_change)
    : M unit :=
  gst_sctp_association_disconnect_unlocked false 0 0.

Definition handle_association_changed (sac : sctp_assoc_change)
    (ans_associnfo ans_peer_addr_params : Z) : M unit :=
  match sac_state sac with
  | SCTP_COMM_UP => handle_sctp_comm_up sac ans_associnfo ans_peer_addr_params
  | SCTP_COMM_LOST => handle_sctp_comm_lost_or_shutdown sac
  | SCTP_RESTART => emit Signal_assoc_restart
  | SCTP_SHUTDOWN_COMP => handle_sctp_comm_lost_or_shutdown sac
  | SCTP_CANT_STR_ASSOC => ret tt
  | sac_state_other _ => ret tt
  end.

Definition flag_set (flags mask : Z) : bool := negb (Z.land flags mask =? 0).

(** The body of the [for] loop, from index [i], [n - i] rounds to go. *)
Fixpoint stream_reset_loop (sr : sctp_stream_reset_event) (i : nat)
    (rounds : nat) : M unit :=
  match rounds with
  | O => ret tt
  | S rounds' =>
      (if flag_set (strreset_flags sr) SCTP_STREAM_RESET_INCOMING_SSN then
         match nth_error (strreset_stream_list sr) i with
         | Some sid => emit (Signal_stream_reset sid)
         | None => undefined
         end
       else ret tt) ;;
      stream_reset_loop sr (S i) rounds'
  end.

Definition handle_stream_reset_event (sr : sctp_stream_reset_event)
    : M unit :=
  if negb (flag_set (strreset_flags sr) SCTP_STREAM_RESET_DENIED)
     && negb (flag_set (strreset_flags sr) SCTP_STREAM_RESET_DENIED)
  then
    stream_reset_loop sr 0%nat
      (Z.to_nat
         (wrap32
            (wrap_size_t (strreset_length sr - sizeof_sctp_stream_reset_event)
             / 2)))
  else ret tt.

Definition handle_message (data : bytes) (datalen stream_id ppid : Z)
    : M unit :=
  a <- get_self ;;
  match packet_received_cb a with
  | Some cb =>
      emit (Packet_received_cb cb data datalen stream_id ppid
              (packet_received_user_data a))
  | None => ret tt
  end.

Definition handle_notification (notification : sctp_notification)
    (sn_length length : Z) (ans_associnfo ans_peer_addr_params : Z)
    : M unit :=
  if negb (sn_length =? length) then undefined
  else
    match notification with
    | Notification_assoc_change sac =>
        handle_association_changed sac ans_associnfo ans_peer_addr_params
    | Notification_stream_reset sr => handle_stream_reset_event sr
    | Notification_other _ => ret tt
    end.

Definition receive_cb (valid : bool) (d : delivery)
    (ans_associnfo ans_peer_addr_params : Z) : M Z :=
  if negb valid then ret 1
  else
    match d with
    | Delivery_null => modify (set_shutdown true) ;; ret 1
    | Delivery_notification n sn_length datalen =>
        handle_notification n sn_length datalen ans_associnfo
          ans_peer_addr_params ;;
        emit Usrsctp_freedumpbuffer ;;
        ret 1
    | Delivery_message data datalen rcv_sid rcv_ppid =>
        handle_message data (wrap32 datalen) rcv_sid (ntohl rcv_ppid) ;;
        ret 1
    end.

End Association.

(** ** Executions *)

Section Executions.

Context {usrsctp : Usrsctp}.

(** One call from outside: a public operation by the application, the body
    of the connection worker, or a callback of the engine.  Each carries the
    answers the engine gives during the call. *)
Inductive operation : Type :=
| Set_property (id : prop_id) (value : GValue)
| Get_property (id : prop_id)
| Set_on_packet_out (packet_out_cb : option fnptr) (user_data : gpointer)
| Set_on_packet_received (packet_received_cb : option fnptr)
    (user_data : gpointer)
| Start (ans : socket_answers) (thread : GThread)
| Incoming_packet (buf : bytes) (length : Z)
| Send_data (buf : bytes) (length stream_id ppid : Z) (ordered : bool)
    (pr : GstSctpAssociationPartialReliability)
    (reliability_param bytes_sent : Z)
| Reset_stream (stream_id : Z)
| Force_close
| Disconnect (ans_shutdown : Z) (arrival : nat)
| Connection_thread (ans_bind : list (Z * errno_t))
    (ans_connect : Z * errno_t)
| Packet_out (valid : bool) (buffer : bytes) (length : Z)
| Receive (valid : bool) (d : delivery)
    (ans_associnfo ans_peer_addr_params : Z).

Definition step (op : operation) : M unit :=
  match op with
  | Set_property id value => gst_sctp_association_set_property id value
  | Get_property id => gst_sctp_association_get_property id ;; ret tt
  | Set_on_packet_out cb user_data =>
      gst_sctp_association_set_on_packet_out cb user_data
  | Set_on_packet_received cb user_data =>
      gst_sctp_association_set_on_packet_received cb user_data
  | Start ans thread => gst_sctp_association_start ans thread ;; ret tt
  | Incoming_packet buf length =>
      gst_sctp_association_incoming_packet buf length
  | Send_data buf length stream_id ppid ordered pr reliability_param
      bytes_sent =>
      gst_sctp_association_send_data buf length stream_id ppid ordered pr
        reliability_param bytes_sent ;;
      ret tt
  | Reset_stream stream_id => gst_sctp_association_reset_stream stream_id
  | Force_close => gst_sctp_association_force_close
  | Disconnect ans_shutdown arrival =>
      gst_sctp_association_disconnect ans_shutdown arrival
  | Connection_thread ans_bind ans_connect =>
      connection_thread_func ans_bind ans_connect
  | Packet_out valid buffer length =>
      sctp_packet_out valid buffer length ;; ret tt
  | Receive valid d ans_associnfo ans_peer_addr_params =>
      receive_cb valid d ans_associnfo ans_peer_addr_params ;; ret tt
  end.

(** The calls of [ops] one after the other, each run to its end before
    the next begins.  The source gives up the instance mutex inside a call
    at three places -- around the notification in
    [gst_sctp_association_change_state_unlocked], around [g_thread_join] in
    the disconnect sequence, and before the worker handle is stored in
    [gst_sctp_association_start] -- and a call that another thread or a
    state-change handler makes at such a place overlaps the call in
    progress: it is not an execution of [run]. *)
Fixpoint run (ops : list operation) : M unit :=
  match ops with
  | [] => ret tt
  | op :: ops' => step op ;; run ops'
  end.

(** The states that [gst_sctp_association_change_state_unlocked] announced,
    in order. *)
Fixpoint notified (t : list action) : list GstSctpAssociationState :=
  match t with
  | [] => []
  | Notify_state s :: t' => s :: notified t'
  | _ :: t' => notified t'
  end.

(** The transition table of section 4.1 of the specification, row by row. *)
Definition spec_transition (from to : GstSctpAssociationState) : bool :=
  match from, to with
  | GST_SCTP_ASSOCIATION_STATE_NEW, GST_SCTP_ASSOCIATION_STATE_READY
  | GST_SCTP_ASSOCIATION_STATE_READY, GST_SCTP_ASSOCIATION_STATE_CONNECTING
  | GST_SCTP_ASSOCIATION_STATE_READY, GST_SCTP_ASSOCIATION_STATE_ERROR
  | GST_SCTP_ASSOCIATION_STATE_DISCONNECTED,
    GST_SCTP_ASSOCIATION_STATE_CONNECTING
  | GST_SCTP_ASSOCIATION_STATE_CONNECTING,
    GST_SCTP_ASSOCIATION_STATE_CONNECTED
  | GST_SCTP_ASSOCIATION_STATE_CONNECTED,
    GST_SCTP_ASSOCIATION_STATE_DISCONNECTING
  | GST_SCTP_ASSOCIATION_STATE_CONNECTING,
    GST_SCTP_ASSOCIATION_STATE_DISCONNECTING
  | GST_SCTP_ASSOCIATION_STATE_DISCONNECTING,
    GST_SCTP_ASSOCIATION_STATE_DISCONNECTED => true
  | _, _ => false
  end.

(** The table together with the edge that a failed restart takes. *)
Definition code_transition (from to : GstSctpAssociationState) : bool :=
  spec_transition from to
  || (state_eqb from GST_SCTP_ASSOCIATION_STATE_DISCONNECTED
      && state_eqb to GST_SCTP_ASSOCIATION_STATE_ERROR).

(** [path edge s l]: starting in [s] and passing through the states of [l]
    one after the other takes an edge at every move. *)
Fixpoint path
    (edge : GstSctpAssociationState -> GstSctpAssociationState -> bool)
    (s : GstSctpAssociationState) (l : list GstSctpAssociationState) : bool :=
  match l with
  | [] => true
  | s' :: l' => edge s s' && path edge s' l'
  end.

(** Between [w] and [w'] the trace grew, every value [state] took was
    announced by the state-transition routine, and the announced values
    follow [edge] from the value in [w] to the value in [w']. *)
Definition moves_along
    (edge : GstSctpAssociationState -> GstSctpAssociationState -> bool)
    (w w' : world) : Prop :=
  exists t,
    trace w' = trace w ++ t
    /\ path edge (state (self w)) (notified t) = true
    /\ last (notified t) (state (self w)) = state (self w').

Definition writes_state_property (op : operation) : bool :=
  match op with
  | Set_property PROP_STATE _ => true
  | _ => false
  end.

(** The sequences of states that an operation other than a write of the
    [state] property can announce when it starts in state [s] (an upper
    bound, by kind of operation). *)
Definition may_announce (op : operation) (s : GstSctpAssociationState)
    : list (list GstSctpAssociationState) :=
  match op with
  | Set_property _ _ | Set_on_packet_out _ _ | Set_on_packet_received _ _ =>
      match s with
      | GST_SCTP_ASSOCIATION_STATE_NEW =>
          [[]; [GST_SCTP_ASSOCIATION_STATE_READY]]
      | _ => [[]]
      end
  | Start _ _ =>
      match s with
      | GST_SCTP_ASSOCIATION_STATE_READY
      | GST_SCTP_ASSOCIATION_STATE_DISCONNECTED =>
          [[GST_SCTP_ASSOCIATION_STATE_CONNECTING];
           [GST_SCTP_ASSOCIATION_STATE_ERROR]]
      | _ => [[]]
      end
  | Disconnect _ _ | Receive _ _ _ _ =>
      match s with
      | GST_SCTP_ASSOCIATION_STATE_CONNECTING =>
          [[]; [GST_SCTP_ASSOCIATION_STATE_CONNECTED]]
      | GST_SCTP_ASSOCIATION_STATE_CONNECTED =>
          [[]; [GST_SCTP_ASSOCIATION_STATE_DISCONNECTING;
                GST_SCTP_ASSOCIATION_STATE_DISCONNECTED]]
      | GST_SCTP_ASSOCIATION_STATE_DISCONNECTING =>
          [[]; [GST_SCTP_ASSOCIATION_STATE_DISCONNECTED]]
      | _ => [[]]
      end
  | _ => [[]]
  end.

(** A computation that neither writes [state] nor announces anything. *)
Definition quiet {A} (m : M A) : Prop :=
  forall w x w',
    m w = Some (x, w') ->
    state (self w') = state (self w)
    /\ exists t, trace w' = trace w ++ t /\ notified t = [].

(** From [w], whatever [m] announces is one of [choices], and [state] ends
    at the last announced value (where it was, if nothing is announced). *)
Definition announces {A} (m : M A) (w : world)
    (choices : list (list GstSctpAssociationState)) : Prop :=
  forall x w',
    m w = Some (x, w') ->
    exists t,
      trace w' = trace w ++ t
      /\ In (notified t) choices
      /\ last (notified t) (state (self w)) = state (self w').

(** The four mutations that the promotion to READY waits for. *)
Definition is_config_mutation (op : operation) : bool :=
  match op with
  | Set_property PROP_LOCAL_PORT _ | Set_property PROP_REMOTE_PORT _
  | Set_on_packet_out _ _ | Set_on_packet_received _ _ => true
  | _ => false
  end.

(** The guard of [maybe_set_state_to_ready] without its test of [state]. *)
Definition configured (a : GstSctpAssociation) : bool :=
  negb (local_port a =? 0) && negb (remote_port a =? 0)
  && not_null (packet_out_cb a) && not_null (packet_received_cb a).

(** Which of the four a mutation is (4: none of them). *)
Definition kind (op : operation) : nat :=
  match op with
  | Set_property PROP_LOCAL_PORT _ => 0
  | Set_property PROP_REMOTE_PORT _ => 1
  | Set_on_packet_out _ _ => 2
  | Set_on_packet_received _ _ => 3
  | _ => 4
  end.

(** A mutation that sets its part: a port that is not 0 as a 16-bit value,
    a callback that is not [NULL]. *)
Definition sets_its_part (op : operation) : bool :=
  match op with
  | Set_property PROP_LOCAL_PORT v | Set_property PROP_REMOTE_PORT v =>
      negb (wrap16 (g_value_get_uint v) =? 0)
  | Set_on_packet_out cb _ | Set_on_packet_received cb _ => not_null cb
  | _ => false
  end.

Definition provided (ops : list operation) (k : nat) : bool :=
  existsb (fun op => Nat.eqb (kind op) k) ops.

(** The parts that are set in an association, by [kind]. *)
Definition part_set (a : GstSctpAssociation) (k : nat) : bool :=
  match k with
  | 0%nat => negb (local_port a =? 0)
  | 1%nat => negb (remote_port a =? 0)
  | 2%nat => not_null (packet_out_cb a)
  | 3%nat => not_null (packet_received_cb a)
  | _ => true
  end.

(** The state that the automatic promotion gives a configuration. *)
Definition promoted (a : GstSctpAssociation) : Prop :=
  state a
  = if configured a then GST_SCTP_ASSOCIATION_STATE_READY
    else GST_SCTP_ASSOCIATION_STATE_NEW.

(** An event is well formed when its length field counts the fixed part
    and two bytes for each listed stream, within 32 bits. *)
Definition well_formed_event (sr : sctp_stream_reset_event) : Prop :=
  0 <= sizeof_sctp_stream_reset_event
  /\ strreset_length sr
     = sizeof_sctp_stream_reset_event
       + 2 * Z.of_nat (List.length (strreset_stream_list sr))
  /\ strreset_length sr < 4294967296.

(** A communication-lost or shutdown-complete notification, as the engine
    delivers it. *)
Definition lost_or_shutdown (sac : sctp_assoc_change) : bool :=
  match sac_state sac with
  | SCTP_COMM_LOST | SCTP_SHUTDOWN_COMP => true
  | _ => false
  end.

Definition deliver_assoc_change (sac : sctp_assoc_change) (len : Z)
    (ans_associnfo ans_peer_addr_params : Z) : M Z :=
  receive_cb true
    (Delivery_notification (Notification_assoc_change sac) len len)
    ans_associnfo ans_peer_addr_params.

(** The engine calls and warnings of [_apply_aggressive_heartbeat_unlocked]
    on an association [a], for the two answers of the engine. *)
Definition heartbeat_actions (a : GstSctpAssociation)
    (ans_associnfo ans_peer_addr_params : Z) : list action :=
  if aggressive_heartbeat a then
    [Usrsctp_setsockopt (sctp_ass_sock a)
       (SCTP_ASSOCINFO (sctp_assoc_id a) 1)]
    ++ (if ans_associnfo =? 0 then []
        else [G_warning "Could not set SCTP_ASSOCINFO"])
    ++ [Usrsctp_setsockopt (sctp_ass_sock a)
          (SCTP_PEER_ADDR_PARAMS (get_sctp_socket_address (remote_port a))
             SPP_HB_ENABLE 10)]
    ++ (if ans_peer_addr_params =? 0 then []
        else [G_warning "Could not set SCTP_PEER_ADDR_PARAMS"])
  else [].

(** The actions of the forced teardown on an association [a]. *)
Definition teardown_actions (a : GstSctpAssociation) : list action :=
  match connection_thread a with
  | Some t => [G_thread_join t]
  | None => []
  end
  ++ match sctp_ass_sock a with
     | Some sock => [Usrsctp_close sock]
     | None => []
     end
  ++ [Notify_state GST_SCTP_ASSOCIATION_STATE_DISCONNECTED].

(** The association after the forced teardown. *)
Definition torn_down (a : GstSctpAssociation) : GstSctpAssociation :=
  set_state GST_SCTP_ASSOCIATION_STATE_DISCONNECTED
    (set_sctp_assoc_id 0
       (set_done_connect false
          (set_sctp_ass_sock None (set_connection_thread None a)))).

(** ** Further vocabulary: frames, resources and outcomes *)

(** Every defined run of [m] relates the association before and after
    by [R]. *)
Definition keeps (R : GstSctpAssociation -> GstSctpAssociation -> Prop)
    {A} (m : M A) : Prop :=
  forall w x w', m w = Some (x, w') -> R (self w) (self w').

(** Equal in every field but [done_connect]. *)
Definition same_except_done_connect (a a' : GstSctpAssociation) : Prop :=
  set_done_connect false a' = set_done_connect false a.

(** Equal in every field but [shutdown]. *)
Definition same_except_shutdown (a a' : GstSctpAssociation) : Prop :=
  set_shutdown false a' = set_shutdown false a.

Definition same_ports (a a' : GstSctpAssociation) : Prop :=
  local_port a' = local_port a /\ remote_port a' = remote_port a.

(** The sockets closed, the sleeps, the bind attempts and the workers
    started in a trace, and the trace without its warnings: the calls
    themselves, each with its arguments, in order. *)
Fixpoint closed (t : list action) : list socket :=
  match t with
  | [] => []
  | Usrsctp_close s :: t' => s :: closed t'
  | _ :: t' => closed t'
  end.

Definition is_warning (e : action) : bool :=
  match e with
  | G_warning _ => true
  | _ => false
  end.

Definition without_warnings (t : list action) : list action :=
  filter (fun e => negb (is_warning e)) t.

Fixpoint sleeps (t : list action) : nat :=
  match t with
  | [] => 0
  | G_usleep _ :: t' => S (sleeps t')
  | _ :: t' => sleeps t'
  end.

Fixpoint bind_attempts (t : list action) : nat :=
  match t with
  | [] => 0
  | Usrsctp_bind _ _ :: t' => S (bind_attempts t')
  | _ :: t' => bind_attempts t'
  end.

Fixpoint workers_started (t : list action) : nat :=
  match t with
  | [] => 0
  | G_thread_new _ :: t' => S (workers_started t')
  | _ :: t' => workers_started t'
  end.

(** The answers under which [create_sctp_socket] keeps the socket it got:
    the four settings whose failure jumps to [error:]. *)
Definition mandatory_settings_accepted (ans : socket_answers) : bool :=
  negb (ans_set_non_blocking ans <? 0)
  && negb (ans_so_linger ans <? 0)
  && (ans_nodelay ans =? 0)
  && (ans_enable_stream_reset ans =? 0).

Definition socket_result (ans : socket_answers) : option socket :=
  match ans_usrsctp_socket ans with
  | Some sock => if mandatory_settings_accepted ans then Some sock else None
  | None => None
  end.

(** What holds of an association between two operations, by state: no
    socket, no worker and no engine association id outside CONNECTING and
    CONNECTED, a worker in both, no engine association id in CONNECTING,
    non-zero ports outside NEW, and never DISCONNECTING. *)
Definition at_rest (a : GstSctpAssociation) : bool :=
  match state a with
  | GST_SCTP_ASSOCIATION_STATE_NEW =>
      negb (not_null (sctp_ass_sock a))
      && negb (not_null (connection_thread a))
      && (sctp_assoc_id a =? 0)
  | GST_SCTP_ASSOCIATION_STATE_READY
  | GST_SCTP_ASSOCIATION_STATE_DISCONNECTED
  | GST_SCTP_ASSOCIATION_STATE_ERROR =>
      negb (not_null (sctp_ass_sock a))
      && negb (not_null (connection_thread a))
      && (sctp_assoc_id a =? 0)
      && negb (local_port a =? 0) && negb (remote_port a =? 0)
  | GST_SCTP_ASSOCIATION_STATE_CONNECTING =>
      not_null (connection_thread a)
      && (sctp_assoc_id a =? 0)
      && negb (local_port a =? 0) && negb (remote_port a =? 0)
  | GST_SCTP_ASSOCIATION_STATE_CONNECTED =>
      not_null (connection_thread a)
      && negb (local_port a =? 0) && negb (remote_port a =? 0)
  | GST_SCTP_ASSOCIATION_STATE_DISCONNECTING => false
  end.

(** The operations of the data path and the read-only ones. *)
Definition is_data_path (op : operation) : bool :=
  match op with
  | Get_property _ | Incoming_packet _ _ | Send_data _ _ _ _ _ _ _ _
  | Reset_stream _ | Packet_out _ _ _ => true
  | Receive _ (Delivery_message _ _ _ _) _ _ => true
  | Receive _ (Delivery_notification (Notification_other _) _ _) _ _ => true
  | Receive _ (Delivery_notification (Notification_stream_reset _) _ _) _ _ =>
      true
  | Receive _ (Delivery_notification (Notification_assoc_change sac) _ _)
      _ _ =>
      match sac_state sac with
      | SCTP_RESTART | SCTP_CANT_STR_ASSOC | sac_state_other _ => true
      | _ => false
      end
  | _ => false
  end.

(** The graceful handshake is attempted: stream mode and a live socket. *)
Definition handshake_attempted (try_shutdown : bool)
    (a : GstSctpAssociation) : bool :=
  try_shutdown && use_sock_stream a && not_null (sctp_ass_sock a).

(** A value of the type and range that the property [id] is installed
    with in [gst_sctp_association_class_init]. *)
Definition property_value_ok (id : prop_id) (v : GValue) : bool :=
  match id, v with
  | PROP_ASSOCIATION_ID, G_value_uint z
  | PROP_LOCAL_PORT, G_value_uint z
  | PROP_REMOTE_PORT, G_value_uint z => (0 <=? z) && (z <=? 65535)
  | PROP_STATE, G_value_enum _ => true
  | PROP_USE_SOCK_STREAM, G_value_boolean _
  | PROP_DEBUG_SCTP, G_value_boolean _
  | PROP_AGGRESSIVE_HEARTBEAT, G_value_boolean _ => true
  | _, _ => false
  end.

(** The number of streams that [handle_stream_reset_event] computes from
    the length field. *)
Definition stream_count_of (sr : sctp_stream_reset_event) : nat :=
  Z.to_nat
    (wrap32
       (wrap_size_t (strreset_length sr - sizeof_sctp_stream_reset_event)
        / 2)).

(** The answers of [usrsctp_connect] that [client_role_connect] takes for
    success: no error, or [EINPROGRESS]. *)
Definition connect_accepted (ans_connect : Z * errno_t) : bool :=
  negb ((fst ans_connect <? 0)
        && negb match snd ans_connect with
                | EINPROGRESS => true
                | _ => false
                end).

(** One failed bind attempt on [sock] with the sleep that follows it. *)
Definition bind_and_sleep (sock : option socket) (addr : sockaddr_conn)
    : list action :=
  [Usrsctp_bind sock addr; G_usleep 10000].

Definition incoming_packets (packets : list (bytes * Z)) : list operation :=
  map (fun p => Incoming_packet (fst p) (snd p)) packets.

End Executions.

(** ** The registry

    The static variables of the file -- the two hash tables and the counter
    of associations -- with the instances that GObject has allocated, in
    explicit state passing.  A [GHashTable] with direct keys is a list of
    pairs without repeated keys; a table that was never created is [None],
    and GLib's functions refuse it (lookup and membership answer no, removal
    does nothing).  The global lock is not modelled: the functions run one
    after the other. *)

Definition table (V : Type) : Type := list (Z * V).

Fixpoint g_hash_table_lookup {V} (t : table V) (k : Z) : option V :=
  match t with
  | [] => None
  | (k', v) :: t' => if k' =? k then Some v else g_hash_table_lookup t' k
  end.

Fixpoint g_hash_table_remove {V} (t : table V) (k : Z) : table V :=
  match t with
  | [] => []
  | (k', v) :: t' =>
      if k' =? k then g_hash_table_remove t' k
      else (k', v) :: g_hash_table_remove t' k
  end.

Definition g_hash_table_insert {V} (t : table V) (k : Z) (v : V) : table V :=
  (k, v) :: g_hash_table_remove t k.

Definition g_hash_table_contains {V} (t : table V) (k : Z) : bool :=
  not_null (g_hash_table_lookup t k).

(** What the process does besides the actions of one association. *)
Inductive process_action : Type :=
| On_association (p : Z) (e : action)
| Usrsctp_init
| Usrsctp_sysctl_set_sctp_ecn_enable (v : Z)
| Usrsctp_sysctl_set_sctp_nr_outgoing_streams_default (n : Z)
| Usrsctp_register_address (p : Z)
| Usrsctp_deregister_address (p : Z)
| Usrsctp_finish
| G_object_ref (p : Z)
| G_object_warn_out_of_range (p : Z) (id : prop_id).

(** [objects] are the instances alive, by address. *)
Record process : Type := mkProcess {
  associations_by_id : option (table Z);
  ids_by_association : option (table Z);
  number_of_associations : Z;
  objects : table GstSctpAssociation;
  events : list process_action
}.

Definition process_start : process :=
  {| associations_by_id := None;
     ids_by_association := None;
     number_of_associations := 0;
     objects := [];
     events := [] |}.

Section Registry.

Context {usrsctp : Usrsctp}.

(** A computation of the association at address [p], on the instance stored
    there; its actions go to the events of the process.  No result when
    there is no instance at [p]. *)
Definition on_object {A} (p : Z) (m : M A) (pr : process)
    : option (A * process) :=
  match g_hash_table_lookup (objects pr) p with
  | None => None
  | Some a =>
      match m (mkWorld a []) with
      | None => None
      | Some (x, w') =>
          Some (x,
                mkProcess (associations_by_id pr) (ids_by_association pr)
                  (number_of_associations pr)
                  (g_hash_table_insert (objects pr) p (self w'))
                  (events pr ++ map (On_association p) (trace w')))
      end
  end.

(** [gst_sctp_association_init] on the instance that GObject allocated,
    zero filled, at [p]: the engine is set up by the first association, the
    counter goes up, the fields are set and the address is registered. *)
Definition gst_sctp_association_init_instance (p : Z) (pr : process)
    : process :=
  mkProcess (associations_by_id pr) (ids_by_association pr)
    (wrap32 (number_of_associations pr + 1))
    (g_hash_table_insert (objects pr) p gst_sctp_association_init)
    (events pr
     ++ (if number_of_associations pr =? 0
         then [Usrsctp_init; Usrsctp_sysctl_set_sctp_ecn_enable 0;
               Usrsctp_sysctl_set_sctp_nr_outgoing_streams_default 65535]
         else [])
     ++ [Usrsctp_register_address p]).

(** [g_object_new (GST_SCTP_TYPE_ASSOCIATION, "association-id", id, NULL)]
    where the allocator answers with the address [p], which is not null and
    not the address of an instance alive.  GObject checks the value against
    the range the property is installed with (0 .. [G_MAXUSHORT]) and calls
    [set_property] only for a value within it. *)
Definition g_object_new (p : Z) (association_id : Z) (pr : process)
    : option process :=
  if (p =? 0) || not_null (g_hash_table_lookup (objects pr) p) then None
  else
    let pr1 := gst_sctp_association_init_instance p pr in
    if association_id <=? 65535 then
      match on_object p
              (gst_sctp_association_set_property PROP_ASSOCIATION_ID
                 (G_value_uint association_id)) pr1 with
      | Some (_, pr2) => Some pr2
      | None => None
      end
    else
      Some (mkProcess (associations_by_id pr1) (ids_by_association pr1)
              (number_of_associations pr1) (objects pr1)
              (events pr1
               ++ [G_object_warn_out_of_range p PROP_ASSOCIATION_ID])).

(** [p] is the address the allocator would give if an instance is made. *)
Definition gst_sctp_association_get (association_id : Z) (p : Z)
    (pr : process) : option (Z * process) :=
  let by_id :=
    match associations_by_id pr with
    | Some t => t
    | None => []
    end in
  let ids :=
    match associations_by_id pr with
    | Some _ => ids_by_association pr
    | None => Some []
    end in
  let found :=
    match g_hash_table_lookup by_id (wrap32 association_id) with
    | Some q => if q =? 0 then None else Some q
    | None => None
    end in
  match found with
  | Some q =>
      Some (q,
            mkProcess (Some by_id) ids (number_of_associations pr)
              (objects pr) (events pr ++ [G_object_ref q]))
  | None =>
      match g_object_new p (wrap32 association_id)
              (mkProcess (Some by_id) ids (number_of_associations pr)
                 (objects pr) (events pr)) with
      | None => None
      | Some pr1 =>
          Some (p,
                mkProcess
                  (Some (g_hash_table_insert by_id (wrap32 association_id) p))
                  (match ids_by_association pr1 with
                   | Some t =>
                       Some (g_hash_table_insert t p (wrap32 association_id))
                   | None => None
                   end)
                  (number_of_associations pr1) (objects pr1) (events pr1))
      end
  end.

(** No result when there is no instance at [p]. *)
Definition gst_sctp_association_dispose (p : Z) (pr : process)
    : option process :=
  match g_hash_table_lookup (objects pr) p with
  | None => None
  | Some a =>
      let n := wrap32 (number_of_associations pr - 1) in
      Some
        (mkProcess
           (match associations_by_id pr with
            | Some t => Some (g_hash_table_remove t (association_id a))
            | None => None
            end)
           (match ids_by_association pr with
            | Some t => Some (g_hash_table_remove t p)
            | None => None
            end)
           n (objects pr)
           (events pr
            ++ [Usrsctp_deregister_address p]
            ++ (if n =? 0 then [Usrsctp_finish] else [])
            ++ match connection_thread a with
               | Some t => [On_association p (G_thread_join t)]
               | None => []
               end))
  end.

(** The parent's finalizer frees the instance. *)
Definition gst_sctp_association_finalize (p : Z) (pr : process) : process :=
  mkProcess (associations_by_id pr) (ids_by_association pr)
    (number_of_associations pr) (g_hash_table_remove (objects pr) p)
    (events pr).

Definition association_is_valid (p : Z) (pr : process) : bool :=
  match ids_by_association pr with
  | Some t => g_hash_table_contains t p
  | None => false
  end.

(** The callbacks of the engine, which hands back the address it was
    given: the instance is looked at only if the registry knows the
    address. *)
Definition sctp_packet_out_at (p : Z) (buffer : bytes) (length : Z)
    (pr : process) : option (Z * process) :=
  if association_is_valid p pr
  then on_object p (sctp_packet_out true buffer length) pr
  else Some (0, pr).

Definition receive_cb_at (p : Z) (d : delivery)
    (ans_associnfo ans_peer_addr_params : Z) (pr : process)
    : option (Z * process) :=
  if association_is_valid p pr
  then on_object p (receive_cb true d ans_associnfo ans_peer_addr_params) pr
  else Some (1, pr).

(** What happens in the process: a lookup-or-create, the release of the
    last reference (GObject disposes and finalizes), an operation of the
    holder of an association, and the two callbacks of the engine. *)
Inductive process_operation : Type :=
| Get (association_id : Z) (p : Z)
| Release (p : Z)
| Call (p : Z) (op : operation)
| Engine_packet_out (p : Z) (buffer : bytes) (length : Z)
| Engine_receive (p : Z) (d : delivery)
    (ans_associnfo ans_peer_addr_params : Z).

Definition process_step (o : process_operation) (pr : process)
    : option process :=
  match o with
  | Get id p =>
      match gst_sctp_association_get id p pr with
      | Some (_, pr') => Some pr'
      | None => None
      end
  | Release p =>
      match gst_sctp_association_dispose p pr with
      | Some pr' => Some (gst_sctp_association_finalize p pr')
      | None => None
      end
  | Call p op =>
      match on_object p (step op) pr with
      | Some (_, pr') => Some pr'
      | None => None
      end
  | Engine_packet_out p buffer length =>
      match sctp_packet_out_at p buffer length pr with
      | Some (_, pr') => Some pr'
      | None => None
      end
  | Engine_receive p d r1 r2 =>
      match receive_cb_at p d r1 r2 pr with
      | Some (_, pr') => Some pr'
      | None => None
      end
  end.

Fixpoint process_run (os : list process_operation) (pr : process)
    : option process :=
  match os with
  | [] => Some pr
  | o :: os' =>
      match process_step o pr with
      | Some pr' => process_run os' pr'
      | None => None
      end
  end.

(** The operations that keep the registry in order: identifiers within
    the range of the property, and no write of the association-id
    property after creation. *)
Definition keeps_identifier (o : process_operation) : bool :=
  match o with
  | Get id _ => (0 <=? id) && (id <=? 65535)
  | Call _ (Set_property PROP_ASSOCIATION_ID _) => false
  | _ => true
  end.

(** Whether the engine is set up, by the events so far. *)
Fixpoint engine_running_from (b : bool) (l : list process_action) : bool :=
  match l with
  | [] => b
  | Usrsctp_init :: l' => engine_running_from true l'
  | Usrsctp_finish :: l' => engine_running_from false l'
  | _ :: l' => engine_running_from b l'
  end.

Definition engine_running (l : list process_action) : bool :=
  engine_running_from false l.

(** The registry in order: the tables exist together and are inverse to
    one another; what they hold are the instances alive, each under the
    identifier in its field, which is within the range of the property, and
    at a non-null address that occurs once; the counter counts them; the
    engine is set up exactly when the counter is not zero. *)
Definition registry_ok (pr : process) : Prop :=
  match associations_by_id pr, ids_by_association pr with
  | None, None => objects pr = []
  | Some by_id, Some ids =>
      (forall id p,
         g_hash_table_lookup by_id id = Some p
         <-> g_hash_table_lookup ids p = Some id)
      /\ (forall p,
            (exists id, g_hash_table_lookup ids p = Some id)
            <-> (exists a, g_hash_table_lookup (objects pr) p = Some a))
      /\ (forall p id a,
            g_hash_table_lookup ids p = Some id ->
            g_hash_table_lookup (objects pr) p = Some a ->
            association_id a = id /\ p <> 0 /\ 0 <= id <= 65535)
  | _, _ => False
  end
  /\ NoDup (map fst (objects pr))
  /\ number_of_associations pr = Z.of_nat (List.length (objects pr))
  /\ engine_running (events pr) = negb (number_of_associations pr =? 0).

(** The process once the tables exist, as [gst_sctp_association_get]
    makes them on its first call. *)
Definition with_tables (pr : process) : process :=
  mkProcess
    (Some match associations_by_id pr with Some t => t | None => [] end)
    (match associations_by_id pr with
     | Some _ => ids_by_association pr
     | None => Some []
     end)
    (number_of_associations pr) (objects pr) (events pr).

(** The identifier under which [p] is registered, if it is. *)
Definition registered_id (pr : process) (p : Z) : option Z :=
  match ids_by_association pr with
  | Some t => g_hash_table_lookup t p
  | None => None
  end.

(** The association registered under [id], if there is one. *)
Definition registered_association (pr : process) (id : Z) : option Z :=
  match associations_by_id pr with
  | Some t => g_hash_table_lookup t id
  | None => None
  end.

(** The instance that [gst_sctp_association_get] makes for [id]. *)
Definition new_association (id : Z) : GstSctpAssociation :=
  set_association_id id gst_sctp_association_init.

(** The association-id field alone is equal. *)
Definition same_identifier (a a' : GstSctpAssociation) : Prop :=
  association_id a' = association_id a.

End Registry.

(** ** Sample data

    The header values of usrsctp on a little-endian host, and a few
    associations and engine answers, for the concrete runs below. *)

Definition byte_swap32 (z : Z) : Z :=
  Z.lor (Z.shiftl (Z.land z 255) 24)
    (Z.lor (Z.shiftl (Z.land (Z.shiftr z 8) 255) 16)
       (Z.lor (Z.shiftl (Z.land (Z.shiftr z 16) 255) 8)
          (Z.land (Z.shiftr z 24) 255))).

Definition byte_swap16 (z : Z) : Z :=
  Z.lor (Z.shiftl (Z.land z 255) 8) (Z.land (Z.shiftr z 8) 255).

Definition usrsctp_h : Usrsctp :=
  {| SCTP_UNORDERED := 1024;
     SCTP_SEND_SNDINFO_VALID := 1;
     SCTP_SEND_PRINFO_VALID := 2;
     SCTP_PR_SCTP_TTL := 1;
     SCTP_PR_SCTP_RTX := 3;
     SCTP_PR_SCTP_BUF := 2;
     SCTP_STREAM_RESET_OUTGOING := 2;
     SCTP_STREAM_RESET_INCOMING_SSN := 1;
     SCTP_STREAM_RESET_DENIED := 4;
     SPP_HB_ENABLE := 1;
     sizeof_sctp_stream_reset_event := 12;
     g_htonl := byte_swap32;
     g_htons := byte_swap16;
     ntohl := byte_swap32 |}.

(** The engine creates socket 1 and accepts every option. *)
Definition socket_created : socket_answers :=
  {| ans_usrsctp_socket := Some 1;
     ans_set_non_blocking := 0;
     ans_so_linger := 0;
     ans_nodelay := 0;
     ans_enable_stream_reset := 0;
     ans_event := fun _ => 0 |}.

(** The engine has no socket to give. *)
Definition socket_refused : socket_answers :=
  {| ans_usrsctp_socket := None;
     ans_set_non_blocking := 0;
     ans_so_linger := 0;
     ans_nodelay := 0;
     ans_enable_stream_reset := 0;
     ans_event := fun _ => 0 |}.

Definition fresh_world : world := mkWorld gst_sctp_association_init [].

(** An association with ports 5000 and 5001 and both callbacks, in the
    given state, with socket 1, worker 9 and a completed connect attempt. *)
Definition live_association (s : GstSctpAssociationState)
    : GstSctpAssociation :=
  {| association_id := 1;
     local_port := 5000;
     remote_port := 5001;
     use_sock_stream := false;
     debug_sctp := false;
     aggressive_heartbeat := false;
     state := s;
     sctp_ass_sock := Some 1;
     sctp_assoc_id := 77;
     done_connect := true;
     shutdown := false;
     connection_thread := Some 9;
     packet_out_cb := Some 100;
     packet_out_user_data := 0;
     packet_received_cb := Some 200;
     packet_received_user_data := 0 |}.

Definition live_world (s : GstSctpAssociationState) : world :=
  mkWorld (live_association s) [].

(** The same association after a disconnect: no socket, no worker. *)
Definition idle_world (s : GstSctpAssociationState) : world :=
  mkWorld (set_state s
             (torn_down (live_association
                           GST_SCTP_ASSOCIATION_STATE_DISCONNECTING))) [].

Definition comm_lost : sctp_assoc_change :=
  {| sac_state := SCTP_COMM_LOST; sac_assoc_id := 77 |}.

Definition comm_up : sctp_assoc_change :=
  {| sac_state := SCTP_COMM_UP; sac_assoc_id := 78 |}.

(** The four configuration calls of the example scenario. *)
Definition configure_5000_5001 : list operation :=
  [Set_property PROP_LOCAL_PORT (G_value_uint 5000);
   Set_property PROP_REMOTE_PORT (G_value_uint 5001);
   Set_on_packet_out (Some 100) 0;
   Set_on_packet_received (Some 200) 0].

(** The example scenario of the specification: configure, start, the
    worker connects, communication-up, one send on stream 3, disconnect. *)
Definition example_scenario : list operation :=
  configure_5000_5001
  ++ [Start socket_created 9;
      Connection_thread [(0, errno_other)] (-1, EINPROGRESS);
      Receive true
        (Delivery_notification (Notification_assoc_change comm_up) 20 20) 0 0;
      Send_data [1; 2; 3] 3 3 51 true
        GST_SCTP_ASSOCIATION_PARTIAL_RELIABILITY_NONE 0 3;
      Disconnect 0 0].

(** One association, made for identifier 5 at address 1000. *)
Definition one_association : process :=
  {| associations_by_id := Some [(5, 1000)];
     ids_by_association := Some [(1000, 5)];
     number_of_associations := 1;
     objects := [(1000, new_association 5)];
     events := [Usrsctp_init; Usrsctp_sysctl_set_sctp_ecn_enable 0;
                Usrsctp_sysctl_set_sctp_nr_outgoing_streams_default 65535;
                Usrsctp_register_address 1000] |}.

(** Two associations are made, the first is looked up again and given a
    local port, the engine calls back for it, the second is released and
    the engine calls back for it. *)
Definition registry_scenario : list process_operation :=
  [Get 5 1000; Get 7 2000; Get 5 3000;
   Call 1000 (Set_property PROP_LOCAL_PORT (G_value_uint 5000));
   Engine_packet_out 1000 [1; 2] 2;
   Release 2000;
   Engine_packet_out 2000 [1; 2] 2].

(** A stream-reset event for streams 7 and 9 whose length field counts
    one stream. *)
Definition reset_of_two_counting_one : sctp_stream_reset_event :=
  {| strreset_flags := 1; strreset_length := 14;
     strreset_stream_list := [7; 9] |}.

(** ** Properties *)

Section Properties.

Context {usrsctp : Usrsctp}.

Arguments wrap16 : simpl never.

(** ** Basic facts *)

Lemma state_eqb_eq (s t : GstSctpAssociationState) :
  state_eqb s t = true <-> s = t.
Proof. destruct s, t; simpl; split; congruence. Qed.

Lemma notified_app (t1 t2 : list action) :
  notified (t1 ++ t2) = notified t1 ++ notified t2.
Proof.
  induction t1 as [|e t1 IH]; [reflexivity|].
  destruct e; simpl; rewrite IH; reflexivity.
Qed.

Lemma last_cons_default {A} (l : list A) (x d : A) :
  last (x :: l) d = last l x.
Proof.
  revert x d. induction l as [|y l IH]; intros x d; [reflexivity|].
  change (last (y :: l) d = last (y :: l) x).
  rewrite !IH. reflexivity.
Qed.

Lemma last_app_default {A} (l1 l2 : list A) (d : A) :
  last (l1 ++ l2) d = last l2 (last l1 d).
Proof.
  revert d. induction l1 as [|x l1 IH]; intros d; [reflexivity|].
  rewrite <- app_comm_cons, !last_cons_default. apply IH.
Qed.

Lemma path_app edge (s : GstSctpAssociationState) l1 l2 :
  path edge s (l1 ++ l2) = path edge s l1 && path edge (last l1 s) l2.
Proof.
  revert s. induction l1 as [|x l1 IH]; intros s; [reflexivity|].
  rewrite <- app_comm_cons, last_cons_default. simpl.
  rewrite IH, andb_assoc. reflexivity.
Qed.

Lemma moves_along_refl edge (w : world) : moves_along edge w w.
Proof. exists []. rewrite app_nil_r. repeat split. Qed.

Lemma moves_along_trans edge (w1 w2 w3 : world) :
  moves_along edge w1 w2 -> moves_along edge w2 w3 -> moves_along edge w1 w3.
Proof.
  intros (t1 & Ht1 & Hp1 & Hl1) (t2 & Ht2 & Hp2 & Hl2).
  exists (t1 ++ t2). rewrite Ht2, Ht1, app_assoc, notified_app.
  rewrite path_app, last_app_default, Hl1, Hp1, Hp2, Hl2. repeat split.
Qed.

(** *** Quiet computations *)

Lemma quiet_ret {A} (x : A) : quiet (ret x).
Proof.
  intros w y w' H. inversion H; subst. split; [reflexivity|].
  exists []. now rewrite app_nil_r.
Qed.

Lemma quiet_undefined {A} : quiet (@undefined A).
Proof. intros w y w' H. discriminate. Qed.

Lemma quiet_get_self : quiet get_self.
Proof.
  intros w y w' H. inversion H; subst. split; [reflexivity|].
  exists []. now rewrite app_nil_r.
Qed.

Lemma quiet_emit (e : action) : notified [e] = [] -> quiet (emit e).
Proof.
  intros He w y w' H. inversion H; subst. simpl. split; [reflexivity|].
  exists [e]. now split.
Qed.

Lemma quiet_modify (f : GstSctpAssociation -> GstSctpAssociation) :
  (forall a, state (f a) = state a) -> quiet (modify f).
Proof.
  intros Hf w y w' H. inversion H; subst. simpl. split; [apply Hf|].
  exists []. now rewrite app_nil_r.
Qed.

Lemma quiet_bind {A B} (m : M A) (f : A -> M B) :
  quiet m -> (forall x, quiet (f x)) -> quiet (bind m f).
Proof.
  intros Hm Hf w y w' H. unfold bind in H.
  destruct (m w) as [[x w1]|] eqn:E; [|discriminate].
  destruct (Hm _ _ _ E) as (Hs1 & t1 & Ht1 & Hn1).
  destruct (Hf x _ _ _ H) as (Hs2 & t2 & Ht2 & Hn2).
  split; [congruence|].
  exists (t1 ++ t2). rewrite Ht2, Ht1, app_assoc, notified_app, Hn1, Hn2.
  now split.
Qed.

Lemma quiet_when (b : bool) (m : M unit) : quiet m -> quiet (when b m).
Proof. intros Hm. destruct b; [exact Hm|apply quiet_ret]. Qed.

Ltac quiet_step :=
  first
    [ apply quiet_ret
    | apply quiet_undefined
    | apply quiet_get_self
    | apply quiet_emit; reflexivity
    | apply quiet_modify; reflexivity
    | apply quiet_when
    | apply quiet_bind; [|intros ?]
    | match goal with
      | |- quiet (if ?b then _ else _) => destruct b
      | |- quiet (match ?x with _ => _ end) => destruct x
      end ].

Ltac quiet_tac := repeat quiet_step.

Lemma quiet_create_sctp_socket ans : quiet (create_sctp_socket ans).
Proof.
  unfold create_sctp_socket, create_sctp_socket_error. quiet_tac.
Qed.

Lemma quiet_wait_for_shutdown n arrival : quiet (wait_for_shutdown n arrival).
Proof.
  revert arrival. induction n as [|n IH]; intros arrival; simpl; quiet_tac.
  apply IH.
Qed.

Lemma quiet_bind_with_retry addr answers :
  quiet (bind_with_retry addr answers).
Proof.
  induction answers as [|[r e] rest IH]; simpl; quiet_tac. exact IH.
Qed.

Lemma quiet_stream_reset_loop sr i rounds :
  quiet (stream_reset_loop sr i rounds).
Proof.
  revert i. induction rounds as [|n IH]; intros i; simpl; quiet_tac.
  apply IH.
Qed.

Lemma quiet_force_close_unlocked :
  quiet gst_sctp_association_force_close_unlocked.
Proof. unfold gst_sctp_association_force_close_unlocked. quiet_tac. Qed.

(** *** What each operation announces *)

Lemma quiet_announces {A} (m : M A) (w : world) choices :
  quiet m -> In [] choices -> announces m w choices.
Proof.
  intros Hq Hin x w' H. destruct (Hq _ _ _ H) as (Hs & t & Ht & Hn).
  exists t. rewrite Hn. simpl. auto.
Qed.

Lemma announces_ret_tt {A} (m : M A) (w : world) choices :
  announces m w choices -> announces (m ;; ret tt) w choices.
Proof.
  intros Hm x w' H. unfold bind, ret in H.
  destruct (m w) as [[y w1]|] eqn:E; [|discriminate].
  inversion H; subst. eapply Hm. exact E.
Qed.

Ltac open_world w :=
  let a := fresh "a" in
  let t := fresh "t" in
  destruct w as [a t]; destruct a; simpl in *.

Ltac grown :=
  first
    [ exists []; split; [now rewrite app_nil_r|]
    | rewrite <- ?app_assoc; eexists; split; [reflexivity|] ];
  simpl; auto.

Ltac straight_line H :=
  unfold bind, get_self, modify, emit, ret, when, undefined in H;
  simpl in H;
  repeat match type of H with
         | context [if ?b then _ else _] => destruct b eqn:?; simpl in H
         | context [match ?x with Some _ => _ | None => _ end] =>
             destruct x eqn:?; simpl in H
         end;
  try discriminate; inversion H; subst; clear H; simpl.

Lemma set_property_announces id value (w : world) :
  id <> PROP_STATE ->
  announces (gst_sctp_association_set_property id value) w
    (may_announce (Set_property id value) (state (self w))).
Proof.
  intros Hid x w' H. open_world w.
  unfold gst_sctp_association_set_property, maybe_set_state_to_ready,
    gst_sctp_association_change_state_unlocked in H.
  destruct id; try congruence; destruct state0; straight_line H; grown.
Qed.

Lemma set_on_packet_out_announces cb user_data (w : world) :
  announces (gst_sctp_association_set_on_packet_out cb user_data) w
    (may_announce (Set_on_packet_out cb user_data) (state (self w))).
Proof.
  intros x w' H. open_world w.
  unfold gst_sctp_association_set_on_packet_out, maybe_set_state_to_ready,
    gst_sctp_association_change_state_unlocked in H.
  destruct state0; straight_line H; grown.
Qed.

Lemma set_on_packet_received_announces cb user_data (w : world) :
  announces (gst_sctp_association_set_on_packet_received cb user_data) w
    (may_announce (Set_on_packet_received cb user_data) (state (self w))).
Proof.
  intros x w' H. open_world w.
  unfold gst_sctp_association_set_on_packet_received,
    maybe_set_state_to_ready, gst_sctp_association_change_state_unlocked in H.
  destruct state0; straight_line H; grown.
Qed.

Lemma start_announces ans thread (w : world) :
  announces (gst_sctp_association_start ans thread) w
    (may_announce (Start ans thread) (state (self w))).
Proof.
  intros x w' H.
  unfold gst_sctp_association_start in H. unfold bind at 1 in H.
  unfold get_self at 1 in H.
  destruct (negb (state_eqb (state (self w))
                    GST_SCTP_ASSOCIATION_STATE_READY)
            && negb (state_eqb (state (self w))
                       GST_SCTP_ASSOCIATION_STATE_DISCONNECTED)) eqn:Hs.
  - open_world w. destruct state0; try discriminate; straight_line H; grown.
  - unfold bind at 1 in H.
    destruct (create_sctp_socket ans w) as [[sock w1]|] eqn:C;
      [|discriminate].
    destruct (quiet_create_sctp_socket _ _ _ _ C) as (Hst & t1 & Ht1 & Hn1).
    unfold gst_sctp_association_change_state_unlocked in H.
    destruct w1 as [a1 tr1]; simpl in *; subst tr1.
    destruct sock; straight_line H; rewrite <- ?app_assoc;
      (eexists; split; [reflexivity|]); rewrite ?notified_app, Hn1;
      destruct (state (self w)); try discriminate; simpl; auto.
Qed.

Lemma quiet_shutdown_handshake try_shutdown ans_shutdown arrival :
  quiet (shutdown_handshake try_shutdown ans_shutdown arrival).
Proof.
  unfold shutdown_handshake.
  do 7 quiet_step; try apply quiet_wait_for_shutdown; quiet_tac.
Qed.

Ltac run_teardown :=
  unfold gst_sctp_association_disconnect_unlocked, shutdown_handshake,
    gst_sctp_association_force_close_unlocked,
    gst_sctp_association_change_state_unlocked, teardown_actions, torn_down;
  unfold bind, get_self, modify, emit, ret, when; simpl;
  rewrite <- ?app_assoc; try reflexivity.

Lemma teardown_result try_shutdown ans_shutdown arrival (w : world) :
  state (self w) = GST_SCTP_ASSOCIATION_STATE_DISCONNECTING ->
  gst_sctp_association_disconnect_unlocked try_shutdown ans_shutdown arrival w
  = Some (tt, mkWorld (torn_down (self w))
                (trace w ++ teardown_actions (self w))).
Proof.
  intros Hs. open_world w. subst state0.
  destruct connection_thread0, sctp_ass_sock0; run_teardown.
Qed.

Lemma ungraceful_disconnect_result (w : world) :
  state (self w) = GST_SCTP_ASSOCIATION_STATE_CONNECTED ->
  gst_sctp_association_disconnect_unlocked false 0 0 w
  = Some (tt, mkWorld (torn_down (self w))
                (trace w
                 ++ Notify_state GST_SCTP_ASSOCIATION_STATE_DISCONNECTING
                    :: teardown_actions (self w))).
Proof.
  intros Hs. open_world w. subst state0.
  destruct connection_thread0, sctp_ass_sock0; run_teardown.
Qed.

Lemma disconnect_elsewhere_result try_shutdown ans_shutdown arrival
    (w : world) :
  state (self w) <> GST_SCTP_ASSOCIATION_STATE_CONNECTED ->
  state (self w) <> GST_SCTP_ASSOCIATION_STATE_DISCONNECTING ->
  gst_sctp_association_disconnect_unlocked try_shutdown ans_shutdown arrival w
  = Some (tt, w).
Proof.
  intros H1 H2. open_world w.
  unfold gst_sctp_association_disconnect_unlocked.
  destruct state0; try congruence; reflexivity.
Qed.

Lemma disconnect_unlocked_announces try_shutdown ans_shutdown arrival
    (w : world) :
  announces
    (gst_sctp_association_disconnect_unlocked try_shutdown ans_shutdown
       arrival) w
    (may_announce (Disconnect ans_shutdown arrival) (state (self w))).
Proof.
  intros x w' H.
  destruct (state (self w)) eqn:Hs.
  4: {
    unfold gst_sctp_association_disconnect_unlocked in H.
    unfold bind at 1 in H. unfold get_self at 1 in H. rewrite Hs in H.
    simpl in H. unfold bind at 1 in H. unfold bind at 1 in H.
    unfold gst_sctp_association_change_state_unlocked in H.
    unfold bind at 1 in H. simpl in H.
    match type of H with
    | context [shutdown_handshake ?a ?b ?c ?v] =>
        destruct (shutdown_handshake a b c v) as [[u w1]|] eqn:S;
          [|discriminate]
    end.
    destruct (quiet_shutdown_handshake _ _ _ _ _ _ S) as (Hst & t1 & Ht1 & Hn1).
    simpl in Hst, Ht1.
    assert (T := teardown_result true 0 0%nat w1 Hst).
    unfold gst_sctp_association_disconnect_unlocked in T.
    unfold bind at 1 in T. unfold get_self at 1 in T. rewrite Hst in T.
    simpl in T. unfold bind at 1 in T. simpl in T.
    unfold gst_sctp_association_change_state_unlocked in T.
    rewrite T in H. inversion H; subst. simpl. rewrite Ht1.
    rewrite <- !app_assoc. eexists; split; [reflexivity|].
    unfold teardown_actions. rewrite !notified_app, Hn1.
    destruct (connection_thread (self w1)), (sctp_ass_sock (self w1));
      simpl; auto.
  }
  4: {
    rewrite teardown_result in H by exact Hs. inversion H; subst. simpl.
    eexists; split; [reflexivity|]. unfold teardown_actions.
    rewrite !notified_app.
    destruct (connection_thread (self w)), (sctp_ass_sock (self w));
      simpl; auto.
  }
  all: rewrite disconnect_elsewhere_result in H by congruence;
    inversion H; subst; exists []; rewrite app_nil_r, Hs; simpl; auto.
Qed.

Lemma announces_then_quiet {A B} (m : M A) (f : A -> M B) (w : world)
    choices :
  announces m w choices -> (forall x, quiet (f x)) ->
  announces (bind m f) w choices.
Proof.
  intros Hm Hf y w' H. unfold bind in H.
  destruct (m w) as [[x w1]|] eqn:E; [|discriminate].
  destruct (Hm _ _ E) as (t1 & Ht1 & Hin & Hl).
  destruct (Hf x _ _ _ H) as (Hs2 & t2 & Ht2 & Hn2).
  exists (t1 ++ t2).
  rewrite Ht2, Ht1, app_assoc, notified_app, Hn2, app_nil_r.
  repeat split; [assumption|congruence].
Qed.

Lemma comm_up_result sac ans_associnfo ans_peer_addr_params (w : world) :
  state (self w) = GST_SCTP_ASSOCIATION_STATE_CONNECTING ->
  handle_sctp_comm_up sac ans_associnfo ans_peer_addr_params w
  = Some (tt,
          mkWorld
            (set_state GST_SCTP_ASSOCIATION_STATE_CONNECTED
               (set_sctp_assoc_id (sac_assoc_id sac) (self w)))
            (trace w
             ++ heartbeat_actions
                  (set_sctp_assoc_id (sac_assoc_id sac) (self w))
                  ans_associnfo ans_peer_addr_params
             ++ [Notify_state GST_SCTP_ASSOCIATION_STATE_CONNECTED])).
Proof.
  intros Hs. open_world w. subst state0.
  unfold handle_sctp_comm_up, _apply_aggressive_heartbeat_unlocked,
    gst_sctp_association_change_state_unlocked, heartbeat_actions.
  unfold bind, get_self, modify, emit, ret, when; simpl.
  destruct aggressive_heartbeat0; simpl;
    [destruct (ans_associnfo =? 0), (ans_peer_addr_params =? 0); simpl|];
    rewrite <- ?app_assoc; reflexivity.
Qed.

Lemma comm_up_elsewhere sac ans_associnfo ans_peer_addr_params (w : world) :
  state (self w) <> GST_SCTP_ASSOCIATION_STATE_CONNECTING ->
  handle_sctp_comm_up sac ans_associnfo ans_peer_addr_params w = Some (tt, w).
Proof.
  intros Hs. open_world w. unfold handle_sctp_comm_up.
  destruct state0; try congruence; reflexivity.
Qed.

Lemma notified_heartbeat_actions a r1 r2 :
  notified (heartbeat_actions a r1 r2) = [].
Proof.
  unfold heartbeat_actions.
  destruct (aggressive_heartbeat a), (r1 =? 0), (r2 =? 0); reflexivity.
Qed.

Lemma comm_up_announces sac r1 r2 d (w : world) :
  announces (handle_sctp_comm_up sac r1 r2) w
    (may_announce (Receive true d r1 r2) (state (self w))).
Proof.
  intros x w' H.
  destruct (state (self w)) eqn:Hs.
  3: {
    rewrite comm_up_result in H by exact Hs. inversion H; subst. simpl.
    eexists; split; [reflexivity|].
    rewrite notified_app, notified_heartbeat_actions. simpl. auto.
  }
  all: rewrite comm_up_elsewhere in H by congruence;
    inversion H; subst; exists []; rewrite app_nil_r, Hs; simpl; auto.
Qed.

Lemma association_changed_announces sac r1 r2 d (w : world) :
  announces (handle_association_changed sac r1 r2) w
    (may_announce (Receive true d r1 r2) (state (self w))).
Proof.
  unfold handle_association_changed, handle_sctp_comm_lost_or_shutdown.
  destruct (sac_state sac).
  - apply comm_up_announces.
  - apply disconnect_unlocked_announces.
  - apply quiet_announces; [quiet_tac|destruct (state (self w)); simpl; auto].
  - apply disconnect_unlocked_announces.
  - apply quiet_announces; [quiet_tac|destruct (state (self w)); simpl; auto].
  - apply quiet_announces; [quiet_tac|destruct (state (self w)); simpl; auto].
Qed.

Lemma quiet_handle_stream_reset_event sr : quiet (handle_stream_reset_event sr).
Proof.
  unfold handle_stream_reset_event.
  destruct (_ && _); [apply quiet_stream_reset_loop|apply quiet_ret].
Qed.

Lemma receive_cb_announces valid d r1 r2 (w : world) :
  announces (receive_cb valid d r1 r2) w
    (may_announce (Receive valid d r1 r2) (state (self w))).
Proof.
  assert (Hnil : In [] (may_announce (Receive valid d r1 r2)
                          (state (self w))))
    by (destruct (state (self w)); simpl; auto).
  unfold receive_cb. destruct valid; simpl;
    [|apply quiet_announces; [quiet_tac|exact Hnil]].
  destruct d as [|n len datalen|data datalen sid ppid].
  - apply quiet_announces; [quiet_tac|exact Hnil].
  - apply announces_then_quiet; [|intros; quiet_tac].
    unfold handle_notification.
    destruct (negb (len =? datalen));
      [apply quiet_announces; [quiet_tac|exact Hnil]|].
    destruct n as [sac|sr|ty].
    + apply (association_changed_announces sac r1 r2
               (Delivery_notification (Notification_assoc_change sac)
                  len datalen)).
    + apply quiet_announces;
        [apply quiet_handle_stream_reset_event|exact Hnil].
    + apply quiet_announces; [quiet_tac|exact Hnil].
  - apply quiet_announces; [unfold handle_message; quiet_tac|exact Hnil].
Qed.

Lemma step_announces op (w : world) :
  writes_state_property op = false ->
  announces (step op) w (may_announce op (state (self w))).
Proof.
  intros Hop. destruct op; simpl step.
  - apply set_property_announces. intros ->. discriminate.
  - apply quiet_announces;
      [unfold gst_sctp_association_get_property; quiet_tac|simpl; auto].
  - apply set_on_packet_out_announces.
  - apply set_on_packet_received_announces.
  - apply announces_ret_tt, start_announces.
  - apply quiet_announces;
      [unfold gst_sctp_association_incoming_packet; quiet_tac|simpl; auto].
  - apply quiet_announces;
      [unfold gst_sctp_association_send_data; quiet_tac|simpl; auto].
  - apply quiet_announces;
      [unfold gst_sctp_association_reset_stream; quiet_tac|simpl; auto].
  - apply quiet_announces; [apply quiet_force_close_unlocked|simpl; auto].
  - apply disconnect_unlocked_announces.
  - apply quiet_announces; [|simpl; auto].
    unfold connection_thread_func, client_role_connect.
    apply quiet_bind; [|intros; apply quiet_ret].
    apply quiet_bind; [apply quiet_get_self|intros a].
    apply quiet_bind; [apply quiet_bind_with_retry|intros b]. quiet_tac.
  - apply quiet_announces; [unfold sctp_packet_out; quiet_tac|simpl; auto].
  - apply announces_ret_tt, receive_cb_announces.
Qed.

(** *** The state machine *)

Lemma may_announce_path op s l :
  In l (may_announce op s) -> path code_transition s l = true.
Proof.
  destruct op, s; simpl; intuition (subst; reflexivity).
Qed.

Lemma step_moves_along op (w w' : world) :
  writes_state_property op = false ->
  step op w = Some (tt, w') ->
  moves_along code_transition w w'.
Proof.
  intros Hop H. destruct (step_announces op w Hop _ _ H) as (t & Ht & Hin & Hl).
  exists t. repeat split; [exact Ht| |exact Hl].
  eapply may_announce_path. exact Hin.
Qed.

Lemma set_state_property_result s (w : world) :
  gst_sctp_association_set_property PROP_STATE (G_value_enum s) w
  = Some (tt, mkWorld (set_state s (self w)) (trace w)).
Proof.
  open_world w. unfold gst_sctp_association_set_property.
  destruct state0; reflexivity.
Qed.

(** C1 (as amended).  In every execution of calls that do not overlap --
    each returns before the next begins -- and that contains no write of
    the [state] property, [state] takes only values that the
    state-transition routine announced, and they follow the edges of the
    table of section 4.1 or the edge DISCONNECTED -> ERROR of a failed
    restart; neither NEW -> CONNECTED nor CONNECTED -> NEW is such an edge.
    A write of the [state] property stores the given value without the
    routine. *)
Theorem state_moves_along_transitions (ops : list operation) (w w' : world) :
  forallb (fun op => negb (writes_state_property op)) ops = true ->
  run ops w = Some (tt, w') ->
  moves_along code_transition w w'
  /\ (forall from to,
        code_transition from to = true ->
        spec_transition from to = true
        \/ (from = GST_SCTP_ASSOCIATION_STATE_DISCONNECTED
            /\ to = GST_SCTP_ASSOCIATION_STATE_ERROR))
  /\ code_transition GST_SCTP_ASSOCIATION_STATE_NEW
       GST_SCTP_ASSOCIATION_STATE_CONNECTED = false
  /\ code_transition GST_SCTP_ASSOCIATION_STATE_CONNECTED
       GST_SCTP_ASSOCIATION_STATE_NEW = false
  /\ (forall s v,
        gst_sctp_association_set_property PROP_STATE (G_value_enum s) v
        = Some (tt, mkWorld (set_state s (self v)) (trace v))).
Proof.
  intros Hops Hrun. split; [|split; [|split; [|split]]].
  - revert w Hops Hrun. induction ops as [|op ops IH]; intros w Hops Hrun.
    + inversion Hrun; subst. apply moves_along_refl.
    + simpl in Hops. apply andb_true_iff in Hops as [Hop Hops].
      apply negb_true_iff in Hop.
      simpl in Hrun. unfold bind in Hrun.
      destruct (step op w) as [[[] w1]|] eqn:E; [|discriminate].
      eapply moves_along_trans.
      * eapply step_moves_along; eassumption.
      * apply IH; assumption.
  - intros from to H. unfold code_transition in H.
    apply orb_true_iff in H as [H|H]; [left; exact H|right].
    apply andb_true_iff in H as [H1 H2].
    split; apply state_eqb_eq; assumption.
  - reflexivity.
  - reflexivity.
  - intros s v. apply set_state_property_result.
Qed.

Lemma start_cases ans thread (w : world) x w' :
  gst_sctp_association_start ans thread w = Some (x, w') ->
  (state (self w) <> GST_SCTP_ASSOCIATION_STATE_READY
   /\ state (self w) <> GST_SCTP_ASSOCIATION_STATE_DISCONNECTED
   /\ x = false /\ state (self w') = state (self w))
  \/ ((state (self w) = GST_SCTP_ASSOCIATION_STATE_READY
       \/ state (self w) = GST_SCTP_ASSOCIATION_STATE_DISCONNECTED)
      /\ ((exists w1,
             create_sctp_socket ans w = Some (None, w1)
             /\ x = false
             /\ state (self w') = GST_SCTP_ASSOCIATION_STATE_ERROR)
          \/ (exists sock w1,
                create_sctp_socket ans w = Some (Some sock, w1)
                /\ x = true
                /\ state (self w') = GST_SCTP_ASSOCIATION_STATE_CONNECTING))).
Proof.
  intros H.
  unfold gst_sctp_association_start in H. unfold bind at 1 in H.
  unfold get_self at 1 in H.
  destruct (state (self w)) eqn:Hs; simpl in H.
  2, 6: right; split; [auto|];
    unfold bind at 1 in H;
    destruct (create_sctp_socket ans w) as [[sock w1]|] eqn:C;
      [|discriminate];
    unfold gst_sctp_association_change_state_unlocked in H;
    destruct sock; straight_line H; [right|left]; eauto.
  all: left; straight_line H; repeat split; congruence.
Qed.

(** C9 (as amended).  An operation other than a write of the [state]
    property brings an association that is not in ERROR into ERROR only as
    a [start()] from READY or DISCONNECTED whose socket creation fails, and
    leaves an association that is in ERROR there, announcing nothing. *)
Theorem error_state_entered_by_failed_start (op : operation) (w w' : world) :
  writes_state_property op = false ->
  step op w = Some (tt, w') ->
  (state (self w) <> GST_SCTP_ASSOCIATION_STATE_ERROR ->
   state (self w') = GST_SCTP_ASSOCIATION_STATE_ERROR ->
   exists ans thread w1,
     op = Start ans thread
     /\ (state (self w) = GST_SCTP_ASSOCIATION_STATE_READY
         \/ state (self w) = GST_SCTP_ASSOCIATION_STATE_DISCONNECTED)
     /\ create_sctp_socket ans w = Some (None, w1))
  /\ (state (self w) = GST_SCTP_ASSOCIATION_STATE_ERROR ->
      state (self w') = GST_SCTP_ASSOCIATION_STATE_ERROR
      /\ exists t, trace w' = trace w ++ t /\ notified t = []).
Proof.
  intros Hop H. split.
  - intros Hne Herr.
    destruct op;
      try (exfalso;
           destruct (step_announces _ w Hop _ _ H) as (t & Ht & Hin & Hl);
           rewrite Herr in Hl; simpl in Hin;
           destruct (state (self w)); simpl in Hin;
           intuition
             (match goal with
              | E : _ = notified t |- _ => rewrite <- E in Hl
              end; simpl in Hl; congruence)).
    simpl in H. unfold bind in H.
    destruct (gst_sctp_association_start ans thread w) as [[x v]|] eqn:E;
      [|discriminate].
    inversion H; subst v.
    destruct (start_cases _ _ _ _ _ E)
      as [(_ & _ & _ & Hsame)
         |(Hfrom & [(w1 & C & _ & _)|(s & w1 & _ & _ & Hc)])].
    + congruence.
    + exists ans, thread, w1. auto.
    + congruence.
  - intros Herr.
    destruct (step_announces _ w Hop _ _ H) as (t & Ht & Hin & Hl).
    rewrite Herr in Hin, Hl.
    assert (Hn : notified t = [])
      by (destruct op; simpl in Hin; intuition congruence).
    rewrite Hn in Hl. simpl in Hl. split; [congruence|]. eauto.
Qed.

(** *** Notifications of the engine *)

Lemma deliver_lost_or_shutdown sac len r1 r2 (w : world) :
  lost_or_shutdown sac = true ->
  deliver_assoc_change sac len r1 r2 w
  = (gst_sctp_association_disconnect_unlocked false 0 0 ;;
     emit Usrsctp_freedumpbuffer ;; ret 1) w.
Proof.
  intros Hk. unfold deliver_assoc_change, receive_cb, handle_notification.
  simpl. rewrite Z.eqb_refl. simpl.
  unfold handle_association_changed, handle_sctp_comm_lost_or_shutdown.
  unfold lost_or_shutdown in Hk.
  destruct (sac_state sac); try discriminate; reflexivity.
Qed.

(** C2 (as amended).  A communication-lost or shutdown-complete notification
    delivered to an association in CONNECTED runs the ungraceful disconnect
    sequence: DISCONNECTING is announced, the worker is joined, the socket
    is closed and set to null, [done_connect] and the engine association id
    are cleared and DISCONNECTED is announced, with no call of
    [disconnect()].  In DISCONNECTING the teardown alone runs.  In every other
    state, CONNECTING among them, the notification changes nothing. *)
Theorem lost_or_shutdown_disconnects_connected (sac : sctp_assoc_change)
    (len r1 r2 : Z) (w : world) :
  lost_or_shutdown sac = true ->
  (state (self w) = GST_SCTP_ASSOCIATION_STATE_CONNECTED ->
   deliver_assoc_change sac len r1 r2 w
   = Some (1, mkWorld (torn_down (self w))
                (trace w
                 ++ Notify_state GST_SCTP_ASSOCIATION_STATE_DISCONNECTING
                    :: teardown_actions (self w)
                 ++ [Usrsctp_freedumpbuffer])))
  /\ (state (self w) = GST_SCTP_ASSOCIATION_STATE_DISCONNECTING ->
      deliver_assoc_change sac len r1 r2 w
      = Some (1, mkWorld (torn_down (self w))
                   (trace w ++ teardown_actions (self w)
                    ++ [Usrsctp_freedumpbuffer])))
  /\ (state (self w) <> GST_SCTP_ASSOCIATION_STATE_CONNECTED ->
      state (self w) <> GST_SCTP_ASSOCIATION_STATE_DISCONNECTING ->
      deliver_assoc_change sac len r1 r2 w
      = Some (1, mkWorld (self w) (trace w ++ [Usrsctp_freedumpbuffer])))
  /\ state (torn_down (self w)) = GST_SCTP_ASSOCIATION_STATE_DISCONNECTED
  /\ sctp_ass_sock (torn_down (self w)) = None
  /\ done_connect (torn_down (self w)) = false
  /\ sctp_assoc_id (torn_down (self w)) = 0
  /\ connection_thread (torn_down (self w)) = None.
Proof.
  intros Hk. rewrite (deliver_lost_or_shutdown _ _ _ _ _ Hk).
  repeat split.
  - intros Hs. unfold bind at 1.
    rewrite ungraceful_disconnect_result by exact Hs.
    unfold bind, emit, ret. simpl.
    rewrite <- app_assoc. reflexivity.
  - intros Hs. unfold bind at 1. rewrite teardown_result by exact Hs.
    unfold bind, emit, ret. simpl. rewrite <- app_assoc. reflexivity.
  - intros H1 H2. unfold bind at 1.
    rewrite disconnect_elsewhere_result by assumption. reflexivity.
Qed.

(** C7.  On a communication-up notification an association in CONNECTING
    stores the engine association id, applies the aggressive-heartbeat
    parameters (retransmission limit 1, heartbeat interval 10) when that flag
    is set and nothing of the kind when it is not, and becomes CONNECTED; in
    CONNECTED and in every other state the notification changes nothing. *)
Theorem comm_up_connects_when_connecting (sac : sctp_assoc_change)
    (r1 r2 : Z) (w : world) :
  sac_state sac = SCTP_COMM_UP ->
  (state (self w) = GST_SCTP_ASSOCIATION_STATE_CONNECTING ->
   handle_association_changed sac r1 r2 w
   = Some (tt,
           mkWorld
             (set_state GST_SCTP_ASSOCIATION_STATE_CONNECTED
                (set_sctp_assoc_id (sac_assoc_id sac) (self w)))
             (trace w
              ++ heartbeat_actions
                   (set_sctp_assoc_id (sac_assoc_id sac) (self w)) r1 r2
              ++ [Notify_state GST_SCTP_ASSOCIATION_STATE_CONNECTED])))
  /\ (state (self w) <> GST_SCTP_ASSOCIATION_STATE_CONNECTING ->
      handle_association_changed sac r1 r2 w = Some (tt, w))
  /\ (aggressive_heartbeat (self w) = false ->
      heartbeat_actions (set_sctp_assoc_id (sac_assoc_id sac) (self w)) r1 r2
      = [])
  /\ (aggressive_heartbeat (self w) = true ->
      In (Usrsctp_setsockopt (sctp_ass_sock (self w))
            (SCTP_ASSOCINFO (sac_assoc_id sac) 1))
        (heartbeat_actions (set_sctp_assoc_id (sac_assoc_id sac) (self w))
           r1 r2)
      /\ In (Usrsctp_setsockopt (sctp_ass_sock (self w))
               (SCTP_PEER_ADDR_PARAMS
                  (get_sctp_socket_address (remote_port (self w)))
                  SPP_HB_ENABLE 10))
           (heartbeat_actions (set_sctp_assoc_id (sac_assoc_id sac) (self w))
              r1 r2)).
Proof.
  intros Hk. unfold handle_association_changed. rewrite Hk.
  split; [|split; [|split]].
  - apply comm_up_result.
  - apply comm_up_elsewhere.
  - intros Hf. unfold heartbeat_actions. simpl. rewrite Hf. reflexivity.
  - intros Hf. unfold heartbeat_actions. simpl. rewrite Hf. split.
    + left. reflexivity.
    + right. apply in_or_app. right. left. reflexivity.
Qed.

(** *** Public operations *)

(** C3.  In every state other than READY and DISCONNECTED, [start()] returns
    [FALSE] with the wrong-state warning and nothing else happens: no engine
    call, no worker, and the association (state, socket handle, worker and
    all other fields) is as before. *)
Theorem start_rejected_outside_ready_and_disconnected (ans : socket_answers)
    (thread : GThread) (w : world) :
  state (self w) <> GST_SCTP_ASSOCIATION_STATE_READY ->
  state (self w) <> GST_SCTP_ASSOCIATION_STATE_DISCONNECTED ->
  gst_sctp_association_start ans thread w
  = Some (false,
          mkWorld (self w)
            (trace w
             ++ [G_warning
                   "SCTP association is in wrong state and cannot be started"])).
Proof.
  intros H1 H2. open_world w. unfold gst_sctp_association_start.
  destruct state0; try congruence; reflexivity.
Qed.

(** C4.  While the association is not CONNECTED, [send_data] returns
    [FALSE] for every buffer, stream, ppid, ordering flag and reliability
    policy, calls nothing (so not [usrsctp_sendv]) and leaves the association
    as it was. *)
Theorem send_data_fails_unless_connected (buf : bytes)
    (length stream_id ppid : Z) (ordered : bool)
    (pr : GstSctpAssociationPartialReliability)
    (reliability_param bytes_sent : Z) (w : world) :
  state (self w) <> GST_SCTP_ASSOCIATION_STATE_CONNECTED ->
  gst_sctp_association_send_data buf length stream_id ppid ordered pr
    reliability_param bytes_sent w
  = Some (false, w).
Proof.
  intros Hs. open_world w. unfold gst_sctp_association_send_data.
  destruct state0; try congruence; reflexivity.
Qed.

Lemma incoming_packet_result buf length (w : world) :
  gst_sctp_association_incoming_packet buf length w
  = Some (tt,
          if done_connect (self w)
          then mkWorld (self w) (trace w ++ [Usrsctp_conninput buf length])
          else w).
Proof.
  open_world w. unfold gst_sctp_association_incoming_packet.
  destruct done_connect0; reflexivity.
Qed.

(** C5.  Inbound packets handed to incoming-packet are dropped, each and
    all, while [done_connect] is false, and are passed to the engine
    ([usrsctp_conninput]), each and in order, while it is true. *)
Theorem incoming_packets_gated_by_done_connect
    (packets : list (bytes * Z)) (w : world) :
  run (map (fun p => Incoming_packet (fst p) (snd p)) packets) w
  = Some (tt,
          if done_connect (self w)
          then mkWorld (self w)
                 (trace w
                  ++ map (fun p => Usrsctp_conninput (fst p) (snd p)) packets)
          else w).
Proof.
  revert w. induction packets as [|[buf len] packets IH]; intros w.
  - simpl. unfold ret. destruct w as [a t]; simpl.
    rewrite app_nil_r. destruct (done_connect a); reflexivity.
  - simpl. unfold bind. rewrite incoming_packet_result.
    rewrite IH. destruct (done_connect (self w)) eqn:Hd; simpl.
    + rewrite Hd, <- app_assoc. reflexivity.
    + rewrite Hd. reflexivity.
Qed.

(** C10.  In every state [force_close()] closes the socket if there is one,
    sets the handle to null and clears [done_connect] and the engine
    association id; [state] and all other fields stay, so that a CONNECTED
    association is still CONNECTED, with a null socket handle. *)
Theorem force_close_keeps_state (w : world) :
  gst_sctp_association_force_close w
  = Some (tt,
          mkWorld
            (set_sctp_assoc_id 0
               (set_done_connect false (set_sctp_ass_sock None (self w))))
            (trace w
             ++ match sctp_ass_sock (self w) with
                | Some sock => [Usrsctp_close sock]
                | None => []
                end))
  /\ state (set_sctp_assoc_id 0
              (set_done_connect false (set_sctp_ass_sock None (self w))))
     = state (self w)
  /\ sctp_ass_sock
       (set_sctp_assoc_id 0
          (set_done_connect false (set_sctp_ass_sock None (self w))))
     = None
  /\ done_connect
       (set_sctp_assoc_id 0
          (set_done_connect false (set_sctp_ass_sock None (self w))))
     = false
  /\ sctp_assoc_id
       (set_sctp_assoc_id 0
          (set_done_connect false (set_sctp_ass_sock None (self w))))
     = 0.
Proof.
  repeat split. open_world w.
  unfold gst_sctp_association_force_close,
    gst_sctp_association_force_close_unlocked.
  destruct sctp_ass_sock0; unfold bind, get_self, modify, emit, ret; simpl;
    rewrite ?app_nil_r; reflexivity.
Qed.

(** *** Stream reset events *)

Lemma nth_error_skipn {A} (l : list A) (i : nat) :
  (i < List.length l)%nat ->
  exists x, nth_error l i = Some x /\ skipn i l = x :: skipn (S i) l.
Proof.
  revert i. induction l as [|y l IH]; intros i Hi; simpl in Hi; [lia|].
  destruct i as [|i].
  - exists y. split; reflexivity.
  - destruct (IH i ltac:(lia)) as (x & Hx & Hsk). exists x. split; assumption.
Qed.

Lemma stream_reset_loop_incoming sr (rounds i : nat) (w : world) :
  flag_set (strreset_flags sr) SCTP_STREAM_RESET_INCOMING_SSN = true ->
  (i + rounds = List.length (strreset_stream_list sr))%nat ->
  stream_reset_loop sr i rounds w
  = Some (tt,
          mkWorld (self w)
            (trace w
             ++ map Signal_stream_reset (skipn i (strreset_stream_list sr)))).
Proof.
  intros Hf. revert i w. induction rounds as [|n IH]; intros i w Hlen.
  - simpl. rewrite skipn_all2 by lia. simpl. rewrite app_nil_r.
    destruct w; reflexivity.
  - simpl. rewrite Hf.
    destruct (nth_error_skipn (strreset_stream_list sr) i ltac:(lia))
      as (x & Hx & Hsk).
    rewrite Hx. unfold bind at 1. unfold emit at 1.
    rewrite IH by (simpl; lia). simpl. rewrite Hsk. simpl.
    rewrite <- app_assoc. reflexivity.
Qed.

Lemma stream_reset_loop_other sr (rounds i : nat) (w : world) :
  flag_set (strreset_flags sr) SCTP_STREAM_RESET_INCOMING_SSN = false ->
  stream_reset_loop sr i rounds w = Some (tt, w).
Proof.
  intros Hf. revert i. induction rounds as [|n IH]; intros i;
    [reflexivity|].
  simpl. rewrite Hf. unfold bind, ret. apply IH.
Qed.

Lemma stream_count sr :
  well_formed_event sr ->
  Z.to_nat
    (wrap32
       (wrap_size_t (strreset_length sr - sizeof_sctp_stream_reset_event) / 2))
  = List.length (strreset_stream_list sr).
Proof.
  intros (H0 & Hlen & Hmax).
  set (n := Z.of_nat (List.length (strreset_stream_list sr))) in *.
  assert (Hn : 0 <= n) by apply Nat2Z.is_nonneg.
  replace (strreset_length sr - sizeof_sctp_stream_reset_event) with (n * 2)
    by lia.
  unfold wrap_size_t, wrap32.
  rewrite (Z.mod_small (n * 2)) by lia.
  rewrite Z.div_mul by lia.
  rewrite Z.mod_small by lia.
  apply Nat2Z.id.
Qed.

(** C8.  For a stream-reset event that is not flagged denied and whose flags
    say that incoming streams were reset, one stream-reset signal is raised
    for each stream listed in the event, in order, and nothing else happens;
    without that direction flag nothing is raised; for an event flagged
    denied nothing is raised for any stream. *)
Theorem stream_reset_signals_per_listed_stream
    (sr : sctp_stream_reset_event) (w : world) :
  well_formed_event sr ->
  handle_stream_reset_event sr w
  = Some (tt,
          mkWorld (self w)
            (trace w
             ++ if flag_set (strreset_flags sr) SCTP_STREAM_RESET_DENIED
                then []
                else if flag_set (strreset_flags sr)
                          SCTP_STREAM_RESET_INCOMING_SSN
                     then map Signal_stream_reset (strreset_stream_list sr)
                     else [])).
Proof.
  intros Hwf. unfold handle_stream_reset_event.
  destruct (flag_set (strreset_flags sr) SCTP_STREAM_RESET_DENIED); simpl.
  - rewrite app_nil_r. destruct w; reflexivity.
  - rewrite (stream_count sr Hwf).
    destruct (flag_set (strreset_flags sr) SCTP_STREAM_RESET_INCOMING_SSN)
      eqn:Hin.
    + rewrite stream_reset_loop_incoming by (auto; reflexivity).
      reflexivity.
    + rewrite stream_reset_loop_other by exact Hin.
      rewrite app_nil_r. destruct w; reflexivity.
Qed.

(** *** The promotion to READY *)

Ltac run_config :=
  unfold step, gst_sctp_association_set_property,
    gst_sctp_association_set_on_packet_out,
    gst_sctp_association_set_on_packet_received, maybe_set_state_to_ready,
    gst_sctp_association_change_state_unlocked, configured;
  unfold bind, get_self, modify, emit, ret, when; simpl.

Ltac finish_config E1 E2 :=
  simpl; (eexists; split; [reflexivity|]); simpl; rewrite ?E1, ?E2; simpl;
  rewrite ?app_nil_r; split; reflexivity.

Lemma config_step_new op (w : world) :
  is_config_mutation op = true ->
  state (self w) = GST_SCTP_ASSOCIATION_STATE_NEW ->
  exists w',
    step op w = Some (tt, w')
    /\ trace w'
       = trace w
         ++ (if configured (self w')
             then [Notify_state GST_SCTP_ASSOCIATION_STATE_READY] else [])
    /\ state (self w')
       = (if configured (self w') then GST_SCTP_ASSOCIATION_STATE_READY
          else GST_SCTP_ASSOCIATION_STATE_NEW).
Proof.
  intros Hop Hs. open_world w. subst state0.
  destruct op as [id v| |cb ud|cb ud| | | | | | | | | ]; try discriminate;
    [destruct id; try discriminate| |]; run_config.
  - destruct (wrap16 (g_value_get_uint v) =? 0) eqn:E1,
      (remote_port0 =? 0) eqn:E2, packet_out_cb0, packet_received_cb0;
      finish_config E1 E2.
  - destruct (local_port0 =? 0) eqn:E1,
      (wrap16 (g_value_get_uint v) =? 0) eqn:E2, packet_out_cb0,
      packet_received_cb0; finish_config E1 E2.
  - destruct (local_port0 =? 0) eqn:E1, (remote_port0 =? 0) eqn:E2, cb,
      packet_received_cb0; finish_config E1 E2.
  - destruct (local_port0 =? 0) eqn:E1, (remote_port0 =? 0) eqn:E2,
      packet_out_cb0, cb; finish_config E1 E2.
Qed.

Lemma config_step_not_new op (w : world) :
  is_config_mutation op = true ->
  state (self w) <> GST_SCTP_ASSOCIATION_STATE_NEW ->
  exists w',
    step op w = Some (tt, w')
    /\ state (self w') = state (self w)
    /\ notified (trace w') = notified (trace w).
Proof.
  intros Hop Hs. open_world w.
  destruct op as [id v| |cb ud|cb ud| | | | | | | | | ]; try discriminate;
    [destruct id; try discriminate| |]; run_config;
    destruct state0; try congruence; simpl;
    (eexists; split; [reflexivity|]); simpl;
    rewrite ?notified_app; simpl; rewrite ?app_nil_r; split; reflexivity.
Qed.

Lemma configured_parts (a : GstSctpAssociation) :
  configured a
  = part_set a 0 && part_set a 1 && part_set a 2 && part_set a 3.
Proof. reflexivity. Qed.

Lemma good_step op (w : world) :
  sets_its_part op = true ->
  promoted (self w) ->
  exists w',
    step op w = Some (tt, w')
    /\ promoted (self w')
    /\ (forall k,
          part_set (self w') k = part_set (self w) k || Nat.eqb (kind op) k)
    /\ notified (trace w')
       = notified (trace w)
         ++ (if negb (configured (self w)) && configured (self w')
             then [GST_SCTP_ASSOCIATION_STATE_READY] else []).
Proof.
  intros Hop Hp. open_world w. unfold promoted, configured in Hp.
  simpl in Hp.
  destruct op as [id v| |cb ud|cb ud| | | | | | | | | ]; try discriminate;
    [destruct id; try discriminate| |]; simpl in Hop;
    try apply negb_true_iff in Hop;
    try (destruct cb as [cb|]; [clear Hop|discriminate]);
    destruct (local_port0 =? 0) eqn:E1, (remote_port0 =? 0) eqn:E2,
      packet_out_cb0, packet_received_cb0; simpl in Hp; subst state0;
    run_config; unfold promoted, configured; simpl;
    rewrite ?E1, ?E2, ?Hop; simpl;
    (eexists; split; [reflexivity|]); simpl;
    rewrite ?E1, ?E2, ?Hop, ?notified_app; simpl; rewrite ?app_nil_r;
    (split; [reflexivity|]); (split; [|reflexivity]);
    intros [|[|[|[|k]]]]; simpl; rewrite ?E1, ?E2, ?Hop; reflexivity.
Qed.

Lemma good_run ops (w : world) :
  forallb sets_its_part ops = true ->
  promoted (self w) ->
  exists w',
    run ops w = Some (tt, w')
    /\ promoted (self w')
    /\ (forall k, part_set (self w') k = part_set (self w) k || provided ops k)
    /\ notified (trace w')
       = notified (trace w)
         ++ (if negb (configured (self w)) && configured (self w')
             then [GST_SCTP_ASSOCIATION_STATE_READY] else []).
Proof.
  revert w. induction ops as [|op ops IH]; intros w Hops Hp.
  - exists w. repeat split; [exact Hp| |].
    + intros k. simpl. now rewrite orb_false_r.
    + destruct (configured (self w)); simpl; now rewrite app_nil_r.
  - simpl in Hops. apply andb_true_iff in Hops as [Hop Hops].
    destruct (good_step op w Hop Hp) as (w1 & E1 & Hp1 & Hparts1 & Hn1).
    destruct (IH w1 Hops Hp1) as (w2 & E2 & Hp2 & Hparts2 & Hn2).
    exists w2. simpl. unfold bind. rewrite E1. split; [exact E2|].
    split; [exact Hp2|]. split.
    + intros k. rewrite Hparts2, Hparts1, orb_assoc. reflexivity.
    + rewrite Hn2, Hn1, <- app_assoc. f_equal.
      rewrite !configured_parts, !Hparts2, !Hparts1.
      destruct (part_set (self w) 0), (part_set (self w) 1),
        (part_set (self w) 2), (part_set (self w) 3),
        (kind op) as [|[|[|[|k]]]]; simpl;
        try reflexivity;
        destruct (provided ops 0), (provided ops 1), (provided ops 2),
          (provided ops 3); reflexivity.
Qed.

Lemma config_run_not_new ops (w : world) :
  forallb is_config_mutation ops = true ->
  state (self w) <> GST_SCTP_ASSOCIATION_STATE_NEW ->
  exists w',
    run ops w = Some (tt, w')
    /\ state (self w') = state (self w)
    /\ notified (trace w') = notified (trace w).
Proof.
  revert w. induction ops as [|op ops IH]; intros w Hops Hs.
  - exists w. repeat split.
  - simpl in Hops. apply andb_true_iff in Hops as [Hop Hops].
    destruct (config_step_not_new op w Hop Hs) as (w1 & E1 & Hs1 & Hn1).
    destruct (IH w1 Hops ltac:(congruence)) as (w2 & E2 & Hs2 & Hn2).
    exists w2. simpl. unfold bind. rewrite E1.
    repeat split; congruence.
Qed.

Lemma config_run_new ops (w : world) :
  forallb is_config_mutation ops = true ->
  state (self w) = GST_SCTP_ASSOCIATION_STATE_NEW ->
  exists w',
    run ops w = Some (tt, w')
    /\ ((state (self w') = GST_SCTP_ASSOCIATION_STATE_NEW
         /\ notified (trace w') = notified (trace w))
        \/ (state (self w') = GST_SCTP_ASSOCIATION_STATE_READY
            /\ notified (trace w')
               = notified (trace w) ++ [GST_SCTP_ASSOCIATION_STATE_READY])).
Proof.
  revert w. induction ops as [|op ops IH]; intros w Hops Hs.
  - exists w. split; [reflexivity|]. left. split; [exact Hs|reflexivity].
  - simpl in Hops. apply andb_true_iff in Hops as [Hop Hops].
    destruct (config_step_new op w Hop Hs) as (w1 & E1 & Ht1 & Hs1).
    simpl. unfold bind. rewrite E1.
    destruct (configured (self w1)).
    + destruct (config_run_not_new ops w1 Hops ltac:(congruence))
        as (w2 & E2 & Hs2 & Hn2).
      exists w2. split; [exact E2|]. right.
      rewrite Hn2, Ht1, notified_app. split; [congruence|reflexivity].
    + destruct (IH w1 Hops Hs1) as (w2 & E2 & Hcases).
      exists w2. split; [exact E2|].
      rewrite Ht1, app_nil_r in Hcases. exact Hcases.
Qed.

Lemma provided_permutation (l l' : list operation) (k : nat) :
  Permutation l l' -> provided l k = provided l' k.
Proof.
  unfold provided. induction 1 as [|x l l' _ IH|x y l|l l' l'' _ IH1 _ IH2];
    simpl.
  - reflexivity.
  - now rewrite IH.
  - rewrite !orb_assoc. f_equal. apply orb_comm.
  - congruence.
Qed.

Lemma not_provided (l : list operation) (k : nat) :
  ~ In k (map kind l) -> provided l k = false.
Proof.
  unfold provided. induction l as [|x l IH]; intros Hk; [reflexivity|].
  simpl in *. rewrite IH by tauto.
  destruct (Nat.eqb_spec (kind x) k); [tauto|reflexivity].
Qed.

(** C6.  On an association in NEW with no port and no callback set, the
    two port writes (values that are not 0 as 16-bit numbers) and the two
    callback registrations (callbacks that are not null), in any order,
    announce READY exactly once, at the last of the four: before it the
    association is in NEW and nothing has been announced.  In NEW, each
    configuration mutation promotes exactly when it leaves both ports
    non-zero and both callbacks set, and otherwise leaves the association in
    NEW; any sequence of configuration mutations from NEW announces READY at
    most once.  Outside NEW, configuration mutations never announce anything
    nor change [state]. *)
Theorem promotion_to_ready_fires_once (a : GstSctpAssociation)
    (lp rp : Z) (cb_out cb_in : fnptr) (ud_out ud_in : gpointer)
    (ops : list operation) :
  state a = GST_SCTP_ASSOCIATION_STATE_NEW ->
  local_port a = 0 -> remote_port a = 0 ->
  packet_out_cb a = None -> packet_received_cb a = None ->
  wrap16 lp <> 0 -> wrap16 rp <> 0 ->
  Permutation ops
    [Set_property PROP_LOCAL_PORT (G_value_uint lp);
     Set_property PROP_REMOTE_PORT (G_value_uint rp);
     Set_on_packet_out (Some cb_out) ud_out;
     Set_on_packet_received (Some cb_in) ud_in] ->
  (exists before last_op w1 w2,
     ops = before ++ [last_op]
     /\ run before (mkWorld a []) = Some (tt, w1)
     /\ state (self w1) = GST_SCTP_ASSOCIATION_STATE_NEW
     /\ notified (trace w1) = []
     /\ run ops (mkWorld a []) = Some (tt, w2)
     /\ state (self w2) = GST_SCTP_ASSOCIATION_STATE_READY
     /\ notified (trace w2) = [GST_SCTP_ASSOCIATION_STATE_READY])
  /\ (forall op w,
        is_config_mutation op = true ->
        state (self w) = GST_SCTP_ASSOCIATION_STATE_NEW ->
        exists w',
          step op w = Some (tt, w')
          /\ trace w'
             = trace w
               ++ (if configured (self w')
                   then [Notify_state GST_SCTP_ASSOCIATION_STATE_READY]
                   else [])
          /\ state (self w')
             = (if configured (self w')
                then GST_SCTP_ASSOCIATION_STATE_READY
                else GST_SCTP_ASSOCIATION_STATE_NEW))
  /\ (forall more w,
        forallb is_config_mutation more = true ->
        state (self w) = GST_SCTP_ASSOCIATION_STATE_NEW ->
        exists w',
          run more w = Some (tt, w')
          /\ ((state (self w') = GST_SCTP_ASSOCIATION_STATE_NEW
               /\ notified (trace w') = notified (trace w))
              \/ (state (self w') = GST_SCTP_ASSOCIATION_STATE_READY
                  /\ notified (trace w')
                     = notified (trace w)
                       ++ [GST_SCTP_ASSOCIATION_STATE_READY])))
  /\ (forall more w,
        forallb is_config_mutation more = true ->
        state (self w) <> GST_SCTP_ASSOCIATION_STATE_NEW ->
        exists w',
          run more w = Some (tt, w')
          /\ state (self w') = state (self w)
          /\ notified (trace w') = notified (trace w)).
Proof.
  intros Hs Hlp Hrp Hout Hin Hlp0 Hrp0 Hperm.
  split; [|split; [apply config_step_new
                  |split; [apply config_run_new|apply config_run_not_new]]].
  set (four := [Set_property PROP_LOCAL_PORT (G_value_uint lp);
                Set_property PROP_REMOTE_PORT (G_value_uint rp);
                Set_on_packet_out (Some cb_out) ud_out;
                Set_on_packet_received (Some cb_in) ud_in]) in *.
  assert (Hgood4 : forallb sets_its_part four = true).
  { simpl. apply Z.eqb_neq in Hlp0, Hrp0. now rewrite Hlp0, Hrp0. }
  assert (Hgood : forallb sets_its_part ops = true).
  { apply forallb_forall. intros op Hop.
    rewrite forallb_forall in Hgood4. apply Hgood4.
    eapply Permutation_in; eassumption. }
  assert (Hfresh : forall k, (k < 4)%nat -> part_set a k = false).
  { intros [|[|[|[|k]]]] Hk; simpl; rewrite ?Hlp, ?Hrp, ?Hout, ?Hin;
      try reflexivity; lia. }
  assert (Hp0 : promoted a).
  { unfold promoted. rewrite configured_parts, (Hfresh 0%nat) by lia.
    exact Hs. }
  assert (Hc0 : configured a = false).
  { rewrite configured_parts, (Hfresh 0%nat) by lia. reflexivity. }
  destruct (exists_last (l := ops)) as (before & last_op & Hsplit).
  { intros ->. apply Permutation_length in Hperm. discriminate. }
  assert (Hkinds : NoDup (map kind before ++ [kind last_op])).
  { change [kind last_op] with (map kind [last_op]).
    rewrite <- map_app, <- Hsplit.
    eapply Permutation_NoDup;
      [apply Permutation_map, Permutation_sym, Hperm|].
    simpl. repeat constructor; simpl; intuition discriminate. }
  assert (Hlast : (kind last_op < 4)%nat).
  { assert (Hin4 : In last_op four).
    { eapply Permutation_in; [exact Hperm|].
      rewrite Hsplit. apply in_or_app. right. left. reflexivity. }
    simpl in Hin4. intuition (subst; simpl; lia). }
  assert (Hmiss : provided before (kind last_op) = false).
  { apply not_provided. intros Hk.
    apply NoDup_remove_2 in Hkinds. rewrite app_nil_r in Hkinds.
    contradiction. }
  assert (Hgoodb : forallb sets_its_part before = true).
  { rewrite Hsplit, forallb_app in Hgood.
    apply andb_true_iff in Hgood. tauto. }
  destruct (good_run before (mkWorld a []) Hgoodb Hp0)
    as (w1 & E1 & Hp1 & Hparts1 & Hn1).
  destruct (good_run ops (mkWorld a []) Hgood Hp0)
    as (w2 & E2 & Hp2 & Hparts2 & Hn2).
  simpl in Hparts1, Hparts2, Hn1, Hn2. rewrite Hc0 in Hn1, Hn2.
  assert (Hc1 : configured (self w1) = false).
  { rewrite configured_parts.
    assert (Hk := Hparts1 (kind last_op)).
    rewrite Hmiss, Hfresh in Hk by exact Hlast.
    destruct (kind last_op) as [|[|[|[|k]]]]; try lia; rewrite Hk;
      rewrite ?andb_false_r; reflexivity. }
  assert (Hc2 : configured (self w2) = true).
  { rewrite configured_parts, !Hparts2.
    rewrite !(provided_permutation _ _ _ Hperm).
    rewrite !orb_true_r. reflexivity. }
  unfold promoted in Hp1, Hp2. rewrite Hc1 in Hp1, Hn1. rewrite Hc2 in Hp2, Hn2.
  exists before, last_op, w1, w2. repeat split; assumption.
Qed.

(** *** Frames *)

Section Frames.

Variable R : GstSctpAssociation -> GstSctpAssociation -> Prop.
Hypothesis R_refl : forall a, R a a.
Hypothesis R_trans : forall a b c, R a b -> R b c -> R a c.

Lemma keeps_ret {A} (x : A) : keeps R (ret x).
Proof. intros w y w' H. inversion H; subst. apply R_refl. Qed.

Lemma keeps_undefined {A} : keeps R (@undefined A).
Proof. intros w y w' H. discriminate. Qed.

Lemma keeps_get_self : keeps R get_self.
Proof. intros w y w' H. inversion H; subst. apply R_refl. Qed.

Lemma keeps_emit (e : action) : keeps R (emit e).
Proof. intros w y w' H. inversion H; subst. apply R_refl. Qed.

Lemma keeps_modify (f : GstSctpAssociation -> GstSctpAssociation) :
  (forall a, R a (f a)) -> keeps R (modify f).
Proof. intros Hf w y w' H. inversion H; subst. apply Hf. Qed.

Lemma keeps_bind {A B} (m : M A) (f : A -> M B) :
  keeps R m -> (forall x, keeps R (f x)) -> keeps R (bind m f).
Proof.
  intros Hm Hf w y w' H. unfold bind in H.
  destruct (m w) as [[x w1]|] eqn:E; [|discriminate].
  eapply R_trans; [eapply Hm; exact E|eapply Hf; exact H].
Qed.

Lemma keeps_when (b : bool) (m : M unit) : keeps R m -> keeps R (when b m).
Proof. intros Hm. destruct b; [exact Hm|apply keeps_ret]. Qed.

Ltac frame_step :=
  first
    [ apply keeps_ret
    | apply keeps_undefined
    | apply keeps_get_self
    | apply keeps_emit
    | apply keeps_when
    | apply keeps_bind; [|intros ?]
    | match goal with
      | |- keeps _ (if ?b then _ else _) => destruct b
      | |- keeps _ (match ?x with _ => _ end) => destruct x
      end ].

Lemma keeps_register_events ans sock l : keeps R (register_events ans sock l).
Proof. induction l as [|t l IH]; simpl; repeat frame_step. exact IH. Qed.

Lemma keeps_create_sctp_socket ans : keeps R (create_sctp_socket ans).
Proof.
  unfold create_sctp_socket, create_sctp_socket_error.
  generalize event_types. intros evs. repeat frame_step.
  apply keeps_register_events.
Qed.

Lemma keeps_bind_with_retry addr answers :
  keeps R (bind_with_retry addr answers).
Proof.
  induction answers as [|[r e] rest IH]; simpl; repeat frame_step. exact IH.
Qed.

Lemma keeps_stream_reset_loop sr i rounds :
  keeps R (stream_reset_loop sr i rounds).
Proof.
  revert i. induction rounds as [|n IH]; intros i; simpl; repeat frame_step.
  apply IH.
Qed.

Lemma keeps_handle_stream_reset_event sr :
  keeps R (handle_stream_reset_event sr).
Proof.
  unfold handle_stream_reset_event.
  destruct (_ && _); [apply keeps_stream_reset_loop|apply keeps_ret].
Qed.

Lemma keeps_wait_for_shutdown n arrival :
  (forall a b, R a (set_shutdown b a)) ->
  keeps R (wait_for_shutdown n arrival).
Proof.
  intros Hset. revert arrival.
  induction n as [|n IH]; intros arrival; simpl; repeat frame_step;
    try (apply keeps_modify; intros; apply Hset).
  apply IH.
Qed.

End Frames.

Ltac keeps_step Hr Ht :=
  first
    [ apply (keeps_create_sctp_socket _ Hr Ht)
    | apply (keeps_bind_with_retry _ Hr Ht)
    | apply (keeps_handle_stream_reset_event _ Hr Ht)
    | apply (keeps_wait_for_shutdown _ Hr Ht);
        intros ? ?; first [reflexivity|split; reflexivity]
    | apply (keeps_ret _ Hr)
    | apply keeps_undefined
    | apply (keeps_get_self _ Hr)
    | apply (keeps_emit _ Hr)
    | apply keeps_modify; intros ?; first [reflexivity|split; reflexivity]
    | apply (keeps_when _ Hr)
    | apply (keeps_bind _ Ht); [|intros ?]
    | match goal with
      | |- keeps _ (if ?b then _ else _) => destruct b
      | |- keeps _ (match ?x with _ => _ end) => destruct x
      end ].

Ltac keeps_tac Hr Ht := repeat keeps_step Hr Ht.

Lemma eq_assoc_refl (a : GstSctpAssociation) : a = a.
Proof. reflexivity. Qed.

Lemma eq_assoc_trans (a b c : GstSctpAssociation) : a = b -> b = c -> a = c.
Proof. congruence. Qed.

Lemma unchanged_result {A} (m : M A) (w : world) x w' :
  keeps (fun a a' => a = a') m -> m w = Some (x, w') -> self w' = self w.
Proof. intros Hk H. symmetry. eapply Hk. exact H. Qed.

Lemma same_ports_refl a : same_ports a a.
Proof. split; reflexivity. Qed.

Lemma same_ports_trans a b c :
  same_ports a b -> same_ports b c -> same_ports a c.
Proof. unfold same_ports. intuition congruence. Qed.

Lemma same_except_done_connect_refl a : same_except_done_connect a a.
Proof. reflexivity. Qed.

Lemma same_except_done_connect_trans a b c :
  same_except_done_connect a b -> same_except_done_connect b c ->
  same_except_done_connect a c.
Proof. unfold same_except_done_connect. congruence. Qed.

Lemma same_except_shutdown_refl a : same_except_shutdown a a.
Proof. reflexivity. Qed.

Lemma same_except_shutdown_trans a b c :
  same_except_shutdown a b -> same_except_shutdown b c ->
  same_except_shutdown a c.
Proof. unfold same_except_shutdown. congruence. Qed.

(** *** Socket creation and start *)

Lemma closed_app (t1 t2 : list action) :
  closed (t1 ++ t2) = closed t1 ++ closed t2.
Proof.
  induction t1 as [|e t1 IH]; [reflexivity|].
  destruct e; simpl; rewrite IH; reflexivity.
Qed.

Lemma without_warnings_app (t1 t2 : list action) :
  without_warnings (t1 ++ t2) = without_warnings t1 ++ without_warnings t2.
Proof. apply filter_app. Qed.

Lemma workers_started_app (t1 t2 : list action) :
  (workers_started (t1 ++ t2) = workers_started t1 + workers_started t2)%nat.
Proof.
  induction t1 as [|e t1 IH]; [reflexivity|].
  destruct e; simpl; rewrite IH; reflexivity.
Qed.

Lemma register_events_result ans sock l (w : world) :
  exists t,
    register_events ans sock l w
    = Some (tt, mkWorld (self w) (trace w ++ t))
    /\ closed t = []
    /\ without_warnings t
       = map (fun ty => Usrsctp_setsockopt (Some sock) (SCTP_EVENT ty 1)) l
    /\ notified t = []
    /\ workers_started t = 0%nat.
Proof.
  revert w. induction l as [|ty l IH]; intros w.
  - exists []. simpl. unfold ret. rewrite app_nil_r. destruct w. auto.
  - simpl. unfold bind, emit, when, ret.
    destruct (ans_event ans ty <? 0); simpl;
      match goal with
      | |- context [register_events ?a ?s ?l ?v] =>
          destruct (IH v) as (t & E & Hc & Hr & Hn & Hw); rewrite E
      end;
      simpl; rewrite <- !app_assoc; (eexists; split; [reflexivity|]);
      unfold without_warnings in *; simpl; rewrite Hc, Hr, Hn, Hw; auto.
Qed.

Lemma create_sctp_socket_result ans (w : world) :
  exists t,
    create_sctp_socket ans w
    = Some (socket_result ans, mkWorld (self w) (trace w ++ t))
    /\ closed t
       = match ans_usrsctp_socket ans, socket_result ans with
         | Some sock, None => [sock]
         | _, _ => []
         end
    /\ without_warnings t
       = Usrsctp_socket
           (if use_sock_stream (self w) then SOCK_STREAM else SOCK_SEQPACKET)
         :: match ans_usrsctp_socket ans with
            | None => []
            | Some sock =>
                firstn
                  (if ans_set_non_blocking ans <? 0 then 1
                   else if ans_so_linger ans <? 0 then 2
                   else if ans_nodelay ans =? 0 then 4 else 3)
                  [Usrsctp_set_non_blocking sock 1;
                   Usrsctp_setsockopt (Some sock) (SO_LINGER 1 0);
                   Usrsctp_setsockopt (Some sock) (SCTP_NODELAY 1);
                   Usrsctp_setsockopt (Some sock)
                     (SCTP_ENABLE_STREAM_RESET 1)]
                ++ (if mandatory_settings_accepted ans
                    then
                      [Usrsctp_setsockopt (Some sock)
                         (SCTP_EVENT SCTP_ASSOC_CHANGE 1);
                       Usrsctp_setsockopt (Some sock)
                         (SCTP_EVENT SCTP_PEER_ADDR_CHANGE 1);
                       Usrsctp_setsockopt (Some sock)
                         (SCTP_EVENT SCTP_REMOTE_ERROR 1);
                       Usrsctp_setsockopt (Some sock)
                         (SCTP_EVENT SCTP_SEND_FAILED 1);
                       Usrsctp_setsockopt (Some sock)
                         (SCTP_EVENT SCTP_SHUTDOWN_EVENT 1);
                       Usrsctp_setsockopt (Some sock)
                         (SCTP_EVENT SCTP_ADAPTATION_INDICATION 1);
                       Usrsctp_setsockopt (Some sock)
                         (SCTP_EVENT SCTP_STREAM_RESET_EVENT 1);
                       Usrsctp_setsockopt (Some sock)
                         (SCTP_EVENT SCTP_STREAM_CHANGE_EVENT 1)]
                    else [Usrsctp_close sock])
            end
    /\ notified t = [] /\ workers_started t = 0%nat.
Proof.
  unfold create_sctp_socket, create_sctp_socket_error, socket_result,
    mandatory_settings_accepted.
  remember event_types as evs eqn:Hevs.
  destruct (ans_usrsctp_socket ans) as [sock|];
    [destruct (ans_set_non_blocking ans <? 0), (ans_so_linger ans <? 0),
       (ans_nodelay ans =? 0), (ans_enable_stream_reset ans =? 0)|];
    unfold bind, get_self, emit, ret; simpl;
    try (rewrite <- ?app_assoc; (eexists; split; [reflexivity|]); simpl;
         repeat split; congruence).
  match goal with
  | |- context [register_events ?a ?s ?l ?v] =>
      destruct (register_events_result a s l v) as (t & E & Hc & Hr & Hn & Hw);
        rewrite E
  end.
  simpl. rewrite <- !app_assoc.
  eexists. split; [reflexivity|].
  unfold without_warnings in *. simpl. rewrite Hc, Hr, Hn, Hw, Hevs.
  repeat split.
Qed.

(** X1.  [create_sctp_socket] asks the engine for a socket of the
    association's type and, on the socket it is given, requests the four
    settings in order -- non-blocking mode on, linger on with time 0,
    no-delay on, stream reset on -- up to the first that is refused.  It
    returns the socket exactly when none of the four is refused, whatever
    the registrations answer, and has then registered the eight
    notification types below on that socket, each switched on, in this
    order, and closed nothing.  Otherwise it returns null, has registered
    no type, and a socket that the engine had given was closed, once, as
    the last call.  The association itself is not touched. *)
Theorem create_sctp_socket_returns_or_closes (ans : socket_answers)
    (w : world) :
  exists t,
    create_sctp_socket ans w
    = Some (socket_result ans, mkWorld (self w) (trace w ++ t))
    /\ without_warnings t
       = Usrsctp_socket
           (if use_sock_stream (self w) then SOCK_STREAM else SOCK_SEQPACKET)
         :: match ans_usrsctp_socket ans with
            | None => []
            | Some sock =>
                firstn
                  (if ans_set_non_blocking ans <? 0 then 1
                   else if ans_so_linger ans <? 0 then 2
                   else if ans_nodelay ans =? 0 then 4 else 3)
                  [Usrsctp_set_non_blocking sock 1;
                   Usrsctp_setsockopt (Some sock) (SO_LINGER 1 0);
                   Usrsctp_setsockopt (Some sock) (SCTP_NODELAY 1);
                   Usrsctp_setsockopt (Some sock)
                     (SCTP_ENABLE_STREAM_RESET 1)]
                ++ (if mandatory_settings_accepted ans
                    then
                      [Usrsctp_setsockopt (Some sock)
                         (SCTP_EVENT SCTP_ASSOC_CHANGE 1);
                       Usrsctp_setsockopt (Some sock)
                         (SCTP_EVENT SCTP_PEER_ADDR_CHANGE 1);
                       Usrsctp_setsockopt (Some sock)
                         (SCTP_EVENT SCTP_REMOTE_ERROR 1);
                       Usrsctp_setsockopt (Some sock)
                         (SCTP_EVENT SCTP_SEND_FAILED 1);
                       Usrsctp_setsockopt (Some sock)
                         (SCTP_EVENT SCTP_SHUTDOWN_EVENT 1);
                       Usrsctp_setsockopt (Some sock)
                         (SCTP_EVENT SCTP_ADAPTATION_INDICATION 1);
                       Usrsctp_setsockopt (Some sock)
                         (SCTP_EVENT SCTP_STREAM_RESET_EVENT 1);
                       Usrsctp_setsockopt (Some sock)
                         (SCTP_EVENT SCTP_STREAM_CHANGE_EVENT 1)]
                    else [Usrsctp_close sock])
            end
    /\ closed t
       = match ans_usrsctp_socket ans, socket_result ans with
         | Some sock, None => [sock]
         | _, _ => []
         end.
Proof.
  destruct (create_sctp_socket_result ans w) as (t & E & Hc & Hcalls & _).
  exists t. auto.
Qed.

Lemma start_result ans thread (w : world) :
  state (self w) = GST_SCTP_ASSOCIATION_STATE_READY
  \/ state (self w) = GST_SCTP_ASSOCIATION_STATE_DISCONNECTED ->
  exists t,
    gst_sctp_association_start ans thread w
    = Some
        (match socket_result ans with
         | Some sock =>
             (true,
              mkWorld
                (set_connection_thread (Some thread)
                   (set_state GST_SCTP_ASSOCIATION_STATE_CONNECTING
                      (set_sctp_ass_sock (Some sock) (self w))))
                (trace w ++ t))
         | None =>
             (false,
              mkWorld
                (set_state GST_SCTP_ASSOCIATION_STATE_ERROR
                   (set_sctp_ass_sock None (self w)))
                (trace w ++ t))
         end)
    /\ notified t
       = [if not_null (socket_result ans)
          then GST_SCTP_ASSOCIATION_STATE_CONNECTING
          else GST_SCTP_ASSOCIATION_STATE_ERROR]
    /\ workers_started t = (if not_null (socket_result ans) then 1 else 0)%nat
    /\ closed t
       = match ans_usrsctp_socket ans, socket_result ans with
         | Some sock, None => [sock]
         | _, _ => []
         end.
Proof.
  intros Hs.
  destruct (create_sctp_socket_result ans w) as (t & E & Hc & _ & Hn & Hw).
  unfold gst_sctp_association_start. unfold bind at 1. unfold get_self at 1.
  assert (Hg : negb (state_eqb (state (self w))
                       GST_SCTP_ASSOCIATION_STATE_READY)
               && negb (state_eqb (state (self w))
                          GST_SCTP_ASSOCIATION_STATE_DISCONNECTED) = false)
    by (destruct Hs as [-> | ->]; reflexivity).
  rewrite Hg. unfold bind at 1. rewrite E.
  unfold gst_sctp_association_change_state_unlocked.
  destruct (socket_result ans) as [sock|];
    unfold bind, get_self, modify, emit, ret; simpl;
    rewrite <- ?app_assoc; (eexists; split; [reflexivity|]);
    rewrite ?notified_app, ?workers_started_app, ?closed_app, Hn, Hw, Hc;
    simpl; rewrite ?app_nil_r; repeat split; try reflexivity;
    destruct (ans_usrsctp_socket ans); reflexivity.
Qed.

(** X2.  From READY or DISCONNECTED, [start()] returns [TRUE] exactly when
    the socket is created.  Then the association is CONNECTING with that
    socket and the new worker, one worker was started and CONNECTING alone
    was announced.  Otherwise it is in ERROR with a null socket handle, no
    worker was started, ERROR alone was announced, and a socket that the
    engine had given was closed. *)
Theorem start_outcome (ans : socket_answers) (thread : GThread)
    (w : world) :
  state (self w) = GST_SCTP_ASSOCIATION_STATE_READY
  \/ state (self w) = GST_SCTP_ASSOCIATION_STATE_DISCONNECTED ->
  exists t,
    gst_sctp_association_start ans thread w
    = Some
        (match socket_result ans with
         | Some sock =>
             (true,
              mkWorld
                (set_connection_thread (Some thread)
                   (set_state GST_SCTP_ASSOCIATION_STATE_CONNECTING
                      (set_sctp_ass_sock (Some sock) (self w))))
                (trace w ++ t))
         | None =>
             (false,
              mkWorld
                (set_state GST_SCTP_ASSOCIATION_STATE_ERROR
                   (set_sctp_ass_sock None (self w)))
                (trace w ++ t))
         end)
    /\ notified t
       = [if not_null (socket_result ans)
          then GST_SCTP_ASSOCIATION_STATE_CONNECTING
          else GST_SCTP_ASSOCIATION_STATE_ERROR]
    /\ workers_started t = (if not_null (socket_result ans) then 1 else 0)%nat
    /\ closed t
       = match ans_usrsctp_socket ans, socket_result ans with
         | Some sock, None => [sock]
         | _, _ => []
         end.
Proof. apply start_result. Qed.

(** *** The data path and the frozen ports *)

Lemma data_path_keeps op :
  is_data_path op = true -> keeps (fun a a' => a = a') (step op).
Proof.
  intros Hop.
  destruct op as [| | | | | | | | | | | |valid d r1 r2]; try discriminate;
    simpl step.
  - unfold gst_sctp_association_get_property.
    keeps_tac eq_assoc_refl eq_assoc_trans.
  - unfold gst_sctp_association_incoming_packet.
    keeps_tac eq_assoc_refl eq_assoc_trans.
  - unfold gst_sctp_association_send_data.
    keeps_tac eq_assoc_refl eq_assoc_trans.
  - unfold gst_sctp_association_reset_stream.
    keeps_tac eq_assoc_refl eq_assoc_trans.
  - unfold sctp_packet_out. keeps_tac eq_assoc_refl eq_assoc_trans.
  - unfold receive_cb, handle_notification, handle_message,
      handle_association_changed.
    destruct d as [|n len datalen|data datalen sid ppid]; try discriminate.
    + destruct n as [sac|sr|ty]; simpl in Hop.
      * destruct (sac_state sac); try discriminate;
          keeps_tac eq_assoc_refl eq_assoc_trans.
      * keeps_tac eq_assoc_refl eq_assoc_trans.
      * keeps_tac eq_assoc_refl eq_assoc_trans.
    + keeps_tac eq_assoc_refl eq_assoc_trans.
Qed.

Lemma data_path_quiet op : is_data_path op = true -> quiet (step op).
Proof.
  intros Hop.
  destruct op as [| | | | | | | | | | | |valid d r1 r2]; try discriminate;
    simpl step.
  - unfold gst_sctp_association_get_property. quiet_tac.
  - unfold gst_sctp_association_incoming_packet. quiet_tac.
  - unfold gst_sctp_association_send_data. quiet_tac.
  - unfold gst_sctp_association_reset_stream. quiet_tac.
  - unfold sctp_packet_out. quiet_tac.
  - unfold receive_cb, handle_notification, handle_message,
      handle_association_changed.
    destruct d as [|n len datalen|data datalen sid ppid]; try discriminate.
    + destruct n as [sac|sr|ty]; simpl in Hop.
      * destruct (sac_state sac); try discriminate; quiet_tac.
      * repeat first [apply quiet_handle_stream_reset_event|quiet_step].
      * quiet_tac.
    + quiet_tac.
Qed.

Lemma data_path_unchanged op (w w' : world) :
  is_data_path op = true ->
  step op w = Some (tt, w') ->
  self w' = self w
  /\ exists t, trace w' = trace w ++ t /\ notified t = [].
Proof.
  intros Hop H. split.
  - symmetry. exact (data_path_keeps op Hop _ _ _ H).
  - exact (proj2 (data_path_quiet op Hop _ _ _ H)).
Qed.

(** X3.  The operations of the data path -- reading a property, an inbound
    wire packet, a send (whatever the engine answers), a stream reset
    request, an outbound packet of the engine, an inbound message, and every
    notification other than communication-up, communication-lost and
    shutdown-complete -- leave every field of the association as it was and
    announce no state. *)
Theorem data_path_leaves_association (op : operation) (w w' : world) :
  is_data_path op = true ->
  step op w = Some (tt, w') ->
  self w' = self w
  /\ exists t, trace w' = trace w ++ t /\ notified t = [].
Proof. apply data_path_unchanged. Qed.

Lemma ports_kept_by_step op :
  is_config_mutation op = false \/ kind op = 2%nat \/ kind op = 3%nat ->
  keeps same_ports (step op).
Proof.
  intros Hop.
  destruct op as [id v|id|cb ud|cb ud|ans thread|buf len| | | |r k|bs c
                 |valid buf len|valid d r1 r2];
    simpl step.
  - unfold gst_sctp_association_set_property, maybe_set_state_to_ready,
      gst_sctp_association_change_state_unlocked.
    destruct id; simpl in Hop;
      try (exfalso; intuition discriminate);
      keeps_tac same_ports_refl same_ports_trans.
  - unfold gst_sctp_association_get_property.
    keeps_tac same_ports_refl same_ports_trans.
  - unfold gst_sctp_association_set_on_packet_out, maybe_set_state_to_ready,
      gst_sctp_association_change_state_unlocked.
    keeps_tac same_ports_refl same_ports_trans.
  - unfold gst_sctp_association_set_on_packet_received,
      maybe_set_state_to_ready, gst_sctp_association_change_state_unlocked.
    keeps_tac same_ports_refl same_ports_trans.
  - unfold gst_sctp_association_start,
      gst_sctp_association_change_state_unlocked.
    keeps_tac same_ports_refl same_ports_trans.
  - unfold gst_sctp_association_incoming_packet.
    keeps_tac same_ports_refl same_ports_trans.
  - unfold gst_sctp_association_send_data.
    keeps_tac same_ports_refl same_ports_trans.
  - unfold gst_sctp_association_reset_stream.
    keeps_tac same_ports_refl same_ports_trans.
  - unfold gst_sctp_association_force_close,
      gst_sctp_association_force_close_unlocked.
    keeps_tac same_ports_refl same_ports_trans.
  - unfold gst_sctp_association_disconnect,
      gst_sctp_association_disconnect_unlocked, shutdown_handshake,
      gst_sctp_association_force_close_unlocked,
      gst_sctp_association_change_state_unlocked.
    keeps_tac same_ports_refl same_ports_trans.
  - unfold connection_thread_func, client_role_connect.
    keeps_tac same_ports_refl same_ports_trans.
  - unfold sctp_packet_out. keeps_tac same_ports_refl same_ports_trans.
  - unfold receive_cb, handle_notification, handle_message,
      handle_association_changed, handle_sctp_comm_up,
      handle_sctp_comm_lost_or_shutdown, _apply_aggressive_heartbeat_unlocked,
      gst_sctp_association_disconnect_unlocked, shutdown_handshake,
      gst_sctp_association_force_close_unlocked,
      gst_sctp_association_change_state_unlocked.
    keeps_tac same_ports_refl same_ports_trans.
Qed.

Lemma port_write_rejected id v (w : world) :
  is_port_property id = true ->
  state (self w) <> GST_SCTP_ASSOCIATION_STATE_NEW ->
  gst_sctp_association_set_property id v w
  = Some (tt,
          mkWorld (self w)
            (trace w
             ++ [G_warning "These properties cannot be set in this state"])).
Proof.
  intros Hid Hs. open_world w. unfold gst_sctp_association_set_property.
  destruct id; try discriminate; destruct state0; try congruence; reflexivity.
Qed.

(** X4.  Outside NEW the two ports are frozen: no operation changes
    [local_port] or [remote_port], and a write of a port property only
    warns and leaves the whole association as it was. *)
Theorem ports_frozen_outside_new (op : operation) (w w' : world) :
  state (self w) <> GST_SCTP_ASSOCIATION_STATE_NEW ->
  step op w = Some (tt, w') ->
  local_port (self w') = local_port (self w)
  /\ remote_port (self w') = remote_port (self w)
  /\ (forall id v,
        op = Set_property id v -> is_port_property id = true ->
        self w' = self w
        /\ trace w'
           = trace w
             ++ [G_warning "These properties cannot be set in this state"]).
Proof.
  intros Hs H.
  assert (Hports : same_ports (self w) (self w')).
  { destruct (is_config_mutation op) eqn:Hc.
    - destruct op as [id v| |cb ud|cb ud| | | | | | | | | ]; try discriminate.
      + destruct id; try discriminate; simpl in H;
          rewrite port_write_rejected in H by (auto; reflexivity);
          inversion H; subst; apply same_ports_refl.
      + eapply (ports_kept_by_step (Set_on_packet_out cb ud)); [auto|exact H].
      + eapply (ports_kept_by_step (Set_on_packet_received cb ud));
          [auto|exact H].
    - eapply ports_kept_by_step; [left; exact Hc|exact H]. }
  destruct Hports as [H1 H2]. split; [exact H1|]. split; [exact H2|].
  intros id v -> Hid. simpl in H.
  rewrite port_write_rejected in H by assumption.
  inversion H; subst. auto.
Qed.

(** *** The disconnect sequence *)

Lemma sleeps_app (t1 t2 : list action) :
  (sleeps (t1 ++ t2) = sleeps t1 + sleeps t2)%nat.
Proof.
  induction t1 as [|e t1 IH]; [reflexivity|].
  destruct e; simpl; rewrite IH; reflexivity.
Qed.

Lemma sleeps_repeat (n : nat) (us : Z) : sleeps (repeat (G_usleep us) n) = n.
Proof. induction n as [|n IH]; simpl; [reflexivity|now rewrite IH]. Qed.

Lemma notified_repeat_sleep (n : nat) (us : Z) :
  notified (repeat (G_usleep us) n) = [].
Proof. induction n as [|n IH]; simpl; [reflexivity|exact IH]. Qed.

Lemma closed_repeat_sleep (n : nat) (us : Z) :
  closed (repeat (G_usleep us) n) = [].
Proof. induction n as [|n IH]; simpl; [reflexivity|exact IH]. Qed.

Lemma set_shutdown_same (a : GstSctpAssociation) :
  set_shutdown (shutdown a) a = a.
Proof. destruct a; reflexivity. Qed.

Lemma wait_for_shutdown_flagged n k (w : world) :
  shutdown (self w) = true -> wait_for_shutdown n k w = Some (tt, w).
Proof.
  intros Hf. destruct n; simpl; unfold bind, get_self; rewrite Hf;
    reflexivity.
Qed.

Lemma wait_for_shutdown_result n k (w : world) :
  shutdown (self w) = false ->
  wait_for_shutdown n k w
  = Some (tt,
          mkWorld (set_shutdown (Nat.ltb k n) (self w))
            (trace w ++ repeat (G_usleep 10000) (Nat.min n (S k)))).
Proof.
  revert k w. induction n as [|n IH]; intros k w Hf.
  - simpl. unfold bind, get_self, ret. rewrite Hf.
    rewrite app_nil_r. change (Nat.ltb k 0) with false.
    rewrite <- Hf, set_shutdown_same. destruct w; reflexivity.
  - simpl wait_for_shutdown. unfold bind at 1. unfold get_self at 1.
    rewrite Hf. unfold bind at 1. unfold emit at 1. unfold bind at 1.
    destruct k as [|k].
    + simpl. unfold modify. simpl.
      rewrite wait_for_shutdown_flagged by reflexivity.
      rewrite Nat.min_0_r. reflexivity.
    + simpl Nat.eqb. unfold when, ret. simpl Nat.pred.
      rewrite IH by exact Hf. simpl self. simpl trace.
      rewrite <- app_assoc. reflexivity.
Qed.

(** X5.  The wait for the graceful shutdown is bounded by its budget: with
    the flag clear, [wait_for_shutdown n k] sleeps exactly
    [min n (k + 1)] times 10 ms, and leaves the flag set exactly when the
    engine set it within the budget ([k < n]); with the flag already set it
    does not sleep at all.  Nothing else is changed or done. *)
Theorem wait_for_shutdown_is_bounded (n k : nat) (w : world) :
  wait_for_shutdown n k w
  = Some (tt,
          if shutdown (self w) then w
          else mkWorld (set_shutdown (Nat.ltb k n) (self w))
                 (trace w ++ repeat (G_usleep 10000) (Nat.min n (S k))))
  /\ (Nat.min n (S k) <= n)%nat.
Proof.
  split; [|apply Nat.le_min_l].
  destruct (shutdown (self w)) eqn:Hf.
  - apply wait_for_shutdown_flagged. exact Hf.
  - apply wait_for_shutdown_result. exact Hf.
Qed.

Arguments wait_for_shutdown : simpl never.

Lemma shutdown_handshake_result try_shutdown ans k (w : world) :
  exists t,
    shutdown_handshake try_shutdown ans k w
    = Some (tt,
            mkWorld
              (if handshake_attempted try_shutdown (self w)
               then set_shutdown false (self w) else self w)
              (trace w ++ t))
    /\ notified t = [] /\ closed t = [] /\ (sleeps t <= 100)%nat.
Proof.
  unfold shutdown_handshake, handshake_attempted.
  unfold bind at 1. unfold get_self at 1.
  destruct (sctp_ass_sock (self w)) as [sock|];
    [destruct try_shutdown, (use_sock_stream (self w))|]; simpl;
    try (exists []; rewrite ?andb_false_r, app_nil_r; destruct w; simpl;
         repeat split; apply Nat.le_0_l).
  unfold bind at 1. unfold modify at 1. unfold bind at 1. unfold emit at 1.
  simpl self. simpl trace.
  destruct (ans =? 0); simpl when.
  - unfold bind at 1.
    rewrite wait_for_shutdown_result by reflexivity.
    assert (Hle := Nat.le_min_l 100 (S k)).
    remember (Nat.min 100 (S k)) as n eqn:Hn. clear Hn.
    remember (Nat.ltb k 100) as seen eqn:Hseen. clear Hseen.
    unfold modify. simpl. rewrite <- app_assoc.
    eexists. split; [reflexivity|]. simpl.
    rewrite notified_repeat_sleep, closed_repeat_sleep, sleeps_repeat.
    repeat split. exact Hle.
  - unfold ret. eexists. split; [reflexivity|]. simpl.
    repeat split. apply Nat.le_0_l.
Qed.

Lemma teardown_actions_facts (a : GstSctpAssociation) :
  notified (teardown_actions a) = [GST_SCTP_ASSOCIATION_STATE_DISCONNECTED]
  /\ closed (teardown_actions a)
     = match sctp_ass_sock a with Some sock => [sock] | None => [] end
  /\ sleeps (teardown_actions a) = 0%nat.
Proof.
  unfold teardown_actions.
  destruct (connection_thread a), (sctp_ass_sock a); repeat split.
Qed.

Lemma disconnect_connected_result try_shutdown ans k (w : world) :
  state (self w) = GST_SCTP_ASSOCIATION_STATE_CONNECTED ->
  exists t,
    gst_sctp_association_disconnect_unlocked try_shutdown ans k w
    = Some (tt,
            mkWorld
              (torn_down
                 (if handshake_attempted try_shutdown (self w)
                  then set_shutdown false (self w) else self w))
              (trace w ++ t))
    /\ notified t
       = [GST_SCTP_ASSOCIATION_STATE_DISCONNECTING;
          GST_SCTP_ASSOCIATION_STATE_DISCONNECTED]
    /\ closed t
       = match sctp_ass_sock (self w) with
         | Some sock => [sock]
         | None => []
         end
    /\ (sleeps t <= 100)%nat.
Proof.
  intros Hs.
  remember (gst_sctp_association_disconnect_unlocked try_shutdown ans k w)
    as r eqn:H.
  symmetry in H.
  unfold gst_sctp_association_disconnect_unlocked in H.
  unfold bind at 1 in H. unfold get_self at 1 in H. rewrite Hs in H.
  simpl in H. unfold bind at 1 in H. unfold bind at 1 in H.
  unfold gst_sctp_association_change_state_unlocked in H.
  unfold bind at 1 in H. simpl in H.
  match type of H with
  | context [shutdown_handshake ?a ?b ?c ?v] =>
      destruct (shutdown_handshake_result a b c v)
        as (t1 & E1 & Hn1 & Hc1 & Hz1)
  end.
  simpl in E1. rewrite E1 in H. clear E1.
  assert (Hatt : handshake_attempted try_shutdown
                   (set_state GST_SCTP_ASSOCIATION_STATE_DISCONNECTING
                      (self w))
                 = handshake_attempted try_shutdown (self w))
    by reflexivity.
  rewrite Hatt in H. clear Hatt.
  match type of H with
  | context [{| self := ?a; trace := ?tr |}] =>
      set (w1 := {| self := a; trace := tr |}) in H
  end.
  assert (Hst : state (self w1) = GST_SCTP_ASSOCIATION_STATE_DISCONNECTING).
  { unfold w1. simpl.
    destruct (handshake_attempted try_shutdown (self w)); reflexivity. }
  assert (T := teardown_result true 0 0%nat w1 Hst).
  unfold gst_sctp_association_disconnect_unlocked in T.
  unfold bind at 1 in T. unfold get_self at 1 in T. rewrite Hst in T.
  simpl in T. unfold bind at 1 in T. simpl in T.
  unfold gst_sctp_association_change_state_unlocked in T.
  rewrite T in H. subst r. clear T.
  destruct (teardown_actions_facts (self w1)) as (Hn2 & Hc2 & Hz2).
  exists ([Notify_state GST_SCTP_ASSOCIATION_STATE_DISCONNECTING] ++ t1
          ++ teardown_actions (self w1)).
  split.
  - unfold w1. simpl. rewrite <- !app_assoc. simpl.
    destruct (handshake_attempted try_shutdown (self w)); reflexivity.
  - rewrite !notified_app, !closed_app, !sleeps_app.
    rewrite Hn1, Hc1, Hn2, Hc2, Hz2. simpl.
    repeat split.
    + unfold w1. simpl.
      destruct (handshake_attempted try_shutdown (self w)); reflexivity.
    + lia.
Qed.




Lemma force_close_result (w : world) :
  gst_sctp_association_force_close w
  = Some (tt,
          mkWorld
            (set_sctp_assoc_id 0
               (set_done_connect false (set_sctp_ass_sock None (self w))))
            (trace w
             ++ match sctp_ass_sock (self w) with
                | Some sock => [Usrsctp_close sock]
                | None => []
                end)).
Proof.
  open_world w.
  unfold gst_sctp_association_force_close,
    gst_sctp_association_force_close_unlocked.
  destruct sctp_ass_sock0; unfold bind, get_self, modify, emit, ret; simpl;
    rewrite ?app_nil_r; reflexivity.
Qed.

(** *** What holds between operations *)

Ltac rest_tac :=
  unfold at_rest in *; simpl in *;
  repeat match goal with
         | H : context [?x =? 0] |- _ => destruct (x =? 0); simpl in *
         | |- context [?x =? 0] => destruct (x =? 0); simpl in *
         | H : context [not_null ?x] |- _ => destruct x; simpl in *
         | |- context [not_null ?x] => destruct x; simpl in *
         end;
  try discriminate; try reflexivity.

Lemma at_rest_set_shutdown b a : at_rest (set_shutdown b a) = at_rest a.
Proof. reflexivity. Qed.

Lemma at_rest_set_done_connect b a :
  at_rest (set_done_connect b a) = at_rest a.
Proof. reflexivity. Qed.

Lemma worker_keeps ans_bind ans_connect :
  keeps same_except_done_connect (connection_thread_func ans_bind ans_connect).
Proof.
  unfold connection_thread_func, client_role_connect.
  keeps_tac same_except_done_connect_refl same_except_done_connect_trans.
Qed.

Lemma start_elsewhere_result ans thread (w : world) :
  state (self w) <> GST_SCTP_ASSOCIATION_STATE_READY ->
  state (self w) <> GST_SCTP_ASSOCIATION_STATE_DISCONNECTED ->
  gst_sctp_association_start ans thread w
  = Some (false,
          mkWorld (self w)
            (trace w
             ++ [G_warning
                   "SCTP association is in wrong state and cannot be started"])).
Proof.
  intros H1 H2. open_world w. unfold gst_sctp_association_start.
  destruct state0; try congruence; reflexivity.
Qed.

Lemma at_rest_disconnect try_shutdown ans k (w w' : world) :
  at_rest (self w) = true ->
  gst_sctp_association_disconnect_unlocked try_shutdown ans k w
  = Some (tt, w') ->
  at_rest (self w') = true.
Proof.
  intros Hr H. destruct (state (self w)) eqn:Hs.
  4: { destruct (disconnect_connected_result try_shutdown ans k w Hs)
         as (t & E & _).
       rewrite E in H. inversion H; subst. clear H E.
       destruct w as [a tr]; destruct a; simpl in *; subst.
       destruct (handshake_attempted _ _); rest_tac. }
  4: { unfold at_rest in Hr. rewrite Hs in Hr. discriminate. }
  all: rewrite disconnect_elsewhere_result in H by congruence;
    inversion H; subst; exact Hr.
Qed.

Lemma at_rest_step op (w w' : world) :
  writes_state_property op = false ->
  at_rest (self w) = true ->
  step op w = Some (tt, w') ->
  at_rest (self w') = true.
Proof.
  intros Hop Hr H.
  destruct (is_data_path op) eqn:Hd.
  { rewrite (proj1 (data_path_unchanged op w w' Hd H)).
    exact Hr. }
  destruct op as [id v|id|cb ud|cb ud|ans thread|buf len| | | |r k|bs c
                 |valid buf len|valid d r1 r2];
    try discriminate; simpl step in H.
  - open_world w.
    unfold gst_sctp_association_set_property, maybe_set_state_to_ready,
      gst_sctp_association_change_state_unlocked in H.
    destruct id; try discriminate; destruct state0;
      straight_line H; rest_tac.
  - open_world w.
    unfold gst_sctp_association_set_on_packet_out, maybe_set_state_to_ready,
      gst_sctp_association_change_state_unlocked in H.
    destruct state0; straight_line H; rest_tac.
  - open_world w.
    unfold gst_sctp_association_set_on_packet_received,
      maybe_set_state_to_ready, gst_sctp_association_change_state_unlocked
      in H.
    destruct state0; straight_line H; rest_tac.
  - unfold bind in H.
    destruct (gst_sctp_association_start ans thread w) as [[b v]|] eqn:E;
      [|discriminate].
    inversion H; subst v. clear H.
    destruct (state (self w)) eqn:Hs.
    2, 6: destruct (start_result ans thread w) as (t & E' & _);
      [rewrite Hs; auto|];
      rewrite E' in E; destruct (socket_result ans);
      inversion E; subst; clear E E';
      destruct w as [a tr]; destruct a; simpl in *; subst; rest_tac.
    all: rewrite start_elsewhere_result in E by congruence;
      inversion E; subst; exact Hr.
  - rewrite force_close_result in H. inversion H; subst. clear H.
    destruct w as [a tr]; destruct a; simpl in *.
    destruct state0; rest_tac.
  - eapply at_rest_disconnect; eassumption.
  - assert (Hk := worker_keeps bs c _ _ _ H).
    unfold same_except_done_connect in Hk.
    rewrite <- (at_rest_set_done_connect false (self w')), Hk.
    exact Hr.
  - unfold bind in H.
    destruct (receive_cb valid d r1 r2 w) as [[z v]|] eqn:E; [|discriminate].
    inversion H; subst v. clear H.
    unfold receive_cb in E. destruct valid; simpl in E;
      [|inversion E; subst; exact Hr].
    destruct d as [|n len datalen|data datalen sid ppid]; try discriminate.
    + inversion E; subst. exact Hr.
    + destruct n as [sac|sr|ty]; try discriminate.
      unfold bind at 1 in E. unfold handle_notification in E.
      destruct (negb (len =? datalen)); [discriminate|].
      unfold handle_association_changed in E. simpl in Hd.
      destruct (sac_state sac) eqn:Hk; try discriminate.
      * destruct (handle_sctp_comm_up sac r1 r2 w) as [[u v]|] eqn:E1;
          [|discriminate].
        inversion E; subst. simpl. clear E.
        destruct (state (self w)) eqn:Hs.
        3: { rewrite comm_up_result in E1 by exact Hs.
             inversion E1; subst. clear E1.
             destruct w as [a tr]; destruct a; simpl in *; subst.
             rest_tac. }
        all: rewrite comm_up_elsewhere in E1 by congruence;
          inversion E1; subst; exact Hr.
      * unfold handle_sctp_comm_lost_or_shutdown in E.
        destruct (gst_sctp_association_disconnect_unlocked false 0 0 w)
          as [[[] v]|] eqn:E1; [|discriminate].
        inversion E; subst. simpl.
        eapply at_rest_disconnect; eassumption.
      * unfold handle_sctp_comm_lost_or_shutdown in E.
        destruct (gst_sctp_association_disconnect_unlocked false 0 0 w)
          as [[[] v]|] eqn:E1; [|discriminate].
        inversion E; subst. simpl.
        eapply at_rest_disconnect; eassumption.
Qed.

Lemma at_rest_run ops (w w' : world) :
  forallb (fun op => negb (writes_state_property op)) ops = true ->
  at_rest (self w) = true ->
  run ops w = Some (tt, w') ->
  at_rest (self w') = true.
Proof.
  revert w. induction ops as [|op ops IH]; intros w Hops Hr H.
  - inversion H; subst. exact Hr.
  - simpl in Hops. apply andb_true_iff in Hops as [Hop Hops].
    apply negb_true_iff in Hop. simpl in H. unfold bind in H.
    destruct (step op w) as [[[] w1]|] eqn:E; [|discriminate].
    eapply IH; [exact Hops| |exact H].
    eapply at_rest_step; eassumption.
Qed.

(** X8.  Resources follow the state, between calls that do not overlap.
    After any sequence of calls, each returned before the next begins and
    none a write of the [state] property, on an association that started
    as [gst_sctp_association_init] leaves it: the association is not in
    DISCONNECTING; a socket handle is held only in CONNECTING or
    CONNECTED; a worker is held exactly in CONNECTING and CONNECTED (so
    [start()], which runs only from READY or DISCONNECTED, does not replace
    a worker that was not joined); the engine association id is non-zero
    only in CONNECTED. *)
Theorem resources_follow_state (ops : list operation) (w' : world) :
  forallb (fun op => negb (writes_state_property op)) ops = true ->
  run ops (mkWorld gst_sctp_association_init []) = Some (tt, w') ->
  state (self w') <> GST_SCTP_ASSOCIATION_STATE_DISCONNECTING
  /\ (sctp_ass_sock (self w') <> None ->
      state (self w') = GST_SCTP_ASSOCIATION_STATE_CONNECTING
      \/ state (self w') = GST_SCTP_ASSOCIATION_STATE_CONNECTED)
  /\ (connection_thread (self w') <> None <->
      state (self w') = GST_SCTP_ASSOCIATION_STATE_CONNECTING
      \/ state (self w') = GST_SCTP_ASSOCIATION_STATE_CONNECTED)
  /\ (sctp_assoc_id (self w') <> 0 ->
      state (self w') = GST_SCTP_ASSOCIATION_STATE_CONNECTED).
Proof.
  intros Hops H.
  assert (Hr : at_rest (self w') = true)
    by (eapply at_rest_run; [exact Hops| |exact H]; reflexivity).
  destruct w' as [a tr]; destruct a; simpl in *. unfold at_rest in Hr.
  simpl in Hr.
  destruct state0, sctp_ass_sock0, connection_thread0,
    (Z.eqb_spec sctp_assoc_id0 0); simpl in Hr; try discriminate;
    repeat split; intros; try congruence; auto;
    try (intuition congruence).
Qed.

(** X9.  After any sequence of operations without a write of the [state]
    property, on an association that started as [gst_sctp_association_init]
    leaves it, both ports are non-zero whenever the association is not in
    NEW. *)
Theorem ports_set_outside_new (ops : list operation) (w' : world) :
  forallb (fun op => negb (writes_state_property op)) ops = true ->
  run ops (mkWorld gst_sctp_association_init []) = Some (tt, w') ->
  state (self w') <> GST_SCTP_ASSOCIATION_STATE_NEW ->
  local_port (self w') <> 0 /\ remote_port (self w') <> 0.
Proof.
  intros Hops H Hs.
  assert (Hr : at_rest (self w') = true)
    by (eapply at_rest_run; [exact Hops| |exact H]; reflexivity).
  destruct w' as [a tr]; destruct a; simpl in *. unfold at_rest in Hr.
  simpl in Hr.
  destruct state0, (Z.eqb_spec local_port0 0), (Z.eqb_spec remote_port0 0);
    simpl in Hr; rewrite ?andb_false_r in Hr; try discriminate;
    try congruence; auto.
Qed.

(** *** The connection worker *)

Lemma bind_with_retry_result addr (rs : list Z) final rest (w : world) :
  Forall (fun r => r < 0) rs ->
  0 <= fst final \/ snd final <> EADDRINUSE ->
  bind_with_retry addr (map (fun r => (r, EADDRINUSE)) rs ++ final :: rest) w
  = Some (0 <=? fst final,
          mkWorld (self w)
            (trace w
             ++ List.concat (map (fun _ => bind_and_sleep (sctp_ass_sock (self w))
                                       addr) rs)
             ++ [Usrsctp_bind (sctp_ass_sock (self w)) addr])).
Proof.
  intros Hrs Hfinal. revert w.
  induction rs as [|r rs IH]; intros w.
  - destruct final as [rf ef]. simpl in *.
    unfold bind, get_self, emit, ret. simpl.
    destruct (Z.ltb_spec rf 0) as [Hneg|Hpos].
    + destruct Hfinal as [H|H]; [lia|].
      replace (0 <=? rf) with false by (symmetry; apply Z.leb_gt; lia).
      destruct ef; try congruence; reflexivity.
    + replace (0 <=? rf) with true by (symmetry; apply Z.leb_le; lia).
      reflexivity.
  - inversion Hrs as [|? ? Hr Hrs']; subst. simpl.
    unfold bind at 1. unfold get_self at 1. unfold bind at 1.
    unfold emit at 1.
    replace (r <? 0) with true by (symmetry; apply Z.ltb_lt; exact Hr).
    unfold bind at 1. unfold emit at 1. rewrite (IH Hrs'). simpl.
    rewrite <- !app_assoc. reflexivity.
Qed.

(** X10.  The bind of the worker is retried for as long as the engine
    reports the address in use, with no bound on the number of attempts:
    after any number [n] of such answers there have been [n] attempts, each
    followed by a sleep of 10 ms, and the next answer decides -- success if
    it is not negative, failure if it is an error other than address in
    use.  The association is not touched. *)
Theorem bind_is_retried_while_address_in_use (addr : sockaddr_conn)
    (rs : list Z) (final : Z * errno_t) (rest : list (Z * errno_t))
    (w : world) :
  Forall (fun r => r < 0) rs ->
  0 <= fst final \/ snd final <> EADDRINUSE ->
  bind_with_retry addr (map (fun r => (r, EADDRINUSE)) rs ++ final :: rest) w
  = Some (0 <=? fst final,
          mkWorld (self w)
            (trace w
             ++ List.concat (map (fun _ => bind_and_sleep (sctp_ass_sock (self w))
                                       addr) rs)
             ++ [Usrsctp_bind (sctp_ass_sock (self w)) addr])).
Proof. apply bind_with_retry_result. Qed.

Lemma client_role_connect_cases ans_bind ans_connect (w : world) b w' :
  client_role_connect ans_bind ans_connect w = Some (b, w') ->
  exists t,
    trace w' = trace w ++ t
    /\ notified t = []
    /\ ((b = true
         /\ connect_accepted ans_connect = true
         /\ self w' = set_done_connect true (self w)
         /\ exists t0,
              t = t0 ++ [Usrsctp_connect (sctp_ass_sock (self w))
                           (get_sctp_socket_address (remote_port (self w)))])
        \/ (b = false /\ self w' = self w)).
Proof.
  intros H. unfold client_role_connect in H.
  unfold bind at 1 in H. unfold get_self at 1 in H. unfold bind at 1 in H.
  destruct (bind_with_retry (get_sctp_socket_address (local_port (self w)))
              ans_bind w) as [[bound w1]|] eqn:E; [|discriminate].
  assert (Hself : self w1 = self w)
    by (eapply unchanged_result;
        [apply (keeps_bind_with_retry _ eq_assoc_refl eq_assoc_trans)
        |exact E]).
  destruct (quiet_bind_with_retry _ _ _ _ _ E) as (_ & t1 & Ht1 & Hn1).
  destruct w1 as [a1 tr1]; simpl in *; subst a1 tr1.
  unfold connect_accepted.
  destruct bound; straight_line H.
  - eexists. rewrite <- app_assoc. split; [reflexivity|].
    rewrite notified_app, Hn1. split; [reflexivity|]. right. auto.
  - eexists. rewrite <- app_assoc. split; [reflexivity|].
    rewrite notified_app, Hn1. split; [reflexivity|]. left.
    repeat split. eauto.
  - exists t1. repeat split; auto.
Qed.

(** X11.  The connection worker changes one field at most: when it
    returns [TRUE] it set [done_connect], the connect answered without error
    or with [EINPROGRESS], and its last engine call was the connect of the
    association's socket to the address of the remote port; when it returns
    [FALSE] it changed nothing.  It announces no state in either case, so it
    never moves the association to CONNECTED itself. *)
Theorem worker_only_sets_done_connect (ans_bind : list (Z * errno_t))
    (ans_connect : Z * errno_t) (w : world) (b : bool) (w' : world) :
  client_role_connect ans_bind ans_connect w = Some (b, w') ->
  exists t,
    trace w' = trace w ++ t
    /\ notified t = []
    /\ ((b = true
         /\ connect_accepted ans_connect = true
         /\ self w' = set_done_connect true (self w)
         /\ exists t0,
              t = t0 ++ [Usrsctp_connect (sctp_ass_sock (self w))
                           (get_sctp_socket_address (remote_port (self w)))])
        \/ (b = false /\ self w' = self w)).
Proof. apply client_role_connect_cases. Qed.

(** *** Properties, packets and notifications in sequence *)

Lemma wrap16_small z : 0 <= z <= 65535 -> wrap16 z = z.
Proof. intros Hz. unfold wrap16. apply Z.mod_small. lia. Qed.

Lemma wrap32_small z : 0 <= z <= 65535 -> wrap32 z = z.
Proof. intros Hz. unfold wrap32. apply Z.mod_small. lia. Qed.

(** X12.  A property read returns what was written: after a write of a
    value of the property's type and range -- for a port, on an association
    in NEW -- the read of the same property yields that value and changes
    nothing, also when the write promoted the association to READY. *)
Theorem property_written_is_read (id : prop_id) (v : GValue) (w : world) :
  property_value_ok id v = true ->
  (is_port_property id = true ->
   state (self w) = GST_SCTP_ASSOCIATION_STATE_NEW) ->
  exists w1,
    gst_sctp_association_set_property id v w = Some (tt, w1)
    /\ gst_sctp_association_get_property id w1 = Some (Some v, w1).
Proof.
  intros Hok Hport. open_world w.
  destruct id, v as [z|s|b]; try discriminate; simpl in Hok;
    try (apply andb_true_iff in Hok as [Hlo Hhi];
         apply Z.leb_le in Hlo, Hhi);
    try (specialize (Hport eq_refl); subst state0);
    unfold gst_sctp_association_set_property, maybe_set_state_to_ready,
      gst_sctp_association_change_state_unlocked,
      gst_sctp_association_get_property;
    unfold bind, get_self, modify, emit, ret, when; simpl;
    rewrite ?wrap16_small, ?wrap32_small by lia.
  - destruct state0; simpl; eexists; split; reflexivity.
  - destruct (negb (z =? 0) && negb (remote_port0 =? 0)
              && not_null packet_out_cb0 && not_null packet_received_cb0);
      simpl; eexists; split; reflexivity.
  - destruct (negb (local_port0 =? 0) && negb (z =? 0)
              && not_null packet_out_cb0 && not_null packet_received_cb0);
      simpl; eexists; split; reflexivity.
  - destruct state0; simpl; eexists; split; reflexivity.
  - destruct state0; simpl; eexists; split; reflexivity.
  - destruct state0, b; simpl; eexists; split; reflexivity.
  - destruct state0; simpl; eexists; split; reflexivity.
Qed.

Lemma stream_reset_loop_prefix sr (rounds i : nat) (w : world) :
  flag_set (strreset_flags sr) SCTP_STREAM_RESET_INCOMING_SSN = true ->
  (i + rounds <= List.length (strreset_stream_list sr))%nat ->
  stream_reset_loop sr i rounds w
  = Some (tt,
          mkWorld (self w)
            (trace w
             ++ map Signal_stream_reset
                  (firstn rounds (skipn i (strreset_stream_list sr))))).
Proof.
  intros Hf. revert i w. induction rounds as [|n IH]; intros i w Hlen.
  - simpl. rewrite app_nil_r. destruct w; reflexivity.
  - simpl stream_reset_loop. rewrite Hf.
    destruct (nth_error_skipn (strreset_stream_list sr) i ltac:(lia))
      as (x & Hx & Hsk).
    rewrite Hx. unfold bind at 1. unfold emit at 1.
    rewrite IH by (simpl; lia). simpl self. simpl trace. rewrite Hsk.
    simpl. rewrite <- app_assoc. reflexivity.
Qed.

(** X13.  The stream-reset handler trusts the length field of the event:
    when the field counts [n] streams and the event carries at least so
    many, an event that is not denied and has the incoming flag raises one
    signal for each of the first [n] listed streams, in order, and none for
    the streams beyond; a denied event or one without the incoming flag
    raises none.  The association is not touched. *)
Theorem stream_reset_signals_counted_streams (sr : sctp_stream_reset_event)
    (w : world) :
  (stream_count_of sr <= List.length (strreset_stream_list sr))%nat ->
  handle_stream_reset_event sr w
  = Some (tt,
          mkWorld (self w)
            (trace w
             ++ if flag_set (strreset_flags sr) SCTP_STREAM_RESET_DENIED
                then []
                else if flag_set (strreset_flags sr)
                          SCTP_STREAM_RESET_INCOMING_SSN
                     then map Signal_stream_reset
                            (firstn (stream_count_of sr)
                               (strreset_stream_list sr))
                     else [])).
Proof.
  intros Hn. unfold handle_stream_reset_event.
  fold (stream_count_of sr).
  destruct (flag_set (strreset_flags sr) SCTP_STREAM_RESET_DENIED); simpl.
  - rewrite app_nil_r. destruct w; reflexivity.
  - destruct (flag_set (strreset_flags sr) SCTP_STREAM_RESET_INCOMING_SSN)
      eqn:Hin.
    + rewrite stream_reset_loop_prefix by (auto; simpl; lia). reflexivity.
    + rewrite stream_reset_loop_other by exact Hin.
      rewrite app_nil_r. destruct w; reflexivity.
Qed.

Lemma incoming_packets_dropped packets (w : world) :
  done_connect (self w) = false ->
  run (incoming_packets packets) w = Some (tt, w).
Proof.
  intros Hd. induction packets as [|[buf len] packets IH]; [reflexivity|].
  simpl. unfold bind. rewrite incoming_packet_result, Hd. exact IH.
Qed.

(** X14.  The gate for inbound packets closes again with the socket: right
    after [force_close()], in any state, and right after a [disconnect()]
    of a CONNECTED or DISCONNECTING association, inbound wire packets are
    dropped, each and all, as they were before the first connect. *)
Theorem inbound_gate_closes_with_socket (packets : list (bytes * Z))
    (ans : Z) (k : nat) (w : world) :
  run (Force_close :: incoming_packets packets) w = run [Force_close] w
  /\ (state (self w) = GST_SCTP_ASSOCIATION_STATE_CONNECTED
      \/ state (self w) = GST_SCTP_ASSOCIATION_STATE_DISCONNECTING ->
      run (Disconnect ans k :: incoming_packets packets) w
      = run [Disconnect ans k] w).
Proof.
  split.
  - change (bind (step Force_close)
              (fun _ => run (incoming_packets packets)) w
            = bind (step Force_close) (fun _ => ret tt) w).
    unfold bind. simpl step. rewrite force_close_result.
    rewrite incoming_packets_dropped by reflexivity. reflexivity.
  - intros Hs.
    change (bind (step (Disconnect ans k))
              (fun _ => run (incoming_packets packets)) w
            = bind (step (Disconnect ans k)) (fun _ => ret tt) w).
    unfold bind. simpl step. unfold gst_sctp_association_disconnect.
    destruct Hs as [Hs|Hs].
    + destruct (disconnect_connected_result true ans k w Hs) as (t & E & _).
      rewrite E. rewrite incoming_packets_dropped by reflexivity.
      reflexivity.
    + rewrite teardown_result by exact Hs.
      rewrite incoming_packets_dropped by reflexivity. reflexivity.
Qed.

Lemma deliver_comm_up sac len r1 r2 (w : world) :
  sac_state sac = SCTP_COMM_UP ->
  deliver_assoc_change sac len r1 r2 w
  = (handle_sctp_comm_up sac r1 r2 ;;
     emit Usrsctp_freedumpbuffer ;; ret 1) w.
Proof.
  intros Hk. unfold deliver_assoc_change, receive_cb, handle_notification.
  simpl. rewrite Z.eqb_refl. simpl.
  unfold handle_association_changed. rewrite Hk. reflexivity.
Qed.

(** X15.  The engine association id is captured once: of two
    communication-up notifications delivered in a row to an association in
    CONNECTING, the first makes it CONNECTED with the id it carries, and the
    second changes nothing -- the id of the first stays and no state is
    announced again. *)
Theorem duplicate_comm_up_is_ignored (up1 up2 : sctp_assoc_change)
    (len1 len2 r1 r2 r3 r4 : Z) (w : world) :
  sac_state up1 = SCTP_COMM_UP ->
  sac_state up2 = SCTP_COMM_UP ->
  state (self w) = GST_SCTP_ASSOCIATION_STATE_CONNECTING ->
  exists w1,
    deliver_assoc_change up1 len1 r1 r2 w = Some (1, w1)
    /\ state (self w1) = GST_SCTP_ASSOCIATION_STATE_CONNECTED
    /\ sctp_assoc_id (self w1) = sac_assoc_id up1
    /\ deliver_assoc_change up2 len2 r3 r4 w1
       = Some (1, mkWorld (self w1) (trace w1 ++ [Usrsctp_freedumpbuffer])).
Proof.
  intros Hk1 Hk2 Hs.
  rewrite (deliver_comm_up _ _ _ _ _ Hk1). unfold bind at 1.
  rewrite comm_up_result by exact Hs.
  unfold bind, emit, ret. simpl.
  eexists. split; [reflexivity|]. split; [reflexivity|].
  split; [reflexivity|].
  rewrite (deliver_comm_up _ _ _ _ _ Hk2). unfold bind at 1.
  rewrite comm_up_elsewhere by (simpl; discriminate). reflexivity.
Qed.

(** *** Tables *)

Lemma lookup_remove_eq {V} (t : table V) k :
  g_hash_table_lookup (g_hash_table_remove t k) k = None.
Proof.
  induction t as [|[k' v] t IH]; [reflexivity|]. simpl.
  destruct (Z.eqb_spec k' k) as [->|Hne]; [exact IH|].
  simpl. destruct (Z.eqb_spec k' k); [contradiction|exact IH].
Qed.

Lemma lookup_remove_ne {V} (t : table V) k k' :
  k <> k' ->
  g_hash_table_lookup (g_hash_table_remove t k) k'
  = g_hash_table_lookup t k'.
Proof.
  intros Hne. induction t as [|[k0 v] t IH]; [reflexivity|]. simpl.
  destruct (Z.eqb_spec k0 k) as [->|Hk].
  - destruct (Z.eqb_spec k k'); [contradiction|exact IH].
  - simpl. destruct (Z.eqb_spec k0 k'); [reflexivity|exact IH].
Qed.

Lemma lookup_insert_eq {V} (t : table V) k v :
  g_hash_table_lookup (g_hash_table_insert t k v) k = Some v.
Proof. unfold g_hash_table_insert. simpl. now rewrite Z.eqb_refl. Qed.

Lemma lookup_insert_ne {V} (t : table V) k k' v :
  k <> k' ->
  g_hash_table_lookup (g_hash_table_insert t k v) k'
  = g_hash_table_lookup t k'.
Proof.
  intros Hne. unfold g_hash_table_insert. simpl.
  destruct (Z.eqb_spec k k'); [contradiction|].
  apply lookup_remove_ne. exact Hne.
Qed.

Lemma lookup_none_keys {V} (t : table V) k :
  g_hash_table_lookup t k = None <-> ~ In k (map fst t).
Proof.
  induction t as [|[k' v] t IH]; simpl; [tauto|].
  destruct (Z.eqb_spec k' k) as [->|Hne].
  - split; [discriminate|]. intros H. exfalso. apply H. auto.
  - rewrite IH. tauto.
Qed.

Lemma remove_absent {V} (t : table V) k :
  g_hash_table_lookup t k = None -> g_hash_table_remove t k = t.
Proof.
  induction t as [|[k' v] t IH]; [reflexivity|]. simpl.
  destruct (Z.eqb_spec k' k); [discriminate|].
  intros H. now rewrite IH.
Qed.

Lemma keys_remove {V} (t : table V) k k' :
  In k' (map fst (g_hash_table_remove t k))
  <-> In k' (map fst t) /\ k' <> k.
Proof.
  induction t as [|[k0 v] t IH]; simpl; [tauto|].
  destruct (Z.eqb_spec k0 k) as [->|Hne]; simpl; rewrite IH.
  - intuition congruence.
  - intuition congruence.
Qed.

Lemma NoDup_keys_remove {V} (t : table V) k :
  NoDup (map fst t) -> NoDup (map fst (g_hash_table_remove t k)).
Proof.
  induction t as [|[k0 v] t IH]; simpl; intros Hnd; [constructor|].
  inversion Hnd as [|? ? Hnin Hnd']; subst.
  destruct (Z.eqb_spec k0 k); [auto|]. simpl. constructor; [|auto].
  rewrite keys_remove. tauto.
Qed.

Lemma NoDup_keys_insert {V} (t : table V) k v :
  NoDup (map fst t) -> NoDup (map fst (g_hash_table_insert t k v)).
Proof.
  intros Hnd. unfold g_hash_table_insert. simpl. constructor.
  - rewrite keys_remove. tauto.
  - apply NoDup_keys_remove. exact Hnd.
Qed.

Lemma length_remove_present {V} (t : table V) k v :
  NoDup (map fst t) ->
  g_hash_table_lookup t k = Some v ->
  S (List.length (g_hash_table_remove t k)) = List.length t.
Proof.
  induction t as [|[k0 v0] t IH]; simpl; intros Hnd H; [discriminate|].
  inversion Hnd as [|? ? Hnin Hnd']; subst.
  destruct (Z.eqb_spec k0 k) as [->|Hne].
  - rewrite remove_absent; [reflexivity|].
    apply lookup_none_keys. exact Hnin.
  - simpl. f_equal. apply IH; assumption.
Qed.

Lemma length_insert_present {V} (t : table V) k v v' :
  NoDup (map fst t) ->
  g_hash_table_lookup t k = Some v ->
  List.length (g_hash_table_insert t k v') = List.length t.
Proof.
  intros Hnd H. unfold g_hash_table_insert. simpl.
  eapply length_remove_present; eassumption.
Qed.

Lemma length_insert_absent {V} (t : table V) k v :
  g_hash_table_lookup t k = None ->
  List.length (g_hash_table_insert t k v) = S (List.length t).
Proof.
  intros H. unfold g_hash_table_insert. simpl.
  now rewrite remove_absent.
Qed.

Lemma lookup_in {V} (t : table V) k v :
  NoDup (map fst t) -> In (k, v) t -> g_hash_table_lookup t k = Some v.
Proof.
  induction t as [|[k0 v0] t IH]; simpl; intros Hnd Hin; [contradiction|].
  inversion Hnd as [|? ? Hnin Hnd']; subst.
  destruct Hin as [Heq|Hin].
  - inversion Heq; subst. now rewrite Z.eqb_refl.
  - destruct (Z.eqb_spec k0 k) as [->|Hne]; [|auto].
    exfalso. apply Hnin. apply in_map_iff. exists (k, v). auto.
Qed.

Lemma engine_running_from_app b l1 l2 :
  engine_running_from b (l1 ++ l2)
  = engine_running_from (engine_running_from b l1) l2.
Proof.
  revert b. induction l1 as [|e l1 IH]; intros b; [reflexivity|].
  destruct e; simpl; apply IH.
Qed.

Lemma engine_running_from_on_association b p t :
  engine_running_from b (map (On_association p) t) = b.
Proof. induction t as [|e t IH]; [reflexivity|exact IH]. Qed.

Lemma identifier_kept_by_step op :
  match op with
  | Set_property PROP_ASSOCIATION_ID _ => false
  | _ => true
  end = true ->
  keeps same_identifier (step op).
Proof.
  assert (Hr : forall a, same_identifier a a) by reflexivity.
  assert (Ht : forall a b c,
             same_identifier a b -> same_identifier b c ->
             same_identifier a c)
    by (unfold same_identifier; congruence).
  intros Hop.
  destruct op as [id v|id|cb ud|cb ud|ans thread|buf len| | | |r k|bs c
                 |valid buf len|valid d r1 r2];
    simpl step.
  - unfold gst_sctp_association_set_property, maybe_set_state_to_ready,
      gst_sctp_association_change_state_unlocked.
    destruct id; try discriminate; keeps_tac Hr Ht.
  - unfold gst_sctp_association_get_property. keeps_tac Hr Ht.
  - unfold gst_sctp_association_set_on_packet_out, maybe_set_state_to_ready,
      gst_sctp_association_change_state_unlocked.
    keeps_tac Hr Ht.
  - unfold gst_sctp_association_set_on_packet_received,
      maybe_set_state_to_ready, gst_sctp_association_change_state_unlocked.
    keeps_tac Hr Ht.
  - unfold gst_sctp_association_start,
      gst_sctp_association_change_state_unlocked.
    keeps_tac Hr Ht.
  - unfold gst_sctp_association_incoming_packet. keeps_tac Hr Ht.
  - unfold gst_sctp_association_send_data. keeps_tac Hr Ht.
  - unfold gst_sctp_association_reset_stream. keeps_tac Hr Ht.
  - unfold gst_sctp_association_force_close,
      gst_sctp_association_force_close_unlocked.
    keeps_tac Hr Ht.
  - unfold gst_sctp_association_disconnect,
      gst_sctp_association_disconnect_unlocked, shutdown_handshake,
      gst_sctp_association_force_close_unlocked,
      gst_sctp_association_change_state_unlocked.
    keeps_tac Hr Ht.
  - unfold connection_thread_func, client_role_connect. keeps_tac Hr Ht.
  - unfold sctp_packet_out. keeps_tac Hr Ht.
  - unfold receive_cb, handle_notification, handle_message,
      handle_association_changed, handle_sctp_comm_up,
      handle_sctp_comm_lost_or_shutdown, _apply_aggressive_heartbeat_unlocked,
      gst_sctp_association_disconnect_unlocked, shutdown_handshake,
      gst_sctp_association_force_close_unlocked,
      gst_sctp_association_change_state_unlocked.
    keeps_tac Hr Ht.
Qed.

(** *** The registry in order *)

Ltac fields :=
  cbn [objects associations_by_id ids_by_association
       number_of_associations events] in *.

Lemma on_object_keeps_registry {A} p (m : M A) (pr : process) x pr' :
  keeps same_identifier m ->
  registry_ok pr ->
  on_object p m pr = Some (x, pr') ->
  registry_ok pr'
  /\ associations_by_id pr' = associations_by_id pr
  /\ ids_by_association pr' = ids_by_association pr
  /\ number_of_associations pr' = number_of_associations pr.
Proof.
  intros Hk Hok H. unfold on_object in H.
  destruct (g_hash_table_lookup (objects pr) p) as [a|] eqn:Hp;
    [|discriminate].
  destruct (m (mkWorld a [])) as [[y w']|] eqn:Hm; [|discriminate].
  inversion H; subst. clear H. fields.
  assert (Hid : association_id (self w') = association_id a)
    by exact (Hk _ _ _ Hm).
  split; [|auto].
  destruct Hok as (Htab & Hnd & Hnum & Heng).
  unfold registry_ok. fields.
  split; [|split; [|split]].
  - destruct (associations_by_id pr) as [by_id|],
      (ids_by_association pr) as [ids|]; try contradiction.
    + destruct Htab as (Hinv & Hlive & Hfield).
      split; [exact Hinv|]. split.
      * intros q. destruct (Z.eq_dec p q) as [<-|Hne].
        -- rewrite lookup_insert_eq. rewrite Hlive, Hp.
           split; intros _; eauto.
        -- rewrite lookup_insert_ne by exact Hne. apply Hlive.
      * intros q id a0 Hq Ha0. destruct (Z.eq_dec p q) as [<-|Hne].
        -- rewrite lookup_insert_eq in Ha0. inversion Ha0; subst.
           rewrite Hid. eapply Hfield; eassumption.
        -- rewrite lookup_insert_ne in Ha0 by exact Hne.
           eapply Hfield; eassumption.
    + rewrite Htab in Hp. discriminate.
  - apply NoDup_keys_insert. exact Hnd.
  - rewrite (length_insert_present _ _ a) by assumption. exact Hnum.
  - unfold engine_running in *.
    rewrite engine_running_from_app, engine_running_from_on_association.
    exact Heng.
Qed.

Lemma registered_identifiers_distinct (pr : process) by_id ids :
  associations_by_id pr = Some by_id ->
  ids_by_association pr = Some ids ->
  registry_ok pr ->
  NoDup (map (fun kv => association_id (snd kv)) (objects pr))
  /\ incl (map (fun kv => association_id (snd kv)) (objects pr))
       (map Z.of_nat (seq 0 (Z.to_nat 65536))).
Proof.
  intros Hb Hi (Htab & Hnd & _). rewrite Hb, Hi in Htab.
  destruct Htab as (Hinv & Hlive & Hfield).
  assert (Hreg : forall q a,
             In (q, a) (objects pr) ->
             g_hash_table_lookup ids q = Some (association_id a)
             /\ 0 <= association_id a <= 65535).
  { intros q a Hin.
    assert (Hl := lookup_in _ _ _ Hnd Hin).
    destruct (proj2 (Hlive q) (ex_intro _ a Hl)) as (id & Hq).
    destruct (Hfield _ _ _ Hq Hl) as (Heq & _ & Hrange).
    rewrite Heq. auto. }
  split.
  - revert Hnd Hreg. generalize (objects pr) as objs.
    induction objs as [|[q a] objs IH]; simpl; intros Hnd Hreg;
      [constructor|].
    inversion Hnd as [|? ? Hnin Hnd']; subst. constructor.
    + intros Hin. apply in_map_iff in Hin as ([q' a'] & Heq & Hin').
      simpl in Heq.
      destruct (Hreg q a (or_introl eq_refl)) as (H1 & _).
      destruct (Hreg q' a' (or_intror Hin')) as (H2 & _).
      rewrite Heq in H2.
      apply Hinv in H1, H2. rewrite H1 in H2. inversion H2; subst.
      apply Hnin. apply in_map_iff. exists (q', a'). auto.
    + apply IH; [exact Hnd'|]. intros q' a' Hin'. apply Hreg. auto.
  - intros id Hin. apply in_map_iff in Hin as ([q a] & Heq & Hin').
    simpl in Heq. subst id.
    destruct (Hreg q a Hin') as (_ & Hrange).
    apply in_map_iff. exists (Z.to_nat (association_id a)).
    split; [lia|]. apply in_seq. lia.
Qed.

Lemma registry_bound (pr : process) :
  registry_ok pr -> Z.of_nat (List.length (objects pr)) <= 65536.
Proof.
  intros Hok.
  destruct (associations_by_id pr) as [by_id|] eqn:Hb,
    (ids_by_association pr) as [ids|] eqn:Hi.
  - destruct (registered_identifiers_distinct pr by_id ids Hb Hi Hok)
      as (Hnd & Hincl).
    apply NoDup_incl_length in Hincl; [|exact Hnd].
    rewrite !length_map, length_seq in Hincl. lia.
  - destruct Hok as (Htab & _). rewrite Hb, Hi in Htab. contradiction.
  - destruct Hok as (Htab & _). rewrite Hb, Hi in Htab. contradiction.
  - destruct Hok as (Htab & _). rewrite Hb, Hi in Htab. rewrite Htab.
    simpl. lia.
Qed.

Lemma with_tables_ok (pr : process) : registry_ok pr -> registry_ok (with_tables pr).
Proof.
  intros (Htab & Hrest). split; [|exact Hrest]. simpl.
  destruct (associations_by_id pr) as [by_id|],
    (ids_by_association pr) as [ids|]; try contradiction.
  - exact Htab.
  - rewrite Htab. simpl. repeat split; try discriminate;
      intros (? & ?); discriminate.
Qed.

Lemma registered_is_not_null (pr : process) by_id ids id q :
  associations_by_id pr = Some by_id ->
  ids_by_association pr = Some ids ->
  registry_ok pr ->
  g_hash_table_lookup by_id id = Some q ->
  q <> 0 /\ g_hash_table_lookup ids q = Some id
  /\ exists a, g_hash_table_lookup (objects pr) q = Some a
               /\ association_id a = id.
Proof.
  intros Hb Hi (Htab & _) Hq. rewrite Hb, Hi in Htab.
  destruct Htab as (Hinv & Hlive & Hfield).
  apply Hinv in Hq.
  destruct (proj1 (Hlive q) (ex_intro _ id Hq)) as (a & Ha).
  destruct (Hfield _ _ _ Hq Ha) as (Heq & Hne & _).
  repeat split; eauto.
Qed.

Lemma get_existing (pr : process) id p q :
  registry_ok pr ->
  0 <= id <= 65535 ->
  registered_association pr id = Some q ->
  gst_sctp_association_get id p pr
  = Some (q,
          mkProcess (associations_by_id pr) (ids_by_association pr)
            (number_of_associations pr) (objects pr)
            (events pr ++ [G_object_ref q])).
Proof.
  intros Hok Hid Hq. unfold registered_association in Hq.
  destruct (associations_by_id pr) as [by_id|] eqn:Hb; [|discriminate].
  destruct (ids_by_association pr) as [ids|] eqn:Hi;
    [|destruct Hok as (Htab & _); rewrite Hb, Hi in Htab; contradiction].
  destruct (registered_is_not_null pr by_id ids id q Hb Hi Hok Hq)
    as (Hne & _).
  unfold gst_sctp_association_get. rewrite Hb, Hi.
  rewrite wrap32_small by exact Hid. rewrite Hq.
  destruct (Z.eqb_spec q 0); [contradiction|]. reflexivity.
Qed.

Lemma wrap32_small_count n : 0 <= n <= 65536 -> wrap32 (n + 1) = n + 1.
Proof. intros Hn. unfold wrap32. apply Z.mod_small. lia. Qed.

Lemma remove_remove {V} (t : table V) k :
  g_hash_table_remove (g_hash_table_remove t k) k = g_hash_table_remove t k.
Proof.
  induction t as [|[k0 v0] t IH]; [reflexivity|]. simpl.
  destruct (Z.eqb_spec k0 k) as [->|Hne]; [exact IH|].
  simpl. destruct (Z.eqb_spec k0 k); [contradiction|]. now rewrite IH.
Qed.

Lemma insert_insert {V} (t : table V) k v v' :
  g_hash_table_insert (g_hash_table_insert t k v) k v'
  = g_hash_table_insert t k v'.
Proof.
  unfold g_hash_table_insert. simpl. rewrite Z.eqb_refl.
  now rewrite remove_remove.
Qed.

Lemma identifier_set_on_init id :
  0 <= id <= 65535 ->
  gst_sctp_association_set_property PROP_ASSOCIATION_ID (G_value_uint id)
    (mkWorld gst_sctp_association_init [])
  = Some (tt, mkWorld (new_association id) []).
Proof.
  intros Hid. unfold gst_sctp_association_set_property, new_association.
  unfold bind, get_self, modify, ret, when. simpl.
  rewrite wrap32_small by exact Hid. reflexivity.
Qed.

Lemma get_new (pr : process) id p :
  registry_ok pr ->
  0 <= id <= 65535 ->
  registered_association pr id = None ->
  p <> 0 ->
  g_hash_table_lookup (objects pr) p = None ->
  gst_sctp_association_get id p pr
  = Some (p,
          mkProcess
            (Some (g_hash_table_insert
                     match associations_by_id pr with
                     | Some t => t
                     | None => []
                     end id p))
            (Some (g_hash_table_insert
                     match ids_by_association pr with
                     | Some t => t
                     | None => []
                     end p id))
            (number_of_associations pr + 1)
            (g_hash_table_insert (objects pr) p (new_association id))
            (events pr
             ++ (if number_of_associations pr =? 0
                 then [Usrsctp_init; Usrsctp_sysctl_set_sctp_ecn_enable 0;
                       Usrsctp_sysctl_set_sctp_nr_outgoing_streams_default
                         65535]
                 else [])
             ++ [Usrsctp_register_address p])).
Proof.
  intros Hok Hid Hq Hp Hfree.
  assert (Hbound := registry_bound pr Hok).
  destruct Hok as (Htab & Hnd & Hnum & Heng).
  unfold registered_association in Hq.
  unfold gst_sctp_association_get.
  rewrite wrap32_small by exact Hid.
  assert (Hfound :
            match g_hash_table_lookup
                    match associations_by_id pr with
                    | Some t => t
                    | None => []
                    end id with
            | Some q => if q =? 0 then None else Some q
            | None => None
            end = None).
  { destruct (associations_by_id pr); [rewrite Hq|]; reflexivity. }
  rewrite Hfound. cbv zeta. cbv beta iota.
  unfold g_object_new. fields.
  destruct (Z.eqb_spec p 0); [contradiction|]. rewrite Hfree.
  cbn [orb not_null]. cbv zeta.
  replace (id <=? 65535) with true by (symmetry; apply Z.leb_le; lia).
  unfold on_object, gst_sctp_association_init_instance. fields.
  rewrite lookup_insert_eq.
  rewrite (identifier_set_on_init id Hid).
  cbn [self trace map]. fields.
  rewrite insert_insert, app_nil_r.
  rewrite (wrap32_small_count (number_of_associations pr))
    by (rewrite Hnum; lia).
  destruct (associations_by_id pr) as [by_id|],
    (ids_by_association pr) as [ids|]; try contradiction; reflexivity.
Qed.

Lemma get_keeps_registry (pr : process) id p q pr' :
  registry_ok pr ->
  0 <= id <= 65535 ->
  gst_sctp_association_get id p pr = Some (q, pr') ->
  registry_ok pr'.
Proof.
  intros Hok Hid H.
  destruct (registered_association pr id) as [q0|] eqn:Hq.
  - rewrite (get_existing pr id p q0 Hok Hid Hq) in H.
    inversion H; subst. clear H.
    destruct Hok as (Htab & Hnd & Hnum & Heng).
    split; [exact Htab|]. split; [exact Hnd|]. split; [exact Hnum|].
    simpl. unfold engine_running in *.
    rewrite engine_running_from_app. exact Heng.
  - assert (Hp : p <> 0 /\ g_hash_table_lookup (objects pr) p = None).
    { unfold gst_sctp_association_get, g_object_new in H.
      rewrite wrap32_small in H by exact Hid.
      unfold registered_association in Hq.
      assert (Hfound :
                match g_hash_table_lookup
                        match associations_by_id pr with
                        | Some t => t
                        | None => []
                        end id with
                | Some q => if q =? 0 then None else Some q
                | None => None
                end = None)
        by (destruct (associations_by_id pr); [rewrite Hq|]; reflexivity).
      rewrite Hfound in H. simpl objects in H.
      destruct (Z.eqb_spec p 0); [discriminate|].
      destruct (g_hash_table_lookup (objects pr) p); [discriminate|].
      auto. }
    destruct Hp as (Hp & Hfree).
    rewrite (get_new pr id p Hok Hid Hq Hp Hfree) in H.
    injection H as Hpq Hpr. subst q pr'.
    assert (Hbound := registry_bound pr Hok).
    assert (Htab0 := proj1 Hok).
    apply with_tables_ok in Hok. unfold with_tables in Hok.
    destruct Hok as (Htab & Hnd & Hnum & Heng). fields.
    unfold registered_association in Hq.
    assert (Hq' : g_hash_table_lookup
                    match associations_by_id pr with
                    | Some t => t
                    | None => []
                    end id = None)
      by (destruct (associations_by_id pr); [exact Hq|reflexivity]).
    clear Hq.
    assert (Hids : match associations_by_id pr with
                   | Some _ => ids_by_association pr
                   | None => Some []
                   end
                   = Some match ids_by_association pr with
                          | Some t => t
                          | None => []
                          end).
    { destruct (associations_by_id pr), (ids_by_association pr);
        try contradiction; reflexivity. }
    set (by_id := match associations_by_id pr with
                  | Some t => t
                  | None => []
                  end) in *.
    rewrite Hids in Htab.
    set (ids := match ids_by_association pr with
                | Some t => t
                | None => []
                end) in *.
    destruct Htab as (Hinv & Hlive & Hfield).
    assert (Hpfree : g_hash_table_lookup ids p = None).
    { destruct (g_hash_table_lookup ids p) as [id0|] eqn:E; [|reflexivity].
      destruct (proj1 (Hlive p) (ex_intro _ id0 E)) as (a & Ha).
      rewrite Hfree in Ha. discriminate. }
    unfold registry_ok. fields.
    split; [|split; [|split]].
    + split; [|split].
      * intros id' p'.
        destruct (Z.eq_dec id id') as [<-|Hne],
          (Z.eq_dec p p') as [<-|Hnp].
        -- rewrite !lookup_insert_eq. tauto.
        -- rewrite lookup_insert_eq, lookup_insert_ne by exact Hnp.
           split; [intros Heq; inversion Heq; contradiction|].
           intros Hc. apply Hinv in Hc. rewrite Hq' in Hc. discriminate.
        -- rewrite lookup_insert_ne by exact Hne. rewrite lookup_insert_eq.
           split; [|intros Heq; inversion Heq; contradiction].
           intros Hc. apply Hinv in Hc. rewrite Hpfree in Hc. discriminate.
        -- rewrite !lookup_insert_ne by assumption. apply Hinv.
      * intros p'. destruct (Z.eq_dec p p') as [<-|Hnp].
        -- rewrite !lookup_insert_eq. split; intros _; eauto.
        -- rewrite !lookup_insert_ne by exact Hnp. apply Hlive.
      * intros p' id' a Hreg Hobj.
        destruct (Z.eq_dec p p') as [<-|Hnp].
        -- rewrite lookup_insert_eq in Hreg. rewrite lookup_insert_eq in Hobj.
           inversion Hreg; inversion Hobj; subst. simpl. auto.
        -- rewrite lookup_insert_ne in Hreg by exact Hnp.
           rewrite lookup_insert_ne in Hobj by exact Hnp.
           eapply Hfield; eassumption.
    + apply NoDup_keys_insert. exact Hnd.
    + rewrite length_insert_absent by exact Hfree. rewrite Hnum. lia.
    + unfold engine_running in *. rewrite !engine_running_from_app.
      rewrite Heng.
      destruct (Z.eqb_spec (number_of_associations pr) 0) as [Hz|Hz];
        simpl.
      * rewrite Hz. reflexivity.
      * destruct (Z.eqb_spec (number_of_associations pr + 1) 0);
          [lia|reflexivity].
Qed.

Lemma release_result (pr : process) p a id :
  registry_ok pr ->
  g_hash_table_lookup (objects pr) p = Some a ->
  registered_id pr p = Some id ->
  process_step (Release p) pr
  = Some
      (mkProcess
         (match associations_by_id pr with
          | Some t => Some (g_hash_table_remove t id)
          | None => None
          end)
         (match ids_by_association pr with
          | Some t => Some (g_hash_table_remove t p)
          | None => None
          end)
         (number_of_associations pr - 1)
         (g_hash_table_remove (objects pr) p)
         (events pr
          ++ [Usrsctp_deregister_address p]
          ++ (if number_of_associations pr - 1 =? 0
              then [Usrsctp_finish] else [])
          ++ match connection_thread a with
             | Some t => [On_association p (G_thread_join t)]
             | None => []
             end)).
Proof.
  intros Hok Ha Hreg.
  assert (Hbound := registry_bound pr Hok).
  destruct Hok as (Htab & Hnd & Hnum & Heng).
  unfold registered_id in Hreg.
  destruct (ids_by_association pr) as [ids|] eqn:Hi; [|discriminate].
  destruct (associations_by_id pr) as [by_id|] eqn:Hb; [|contradiction].
  destruct Htab as (Hinv & Hlive & Hfield).
  destruct (Hfield _ _ _ Hreg Ha) as (Hida & _).
  assert (Hlen := length_remove_present _ _ _ Hnd Ha).
  assert (Hw : wrap32 (number_of_associations pr - 1)
               = number_of_associations pr - 1).
  { unfold wrap32. apply Z.mod_small. rewrite Hnum. lia. }
  simpl. unfold gst_sctp_association_dispose. rewrite Ha, Hb, Hi, Hw, Hida.
  reflexivity.
Qed.

Lemma release_keeps_registry (pr pr' : process) p :
  registry_ok pr ->
  process_step (Release p) pr = Some pr' ->
  registry_ok pr'.
Proof.
  intros Hok H.
  destruct (g_hash_table_lookup (objects pr) p) as [a|] eqn:Ha.
  2: { simpl in H. unfold gst_sctp_association_dispose in H.
       rewrite Ha in H. discriminate. }
  assert (Hbound := registry_bound pr Hok).
  assert (Hok' := Hok).
  destruct Hok' as (Htab & Hnd & Hnum & Heng).
  destruct (associations_by_id pr) as [by_id|] eqn:Hb,
    (ids_by_association pr) as [ids|] eqn:Hi; try contradiction.
  2: { rewrite Htab in Ha. discriminate. }
  destruct Htab as (Hinv & Hlive & Hfield).
  destruct (proj2 (Hlive p) (ex_intro _ a Ha)) as (id & Hreg).
  assert (Hreg' : registered_id pr p = Some id)
    by (unfold registered_id; rewrite Hi; exact Hreg).
  rewrite (release_result pr p a id Hok Ha Hreg') in H.
  inversion H; subst. clear H. rewrite Hb, Hi.
  assert (Hlen := length_remove_present _ _ _ Hnd Ha).
  assert (Hby : g_hash_table_lookup by_id id = Some p)
    by (apply Hinv; exact Hreg).
  split; [|split; [|split]]; simpl.
  - split; [|split].
    + intros id' p'. split; intros Hc.
      * destruct (Z.eq_dec id id') as [<-|Hne];
          [rewrite lookup_remove_eq in Hc; discriminate|].
        rewrite lookup_remove_ne in Hc by exact Hne.
        apply Hinv in Hc.
        rewrite lookup_remove_ne; [exact Hc|].
        intros <-. rewrite Hreg in Hc. inversion Hc. contradiction.
      * destruct (Z.eq_dec p p') as [<-|Hnp];
          [rewrite lookup_remove_eq in Hc; discriminate|].
        rewrite lookup_remove_ne in Hc by exact Hnp.
        apply Hinv in Hc.
        rewrite lookup_remove_ne; [exact Hc|].
        intros <-. rewrite Hby in Hc. inversion Hc. contradiction.
    + intros p'. destruct (Z.eq_dec p p') as [<-|Hnp].
      * rewrite !lookup_remove_eq. split; intros (? & ?); discriminate.
      * rewrite !lookup_remove_ne by exact Hnp. apply Hlive.
    + intros p' id' a' Hr Ho. destruct (Z.eq_dec p p') as [<-|Hnp].
      * rewrite lookup_remove_eq in Hr. discriminate.
      * rewrite lookup_remove_ne in Hr by exact Hnp.
        rewrite lookup_remove_ne in Ho by exact Hnp.
        eapply Hfield; eassumption.
  - apply NoDup_keys_remove. exact Hnd.
  - rewrite Hnum. lia.
  - unfold engine_running in *. rewrite !engine_running_from_app.
    rewrite Heng. simpl.
    destruct (Z.eqb_spec (number_of_associations pr - 1) 0) as [Hz|Hz];
      simpl.
    + destruct (connection_thread a); reflexivity.
    + destruct (Z.eqb_spec (number_of_associations pr) 0) as [Hz'|Hz'];
        [rewrite Hnum in Hz'; lia|].
      destruct (connection_thread a); reflexivity.
Qed.

Lemma process_step_keeps_registry (o : process_operation)
    (pr pr' : process) :
  keeps_identifier o = true ->
  registry_ok pr ->
  process_step o pr = Some pr' ->
  registry_ok pr'.
Proof.
  intros Ho Hok H.
  destruct o as [id p|p|p op|p buffer len|p d r1 r2].
  - simpl in Ho. apply andb_true_iff in Ho as [Hlo Hhi].
    apply Z.leb_le in Hlo, Hhi. simpl in H.
    destruct (gst_sctp_association_get id p pr) as [[q pr1]|] eqn:E;
      [|discriminate].
    inversion H; subst. eapply get_keeps_registry; [exact Hok| |exact E].
    lia.
  - eapply release_keeps_registry; eassumption.
  - simpl in H.
    destruct (on_object p (step op) pr) as [[u pr1]|] eqn:E; [|discriminate].
    inversion H; subst.
    eapply (on_object_keeps_registry p (step op)); [|exact Hok|exact E].
    apply identifier_kept_by_step.
    destruct op as [id v| | | | | | | | | | | |]; try reflexivity.
    destruct id; try reflexivity. discriminate.
  - simpl in H. unfold sctp_packet_out_at in H.
    destruct (association_is_valid p pr); [|inversion H; subst; exact Hok].
    destruct (on_object p (sctp_packet_out true buffer len) pr)
      as [[u pr1]|] eqn:E; [|discriminate].
    inversion H; subst.
    eapply (on_object_keeps_registry p); [|exact Hok|exact E].
    intros w x w' Hm.
    apply (identifier_kept_by_step (Packet_out true buffer len) eq_refl
             w tt w').
    simpl. unfold bind. rewrite Hm. reflexivity.
  - simpl in H. unfold receive_cb_at in H.
    destruct (association_is_valid p pr); [|inversion H; subst; exact Hok].
    destruct (on_object p (receive_cb true d r1 r2) pr)
      as [[u pr1]|] eqn:E; [|discriminate].
    inversion H; subst.
    eapply (on_object_keeps_registry p); [|exact Hok|exact E].
    intros w x w' Hm.
    apply (identifier_kept_by_step (Receive true d r1 r2) eq_refl w tt w').
    simpl. unfold bind. rewrite Hm. reflexivity.
Qed.

Lemma process_run_keeps_registry (os : list process_operation)
    (pr pr' : process) :
  forallb keeps_identifier os = true ->
  registry_ok pr ->
  process_run os pr = Some pr' ->
  registry_ok pr'.
Proof.
  revert pr. induction os as [|o os IH]; intros pr Hos Hok H.
  - inversion H; subst. exact Hok.
  - simpl in Hos. apply andb_true_iff in Hos as [Ho Hos]. simpl in H.
    destruct (process_step o pr) as [pr1|] eqn:E; [|discriminate].
    eapply IH; [exact Hos| |exact H].
    eapply process_step_keeps_registry; eassumption.
Qed.

Lemma process_start_ok : registry_ok process_start.
Proof. repeat split. constructor. Qed.

Lemma get_fresh (pr : process) id p q pr' :
  0 <= id <= 65535 ->
  registered_association pr id = None ->
  gst_sctp_association_get id p pr = Some (q, pr') ->
  q = p /\ p <> 0 /\ g_hash_table_lookup (objects pr) p = None.
Proof.
  intros Hid Hq H.
  unfold gst_sctp_association_get, g_object_new in H.
  rewrite wrap32_small in H by exact Hid.
  unfold registered_association in Hq.
  assert (Hfound :
            match g_hash_table_lookup
                    match associations_by_id pr with
                    | Some t => t
                    | None => []
                    end id with
            | Some q => if q =? 0 then None else Some q
            | None => None
            end = None)
    by (destruct (associations_by_id pr); [rewrite Hq|]; reflexivity).
  rewrite Hfound in H. simpl objects in H.
  destruct (Z.eqb_spec p 0); [discriminate|].
  destruct (g_hash_table_lookup (objects pr) p); [discriminate|].
  cbn [orb not_null] in H. cbv zeta in H.
  match type of H with
  | match ?x with _ => _ end = _ => destruct x; [|discriminate]
  end.
  injection H as Hpq _. auto.
Qed.

Lemma get_registers (pr : process) id p q pr' :
  registry_ok pr ->
  0 <= id <= 65535 ->
  gst_sctp_association_get id p pr = Some (q, pr') ->
  registered_association pr' id = Some q.
Proof.
  intros Hok Hid H.
  destruct (registered_association pr id) as [q0|] eqn:Hq.
  - rewrite (get_existing pr id p q0 Hok Hid Hq) in H.
    injection H as Hq0 Hpr. subst q0 pr'. exact Hq.
  - destruct (get_fresh pr id p q pr' Hid Hq H) as (-> & Hp & Hfree).
    rewrite (get_new pr id p Hok Hid Hq Hp Hfree) in H.
    injection H as Hpr. subst pr'.
    unfold registered_association. fields. apply lookup_insert_eq.
Qed.

Lemma registry_tables_inverse (pr : process) id p :
  registry_ok pr ->
  registered_association pr id = Some p <-> registered_id pr p = Some id.
Proof.
  intros (Htab & _). unfold registered_association, registered_id.
  destruct (associations_by_id pr) as [by_id|],
    (ids_by_association pr) as [ids|]; try contradiction.
  - apply Htab.
  - split; discriminate.
Qed.

Lemma registered_is_alive (pr : process) p :
  registry_ok pr ->
  (exists id, registered_id pr p = Some id)
  <-> (exists a, g_hash_table_lookup (objects pr) p = Some a).
Proof.
  intros (Htab & _). unfold registered_id.
  destruct (associations_by_id pr) as [by_id|],
    (ids_by_association pr) as [ids|]; try contradiction.
  - apply Htab.
  - rewrite Htab. split; intros (? & ?); discriminate.
Qed.

Lemma registered_under_field (pr : process) p id a :
  registry_ok pr ->
  registered_id pr p = Some id ->
  g_hash_table_lookup (objects pr) p = Some a ->
  association_id a = id /\ p <> 0 /\ 0 <= id <= 65535.
Proof.
  intros (Htab & _). unfold registered_id.
  destruct (associations_by_id pr) as [by_id|],
    (ids_by_association pr) as [ids|]; try contradiction;
    try discriminate.
  apply Htab.
Qed.

Lemma valid_is_registered (pr : process) p :
  association_is_valid p pr = true <-> exists id, registered_id pr p = Some id.
Proof.
  unfold association_is_valid, registered_id, g_hash_table_contains.
  destruct (ids_by_association pr) as [ids|].
  - destruct (g_hash_table_lookup ids p); simpl; split; eauto;
      try discriminate. intros (? & ?); discriminate.
  - split; [discriminate|]. intros (? & ?); discriminate.
Qed.

Lemma release_unregisters (pr pr' : process) p :
  process_step (Release p) pr = Some pr' ->
  association_is_valid p pr' = false
  /\ g_hash_table_lookup (objects pr') p = None.
Proof.
  intros H. simpl in H. unfold gst_sctp_association_dispose in H.
  destruct (g_hash_table_lookup (objects pr) p) as [a|]; [|discriminate].
  injection H as Hpr. subst pr'.
  unfold association_is_valid, gst_sctp_association_finalize,
    g_hash_table_contains.
  fields. split; [|apply lookup_remove_eq].
  destruct (ids_by_association pr); [|reflexivity].
  now rewrite lookup_remove_eq.
Qed.

Lemma identifier_write_result (v : Z) (a : GstSctpAssociation) :
  gst_sctp_association_set_property PROP_ASSOCIATION_ID (G_value_uint v)
    (mkWorld a [])
  = Some (tt, mkWorld (set_association_id (wrap32 v) a) []).
Proof.
  unfold gst_sctp_association_set_property.
  unfold bind, get_self, modify, ret, when. cbn [self is_port_property].
  rewrite andb_false_r. reflexivity.
Qed.

(** X16.  [gst_sctp_association_get] answers with the one association of
    the identifier: the association it returns is not null, is alive and
    carries the identifier in its field, and every later call with the
    same identifier returns the same association, takes a reference on it
    and makes no other instance. *)
Theorem get_returns_the_association_of_the_identifier (pr : process)
    (id p p2 q : Z) (pr' : process) :
  registry_ok pr ->
  0 <= id <= 65535 ->
  gst_sctp_association_get id p pr = Some (q, pr') ->
  q <> 0
  /\ (exists a,
        g_hash_table_lookup (objects pr') q = Some a /\ association_id a = id)
  /\ gst_sctp_association_get id p2 pr'
     = Some (q,
             mkProcess (associations_by_id pr') (ids_by_association pr')
               (number_of_associations pr') (objects pr')
               (events pr' ++ [G_object_ref q])).
Proof.
  intros Hok Hid H.
  assert (Hok' := get_keeps_registry pr id p q pr' Hok Hid H).
  assert (Hreg := get_registers pr id p q pr' Hok Hid H).
  split; [|split].
  - assert (Hr := proj1 (registry_tables_inverse pr' id q Hok') Hreg).
    destruct (proj1 (registered_is_alive pr' q Hok') (ex_intro _ id Hr))
      as (a & Ha).
    apply (registered_under_field pr' q id a Hok' Hr Ha).
  - assert (Hr := proj1 (registry_tables_inverse pr' id q Hok') Hreg).
    destruct (proj1 (registered_is_alive pr' q Hok') (ex_intro _ id Hr))
      as (a & Ha).
    exists a. split; [exact Ha|].
    apply (registered_under_field pr' q id a Hok' Hr Ha).
  - apply get_existing; assumption.
Qed.

(** X17.  The two tables stay inverse to one another and describe the
    instances alive.  After any sequence of lookups with identifiers of
    the property's range, releases, calls other than a write of the
    association-id property, and callbacks of the engine, from the start of
    the process: an identifier leads to an association exactly when the
    association leads to the identifier; the associations registered are
    the instances alive; and each is registered under the identifier in
    its field. *)
Theorem tables_stay_inverse (os : list process_operation)
    (pr' : process) :
  forallb keeps_identifier os = true ->
  process_run os process_start = Some pr' ->
  (forall id p,
     registered_association pr' id = Some p <-> registered_id pr' p = Some id)
  /\ (forall p,
        (exists id, registered_id pr' p = Some id)
        <-> (exists a, g_hash_table_lookup (objects pr') p = Some a))
  /\ (forall p id a,
        registered_id pr' p = Some id ->
        g_hash_table_lookup (objects pr') p = Some a ->
        association_id a = id).
Proof.
  intros Hos H.
  assert (Hok : registry_ok pr')
    by (eapply process_run_keeps_registry;
        [exact Hos|exact process_start_ok|exact H]).
  split; [|split].
  - intros id p. apply registry_tables_inverse. exact Hok.
  - intros p. apply registered_is_alive. exact Hok.
  - intros p id a Hr Ha.
    apply (registered_under_field pr' p id a Hok Hr Ha).
Qed.

(** X18.  The engine is set up while associations exist.  After any such
    sequence from the start of the process, the counter is the number of
    instances alive, and by the calls made so far the engine is set up
    ([usrsctp_init] not followed by [usrsctp_finish]) exactly when there is
    an instance alive. *)
Theorem engine_set_up_while_associations_exist
    (os : list process_operation) (pr' : process) :
  forallb keeps_identifier os = true ->
  process_run os process_start = Some pr' ->
  number_of_associations pr' = Z.of_nat (List.length (objects pr'))
  /\ (engine_running (events pr') = true <-> objects pr' <> []).
Proof.
  intros Hos H.
  assert (Hok : registry_ok pr')
    by (eapply process_run_keeps_registry;
        [exact Hos|exact process_start_ok|exact H]).
  destruct Hok as (_ & _ & Hnum & Heng).
  split; [exact Hnum|]. rewrite Heng, Hnum.
  destruct (objects pr') as [|kv objs]; simpl.
  - split; [discriminate|]. intros Hc. now contradiction Hc.
  - split; [discriminate|]. intros _.
    destruct (Z.eqb_spec (Z.pos (Pos.of_succ_nat (List.length objs))) 0);
      [lia|reflexivity].
Qed.

(** X19.  [association_is_valid] answers yes exactly for the instances
    alive, after any such sequence from the start of the process: so a
    callback of the engine reads the fields of an instance only while the
    instance exists. *)
Theorem valid_exactly_while_alive (os : list process_operation)
    (pr' : process) (p : Z) :
  forallb keeps_identifier os = true ->
  process_run os process_start = Some pr' ->
  association_is_valid p pr' = true
  <-> exists a, g_hash_table_lookup (objects pr') p = Some a.
Proof.
  intros Hos H.
  assert (Hok : registry_ok pr')
    by (eapply process_run_keeps_registry;
        [exact Hos|exact process_start_ok|exact H]).
  rewrite valid_is_registered. apply registered_is_alive. exact Hok.
Qed.

(** X20.  After the release of an association the callbacks of the engine
    for its address are dropped: the outbound one returns 0 and the
    inbound one returns 1, and neither does anything, whatever the state of
    the registry before. *)
Theorem callbacks_dropped_after_release (pr pr' : process) (p : Z)
    (buffer : bytes) (length : Z) (d : delivery) (r1 r2 : Z) :
  process_step (Release p) pr = Some pr' ->
  association_is_valid p pr' = false
  /\ sctp_packet_out_at p buffer length pr' = Some (0, pr')
  /\ receive_cb_at p d r1 r2 pr' = Some (1, pr').
Proof.
  intros H. destruct (release_unregisters pr pr' p H) as (Hv & _).
  unfold sctp_packet_out_at, receive_cb_at. rewrite Hv. auto.
Qed.

(** X21.  The associations alive have identifiers that differ from one
    another, so there are 65536 of them at most and the counter does not
    wrap, after any such sequence from the start of the process. *)
Theorem identifiers_of_live_associations_differ
    (os : list process_operation) (pr' : process) :
  forallb keeps_identifier os = true ->
  process_run os process_start = Some pr' ->
  NoDup (map (fun kv => association_id (snd kv)) (objects pr'))
  /\ 0 <= number_of_associations pr' <= 65536.
Proof.
  intros Hos H.
  assert (Hok : registry_ok pr')
    by (eapply process_run_keeps_registry;
        [exact Hos|exact process_start_ok|exact H]).
  assert (Hbound := registry_bound pr' Hok).
  split.
  - destruct (associations_by_id pr') as [by_id|] eqn:Hb,
      (ids_by_association pr') as [ids|] eqn:Hi.
    + destruct (registered_identifiers_distinct pr' by_id ids Hb Hi Hok)
        as (Hd & _).
      exact Hd.
    + destruct Hok as (Htab & _). rewrite Hb, Hi in Htab. contradiction.
    + destruct Hok as (Htab & _). rewrite Hb, Hi in Htab. contradiction.
    + destruct Hok as (Htab & _). rewrite Hb, Hi in Htab. rewrite Htab.
      constructor.
  - destruct Hok as (_ & _ & Hnum & _). rewrite Hnum. lia.
Qed.

(** X22.  The tables are keyed by the identifier at creation, and
    [dispose] removes by the identifier in the field.  So when the
    association-id property of an association registered under [id] is
    written with another value [v] and the association is then released,
    which both succeed, the entry of [id] stays in [associations_by_id]
    though the instance is gone, and the next lookup of [id] returns the
    address of the freed instance and takes a reference on it. *)
Theorem rewritten_identifier_leaves_entry_behind (pr : process)
    (p id v p2 : Z) (a : GstSctpAssociation) :
  registry_ok pr ->
  g_hash_table_lookup (objects pr) p = Some a ->
  registered_id pr p = Some id ->
  0 <= v <= 65535 ->
  v <> id ->
  exists pr',
    process_run
      [Call p (Set_property PROP_ASSOCIATION_ID (G_value_uint v)); Release p]
      pr
    = Some pr'
    /\ registered_association pr' id = Some p
    /\ g_hash_table_lookup (objects pr') p = None
    /\ gst_sctp_association_get id p2 pr'
       = Some (p,
               mkProcess (associations_by_id pr') (ids_by_association pr')
                 (number_of_associations pr') (objects pr')
                 (events pr' ++ [G_object_ref p])).
Proof.
  intros Hok Ha Hreg Hv Hne.
  destruct (registered_under_field pr p id a Hok Hreg Ha)
    as (Hfield & Hp & Hid).
  assert (Hby := proj2 (registry_tables_inverse pr id p Hok) Hreg).
  unfold registered_association in Hby. unfold registered_id in Hreg.
  destruct (associations_by_id pr) as [by_id|] eqn:Hb; [|discriminate].
  destruct (ids_by_association pr) as [ids|] eqn:Hi; [|discriminate].
  cbn [process_run process_step step]. unfold on_object.
  rewrite Ha, identifier_write_result.
  unfold gst_sctp_association_dispose. fields. cbn [self trace map].
  rewrite lookup_insert_eq, Hb, Hi.
  rewrite wrap32_small by lia.
  eexists. split; [reflexivity|].
  unfold registered_association, gst_sctp_association_finalize,
    gst_sctp_association_get. fields.
  change (association_id (set_association_id v a)) with v.
  assert (Hstays : g_hash_table_lookup (g_hash_table_remove by_id v) id
                   = Some p)
    by (rewrite lookup_remove_ne by exact Hne; exact Hby).
  split; [exact Hstays|]. split; [apply lookup_remove_eq|].
  rewrite wrap32_small by exact Hid. rewrite Hstays.
  destruct (Z.eqb_spec p 0); [contradiction|]. reflexivity.
Qed.

(** X23.  Creation and release undo one another in the registry: when
    [gst_sctp_association_get] makes a new association for an identifier
    and the association is released next, the instances alive and the
    counter are as before, the identifier and the address are registered no
    more, and the engine is set up exactly if it was before. *)
Theorem release_undoes_creation (pr : process) (id p : Z) :
  registry_ok pr ->
  0 <= id <= 65535 ->
  registered_association pr id = None ->
  p <> 0 ->
  g_hash_table_lookup (objects pr) p = None ->
  exists pr',
    process_run [Get id p; Release p] pr = Some pr'
    /\ objects pr' = objects pr
    /\ number_of_associations pr' = number_of_associations pr
    /\ registered_association pr' id = None
    /\ registered_id pr' p = None
    /\ engine_running (events pr') = engine_running (events pr).
Proof.
  intros Hok Hid Hq Hp Hfree.
  assert (Hget := get_new pr id p Hok Hid Hq Hp Hfree).
  assert (Hok1 : registry_ok
                   (snd (p, match gst_sctp_association_get id p pr with
                            | Some (_, pr1) => pr1
                            | None => pr
                            end))).
  { rewrite Hget. cbn [snd].
    eapply get_keeps_registry; [exact Hok|exact Hid|exact Hget]. }
  rewrite Hget in Hok1. cbn [snd] in Hok1.
  cbn [process_run process_step]. rewrite Hget.
  match goal with
  | |- context [gst_sctp_association_dispose p ?pr1] =>
      assert (Hrel := release_result pr1 p (new_association id) id Hok1)
  end.
  fields. rewrite lookup_insert_eq in Hrel.
  specialize (Hrel eq_refl).
  unfold registered_id in Hrel. fields. rewrite lookup_insert_eq in Hrel.
  specialize (Hrel eq_refl).
  cbn [process_step] in Hrel. rewrite Hrel.
  eexists. split; [reflexivity|].
  assert (Hok2 := Hok). destruct Hok2 as (Htab & Hnd & Hnum & Heng).
  unfold registered_association, registered_id. fields.
  split; [|split; [lia|split; [|split]]].
  - unfold g_hash_table_insert. cbn [g_hash_table_remove].
    rewrite Z.eqb_refl, remove_remove. apply remove_absent. exact Hfree.
  - apply lookup_remove_eq.
  - apply lookup_remove_eq.
  - unfold engine_running in *. rewrite !engine_running_from_app.
    cbn [connection_thread new_association set_association_id
         gst_sctp_association_init].
    replace (number_of_associations pr + 1 - 1)
      with (number_of_associations pr) by lia.
    destruct (Z.eqb_spec (number_of_associations pr) 0) as [Hz|Hz];
      rewrite Heng; reflexivity.
Qed.

End Properties.

(** ** Concrete runs *)

(** The example scenario passes through READY, CONNECTING, CONNECTED,
    DISCONNECTING and DISCONNECTED, along the table. *)
Lemma state_moves_along_transitions_witness :
  exists w',
    run (usrsctp := usrsctp_h) example_scenario fresh_world = Some (tt, w')
    /\ notified (trace w')
       = [GST_SCTP_ASSOCIATION_STATE_READY;
          GST_SCTP_ASSOCIATION_STATE_CONNECTING;
          GST_SCTP_ASSOCIATION_STATE_CONNECTED;
          GST_SCTP_ASSOCIATION_STATE_DISCONNECTING;
          GST_SCTP_ASSOCIATION_STATE_DISCONNECTED]
    /\ sctp_ass_sock (self w') = None
    /\ moves_along code_transition fresh_world w'.
Proof.
  eexists. split; [vm_compute; reflexivity|].
  split; [reflexivity|]. split; [reflexivity|].
  apply (state_moves_along_transitions (usrsctp := usrsctp_h)
           example_scenario); vm_compute; reflexivity.
Defined.

(** A write of the [state] property takes a fresh association from NEW
    straight to CONNECTED and a connected one back to NEW, with nothing
    announced; a restart whose socket creation fails takes DISCONNECTED to
    ERROR.  None of the three is an edge of the table. *)
Lemma state_property_write_jumps :
  (exists w',
     step (usrsctp := usrsctp_h)
       (Set_property PROP_STATE
          (G_value_enum GST_SCTP_ASSOCIATION_STATE_CONNECTED)) fresh_world
     = Some (tt, w')
     /\ state (self w') = GST_SCTP_ASSOCIATION_STATE_CONNECTED
     /\ trace w' = []
     /\ spec_transition GST_SCTP_ASSOCIATION_STATE_NEW
          GST_SCTP_ASSOCIATION_STATE_CONNECTED = false
     /\ ~ moves_along spec_transition fresh_world w')
  /\ (exists w',
        step (usrsctp := usrsctp_h)
          (Set_property PROP_STATE
             (G_value_enum GST_SCTP_ASSOCIATION_STATE_NEW))
          (live_world GST_SCTP_ASSOCIATION_STATE_CONNECTED)
        = Some (tt, w')
        /\ state (self w') = GST_SCTP_ASSOCIATION_STATE_NEW
        /\ trace w' = []
        /\ ~ moves_along spec_transition
               (live_world GST_SCTP_ASSOCIATION_STATE_CONNECTED) w')
  /\ (exists w',
        step (usrsctp := usrsctp_h) (Start socket_refused 9)
          (idle_world GST_SCTP_ASSOCIATION_STATE_DISCONNECTED)
        = Some (tt, w')
        /\ state (self w') = GST_SCTP_ASSOCIATION_STATE_ERROR
        /\ spec_transition GST_SCTP_ASSOCIATION_STATE_DISCONNECTED
             GST_SCTP_ASSOCIATION_STATE_ERROR = false
        /\ ~ moves_along spec_transition
               (idle_world GST_SCTP_ASSOCIATION_STATE_DISCONNECTED) w').
Proof.
  split; [|split].
  - eexists. split; [vm_compute; reflexivity|].
    repeat split. intros (t & Ht & _ & Hl). simpl in Ht. subst t.
    discriminate.
  - eexists. split; [vm_compute; reflexivity|].
    repeat split. intros (t & Ht & _ & Hl). simpl in Ht. subst t.
    discriminate.
  - eexists. split; [vm_compute; reflexivity|].
    repeat split. intros (t & Ht & Hp & _). simpl in Ht. subst t.
    discriminate.
Qed.

(** Communication lost while CONNECTED: DISCONNECTING, join of worker 9,
    close of socket 1, DISCONNECTED. *)
Lemma lost_or_shutdown_disconnects_connected_witness :
  lost_or_shutdown comm_lost = true
  /\ state (self (live_world GST_SCTP_ASSOCIATION_STATE_CONNECTED))
     = GST_SCTP_ASSOCIATION_STATE_CONNECTED
  /\ deliver_assoc_change (usrsctp := usrsctp_h) comm_lost 20 0 0
       (live_world GST_SCTP_ASSOCIATION_STATE_CONNECTED)
     = Some (1,
             mkWorld
               (torn_down
                  (live_association GST_SCTP_ASSOCIATION_STATE_CONNECTED))
               [Notify_state GST_SCTP_ASSOCIATION_STATE_DISCONNECTING;
                G_thread_join 9; Usrsctp_close 1;
                Notify_state GST_SCTP_ASSOCIATION_STATE_DISCONNECTED;
                Usrsctp_freedumpbuffer]).
Proof.
  split; [reflexivity|]. split; [reflexivity|].
  apply (proj1 (lost_or_shutdown_disconnects_connected
                  (usrsctp := usrsctp_h) comm_lost 20 0 0
                  (live_world GST_SCTP_ASSOCIATION_STATE_CONNECTED)
                  eq_refl)).
  reflexivity.
Defined.

(** Communication lost while CONNECTING: the association stays in
    CONNECTING, keeps socket 1, [done_connect] and the engine association
    id, and nothing is announced. *)
Lemma comm_lost_while_connecting_changes_nothing :
  exists w',
    deliver_assoc_change (usrsctp := usrsctp_h) comm_lost 20 0 0
      (live_world GST_SCTP_ASSOCIATION_STATE_CONNECTING)
    = Some (1, w')
    /\ self w' = live_association GST_SCTP_ASSOCIATION_STATE_CONNECTING
    /\ state (self w') = GST_SCTP_ASSOCIATION_STATE_CONNECTING
    /\ sctp_ass_sock (self w') = Some 1
    /\ done_connect (self w') = true
    /\ sctp_assoc_id (self w') = 77
    /\ notified (trace w') = [].
Proof.
  eexists. split; [vm_compute; reflexivity|]. repeat split.
Qed.

Lemma start_rejected_outside_ready_and_disconnected_witness :
  state (self (live_world GST_SCTP_ASSOCIATION_STATE_CONNECTED))
  <> GST_SCTP_ASSOCIATION_STATE_READY
  /\ state (self (live_world GST_SCTP_ASSOCIATION_STATE_CONNECTED))
     <> GST_SCTP_ASSOCIATION_STATE_DISCONNECTED
  /\ gst_sctp_association_start socket_created 10
       (live_world GST_SCTP_ASSOCIATION_STATE_CONNECTED)
     = Some (false,
             mkWorld (live_association GST_SCTP_ASSOCIATION_STATE_CONNECTED)
               [G_warning
                  "SCTP association is in wrong state and cannot be started"]).
Proof.
  split; [discriminate|]. split; [discriminate|].
  apply (start_rejected_outside_ready_and_disconnected socket_created 10
           (live_world GST_SCTP_ASSOCIATION_STATE_CONNECTED));
    discriminate.
Defined.

Lemma send_data_fails_unless_connected_witness :
  state (self (live_world GST_SCTP_ASSOCIATION_STATE_CONNECTING))
  <> GST_SCTP_ASSOCIATION_STATE_CONNECTED
  /\ gst_sctp_association_send_data (usrsctp := usrsctp_h) [1; 2; 3] 3 3 51
       true GST_SCTP_ASSOCIATION_PARTIAL_RELIABILITY_NONE 0 3
       (live_world GST_SCTP_ASSOCIATION_STATE_CONNECTING)
     = Some (false, live_world GST_SCTP_ASSOCIATION_STATE_CONNECTING).
Proof.
  split; [discriminate|].
  apply send_data_fails_unless_connected. discriminate.
Defined.

(** The second example scenario: two packets before [start()] reach the
    engine not at all. *)
Example two_packets_before_start_are_dropped :
  run (usrsctp := usrsctp_h)
    [Incoming_packet [1; 2] 2; Incoming_packet [3; 4; 5] 3] fresh_world
  = Some (tt, fresh_world).
Proof. reflexivity. Qed.

(** The four configuration calls in reverse order. *)
Lemma promotion_to_ready_fires_once_witness :
  state gst_sctp_association_init = GST_SCTP_ASSOCIATION_STATE_NEW
  /\ wrap16 5000 <> 0 /\ wrap16 5001 <> 0
  /\ Permutation (rev configure_5000_5001) configure_5000_5001
  /\ exists before last_op w1 w2,
       rev configure_5000_5001 = before ++ [last_op]
       /\ run (usrsctp := usrsctp_h) before fresh_world = Some (tt, w1)
       /\ state (self w1) = GST_SCTP_ASSOCIATION_STATE_NEW
       /\ notified (trace w1) = []
       /\ run (usrsctp := usrsctp_h) (rev configure_5000_5001) fresh_world
          = Some (tt, w2)
       /\ state (self w2) = GST_SCTP_ASSOCIATION_STATE_READY
       /\ notified (trace w2) = [GST_SCTP_ASSOCIATION_STATE_READY].
Proof.
  assert (H5000 : wrap16 5000 <> 0) by (vm_compute; discriminate).
  assert (H5001 : wrap16 5001 <> 0) by (vm_compute; discriminate).
  assert (Hperm : Permutation (rev configure_5000_5001) configure_5000_5001)
    by apply Permutation_sym, Permutation_rev.
  split; [reflexivity|]. split; [exact H5000|]. split; [exact H5001|].
  split; [exact Hperm|].
  exact (proj1 (promotion_to_ready_fires_once (usrsctp := usrsctp_h)
                  gst_sctp_association_init 5000 5001 100 200 0 0
                  (rev configure_5000_5001)
                  eq_refl eq_refl eq_refl eq_refl eq_refl H5000 H5001
                  Hperm)).
Defined.

Lemma comm_up_connects_when_connecting_witness :
  sac_state comm_up = SCTP_COMM_UP
  /\ state (self (live_world GST_SCTP_ASSOCIATION_STATE_CONNECTING))
     = GST_SCTP_ASSOCIATION_STATE_CONNECTING
  /\ handle_association_changed (usrsctp := usrsctp_h) comm_up 0 0
       (live_world GST_SCTP_ASSOCIATION_STATE_CONNECTING)
     = Some (tt,
             mkWorld
               (set_sctp_assoc_id 78
                  (live_association GST_SCTP_ASSOCIATION_STATE_CONNECTED))
               [Notify_state GST_SCTP_ASSOCIATION_STATE_CONNECTED]).
Proof.
  split; [reflexivity|]. split; [reflexivity|].
  apply (proj1 (comm_up_connects_when_connecting (usrsctp := usrsctp_h)
                  comm_up 0 0
                  (live_world GST_SCTP_ASSOCIATION_STATE_CONNECTING)
                  eq_refl)).
  reflexivity.
Defined.

(** An event that names stream 7 as reset by the peer raises
    stream-reset(7), once. *)
Lemma stream_reset_signals_per_listed_stream_witness :
  well_formed_event (usrsctp := usrsctp_h)
    {| strreset_flags := 1; strreset_length := 14;
       strreset_stream_list := [7] |}
  /\ handle_stream_reset_event (usrsctp := usrsctp_h)
       {| strreset_flags := 1; strreset_length := 14;
          strreset_stream_list := [7] |} fresh_world
     = Some (tt, mkWorld gst_sctp_association_init [Signal_stream_reset 7]).
Proof.
  assert (Hwf : well_formed_event (usrsctp := usrsctp_h)
                  {| strreset_flags := 1; strreset_length := 14;
                     strreset_stream_list := [7] |})
    by (unfold well_formed_event; simpl; lia).
  split; [exact Hwf|].
  apply (stream_reset_signals_per_listed_stream (usrsctp := usrsctp_h) _
           fresh_world Hwf).
Defined.

(** The same event flagged denied raises nothing. *)
Example denied_stream_reset_raises_nothing :
  handle_stream_reset_event (usrsctp := usrsctp_h)
    {| strreset_flags := 5; strreset_length := 14;
       strreset_stream_list := [7] |} fresh_world
  = Some (tt, fresh_world).
Proof. reflexivity. Qed.

(** A first start whose socket creation fails. *)
Lemma error_state_entered_by_failed_start_witness :
  exists w',
    step (usrsctp := usrsctp_h) (Start socket_refused 9)
      (idle_world GST_SCTP_ASSOCIATION_STATE_READY)
    = Some (tt, w')
    /\ state (self w') = GST_SCTP_ASSOCIATION_STATE_ERROR
    /\ exists ans thread w1,
         Start socket_refused 9 = Start ans thread
         /\ (state (self (idle_world GST_SCTP_ASSOCIATION_STATE_READY))
             = GST_SCTP_ASSOCIATION_STATE_READY
             \/ state (self (idle_world GST_SCTP_ASSOCIATION_STATE_READY))
                = GST_SCTP_ASSOCIATION_STATE_DISCONNECTED)
         /\ create_sctp_socket ans
              (idle_world GST_SCTP_ASSOCIATION_STATE_READY)
            = Some (None, w1).
Proof.
  eexists. split; [vm_compute; reflexivity|]. split; [reflexivity|].
  refine (proj1 (error_state_entered_by_failed_start (usrsctp := usrsctp_h)
                   (Start socket_refused 9)
                   (idle_world GST_SCTP_ASSOCIATION_STATE_READY) _
                   eq_refl _) _ _).
  - vm_compute. reflexivity.
  - discriminate.
  - reflexivity.
Defined.

(** A restart whose socket creation fails reaches ERROR from DISCONNECTED;
    writes of the [state] property reach ERROR from NEW and leave it
    again. *)
Lemma error_state_reached_from_disconnected :
  (exists w',
     step (usrsctp := usrsctp_h) (Start socket_refused 9)
       (idle_world GST_SCTP_ASSOCIATION_STATE_DISCONNECTED)
     = Some (tt, w')
     /\ state (self w') = GST_SCTP_ASSOCIATION_STATE_ERROR)
  /\ (exists w',
        step (usrsctp := usrsctp_h)
          (Set_property PROP_STATE
             (G_value_enum GST_SCTP_ASSOCIATION_STATE_ERROR)) fresh_world
        = Some (tt, w')
        /\ state (self w') = GST_SCTP_ASSOCIATION_STATE_ERROR)
  /\ (exists w',
        step (usrsctp := usrsctp_h)
          (Set_property PROP_STATE
             (G_value_enum GST_SCTP_ASSOCIATION_STATE_READY))
          (idle_world GST_SCTP_ASSOCIATION_STATE_ERROR)
        = Some (tt, w')
        /\ state (self w') = GST_SCTP_ASSOCIATION_STATE_READY).
Proof.
  repeat split; eexists; (split; [vm_compute; reflexivity|reflexivity]).
Qed.

(** [force_close()] while CONNECTED: still CONNECTED, socket closed and
    null. *)
Example force_close_while_connected :
  gst_sctp_association_force_close
    (live_world GST_SCTP_ASSOCIATION_STATE_CONNECTED)
  = Some (tt,
          mkWorld
            (set_sctp_assoc_id 0
               (set_done_connect false
                  (set_sctp_ass_sock None
                     (live_association GST_SCTP_ASSOCIATION_STATE_CONNECTED))))
            [Usrsctp_close 1]).
Proof. reflexivity. Qed.

(** *** Further runs *)

(** A restart from DISCONNECTED with a socket created: CONNECTING with
    socket 1 and worker 10. *)
Lemma start_outcome_witness :
  exists w',
    gst_sctp_association_start socket_created 10
      (idle_world GST_SCTP_ASSOCIATION_STATE_DISCONNECTED)
    = Some (true, w')
    /\ state (self w') = GST_SCTP_ASSOCIATION_STATE_CONNECTING
    /\ sctp_ass_sock (self w') = Some 1
    /\ connection_thread (self w') = Some 10
    /\ notified (trace w') = [GST_SCTP_ASSOCIATION_STATE_CONNECTING]
    /\ workers_started (trace w') = 1%nat
    /\ closed (trace w') = [].
Proof.
  destruct (start_outcome socket_created 10
              (idle_world GST_SCTP_ASSOCIATION_STATE_DISCONNECTED)
              (or_intror eq_refl))
    as (t & Hrun & Hn & Hw & Hc).
  eexists. split; [exact Hrun|]. repeat split; assumption.
Defined.

(** An inbound wire packet on a connected association. *)
Lemma data_path_leaves_association_witness :
  exists w',
    step (usrsctp := usrsctp_h) (Incoming_packet [1; 2] 2)
      (live_world GST_SCTP_ASSOCIATION_STATE_CONNECTED)
    = Some (tt, w')
    /\ self w' = live_association GST_SCTP_ASSOCIATION_STATE_CONNECTED
    /\ exists t, trace w' = [] ++ t /\ notified t = [].
Proof.
  eexists. split; [vm_compute; reflexivity|].
  apply (data_path_leaves_association (usrsctp := usrsctp_h)
           (Incoming_packet [1; 2] 2)
           (live_world GST_SCTP_ASSOCIATION_STATE_CONNECTED));
    vm_compute; reflexivity.
Defined.

(** A write of the local port on a connected association. *)
Lemma ports_frozen_outside_new_witness :
  exists w',
    step (usrsctp := usrsctp_h)
      (Set_property PROP_LOCAL_PORT (G_value_uint 6000))
      (live_world GST_SCTP_ASSOCIATION_STATE_CONNECTED)
    = Some (tt, w')
    /\ local_port (self w') = 5000
    /\ remote_port (self w') = 5001.
Proof.
  eexists. split; [vm_compute; reflexivity|].
  destruct (ports_frozen_outside_new (usrsctp := usrsctp_h)
              (Set_property PROP_LOCAL_PORT (G_value_uint 6000))
              (live_world GST_SCTP_ASSOCIATION_STATE_CONNECTED)
              (mkWorld (live_association GST_SCTP_ASSOCIATION_STATE_CONNECTED)
                 [G_warning "These properties cannot be set in this state"]))
    as (Hl & Hr & _);
    [discriminate|vm_compute; reflexivity|].
  split; [exact Hl|exact Hr].
Defined.


(** The example scenario ends in DISCONNECTED without socket or worker. *)
Lemma resources_follow_state_witness :
  exists w',
    run (usrsctp := usrsctp_h) example_scenario fresh_world = Some (tt, w')
    /\ state (self w') <> GST_SCTP_ASSOCIATION_STATE_DISCONNECTING
    /\ (sctp_ass_sock (self w') <> None ->
        state (self w') = GST_SCTP_ASSOCIATION_STATE_CONNECTING
        \/ state (self w') = GST_SCTP_ASSOCIATION_STATE_CONNECTED)
    /\ (connection_thread (self w') <> None <->
        state (self w') = GST_SCTP_ASSOCIATION_STATE_CONNECTING
        \/ state (self w') = GST_SCTP_ASSOCIATION_STATE_CONNECTED)
    /\ (sctp_assoc_id (self w') <> 0 ->
        state (self w') = GST_SCTP_ASSOCIATION_STATE_CONNECTED).
Proof.
  eexists. split; [vm_compute; reflexivity|].
  apply (resources_follow_state (usrsctp := usrsctp_h) example_scenario);
    vm_compute; reflexivity.
Defined.

(** The example scenario ends outside NEW with ports 5000 and 5001. *)
Lemma ports_set_outside_new_witness :
  exists w',
    run (usrsctp := usrsctp_h) example_scenario fresh_world = Some (tt, w')
    /\ local_port (self w') <> 0 /\ remote_port (self w') <> 0.
Proof.
  eexists. split; [vm_compute; reflexivity|].
  apply (ports_set_outside_new (usrsctp := usrsctp_h) example_scenario);
    [vm_compute; reflexivity|vm_compute; reflexivity|discriminate].
Defined.

(** Two answers of address in use, then success. *)
Lemma bind_is_retried_while_address_in_use_witness :
  bind_with_retry {| sconn_port := 5000 |}
    [(-1, EADDRINUSE); (-1, EADDRINUSE); (0, errno_other)]
    (live_world GST_SCTP_ASSOCIATION_STATE_CONNECTING)
  = Some (true,
          mkWorld (live_association GST_SCTP_ASSOCIATION_STATE_CONNECTING)
            [Usrsctp_bind (Some 1) {| sconn_port := 5000 |};
             G_usleep 10000;
             Usrsctp_bind (Some 1) {| sconn_port := 5000 |};
             G_usleep 10000;
             Usrsctp_bind (Some 1) {| sconn_port := 5000 |}]).
Proof.
  apply (bind_is_retried_while_address_in_use
           {| sconn_port := 5000 |} [-1; -1] (0, errno_other) []
           (live_world GST_SCTP_ASSOCIATION_STATE_CONNECTING)).
  - repeat constructor.
  - left. simpl. lia.
Defined.

(** The worker binds and connects with [EINPROGRESS]. *)
Lemma worker_only_sets_done_connect_witness :
  exists w' t,
    client_role_connect (usrsctp := usrsctp_h) [(0, errno_other)]
      (-1, EINPROGRESS) fresh_world
    = Some (true, w')
    /\ trace w' = [] ++ t
    /\ notified t = []
    /\ self w' = set_done_connect true gst_sctp_association_init.
Proof.
  eexists.
  destruct (worker_only_sets_done_connect (usrsctp := usrsctp_h)
              [(0, errno_other)] (-1, EINPROGRESS) fresh_world true
              (mkWorld (set_done_connect true gst_sctp_association_init)
                 [Usrsctp_bind None {| sconn_port := 0 |};
                  Usrsctp_connect None {| sconn_port := 0 |}]))
    as (t & Ht & Hn & _); [vm_compute; reflexivity|].
  exists t. split; [vm_compute; reflexivity|].
  split; [exact Ht|]. split; [exact Hn|reflexivity].
Defined.

(** The local port 5000 written to a fresh association and read back. *)
Lemma property_written_is_read_witness :
  exists w1,
    gst_sctp_association_set_property PROP_LOCAL_PORT
      (G_value_uint 5000) fresh_world
    = Some (tt, w1)
    /\ gst_sctp_association_get_property
         PROP_LOCAL_PORT w1
       = Some (Some (G_value_uint 5000), w1).
Proof.
  apply (property_written_is_read PROP_LOCAL_PORT
           (G_value_uint 5000) fresh_world);
    [reflexivity|intros _; reflexivity].
Defined.

(** Of the two streams listed, the one counted raises a signal. *)
Lemma stream_reset_signals_counted_streams_witness :
  handle_stream_reset_event (usrsctp := usrsctp_h) reset_of_two_counting_one
    fresh_world
  = Some (tt, mkWorld gst_sctp_association_init [Signal_stream_reset 7]).
Proof.
  apply (stream_reset_signals_counted_streams (usrsctp := usrsctp_h)
           reset_of_two_counting_one fresh_world).
  vm_compute. lia.
Defined.

(** A packet after the disconnect of a connected association. *)
Lemma inbound_gate_closes_with_socket_witness :
  run (usrsctp := usrsctp_h)
    (Disconnect 0 0 :: incoming_packets [([1; 2], 2)])
    (live_world GST_SCTP_ASSOCIATION_STATE_CONNECTED)
  = run (usrsctp := usrsctp_h) [Disconnect 0 0]
      (live_world GST_SCTP_ASSOCIATION_STATE_CONNECTED).
Proof.
  apply (proj2 (inbound_gate_closes_with_socket (usrsctp := usrsctp_h)
                  [([1; 2], 2)] 0 0
                  (live_world GST_SCTP_ASSOCIATION_STATE_CONNECTED))).
  left. reflexivity.
Defined.

(** Communication-up with id 78, then once more with id 77. *)
Lemma duplicate_comm_up_is_ignored_witness :
  exists w1,
    deliver_assoc_change (usrsctp := usrsctp_h) comm_up 20 0 0
      (live_world GST_SCTP_ASSOCIATION_STATE_CONNECTING)
    = Some (1, w1)
    /\ state (self w1) = GST_SCTP_ASSOCIATION_STATE_CONNECTED
    /\ sctp_assoc_id (self w1) = 78
    /\ deliver_assoc_change (usrsctp := usrsctp_h)
         {| sac_state := SCTP_COMM_UP; sac_assoc_id := 77 |} 20 0 0 w1
       = Some (1, mkWorld (self w1) (trace w1 ++ [Usrsctp_freedumpbuffer])).
Proof.
  exact (duplicate_comm_up_is_ignored (usrsctp := usrsctp_h) comm_up
           {| sac_state := SCTP_COMM_UP; sac_assoc_id := 77 |} 20 20 0 0 0 0
           (live_world GST_SCTP_ASSOCIATION_STATE_CONNECTING)
           eq_refl eq_refl eq_refl).
Defined.

(** Identifier 5 is looked up twice from the start of the process: the
    association made at 1000 is returned both times. *)
Lemma get_returns_the_association_of_the_identifier_witness :
  exists pr',
    gst_sctp_association_get 5 1000 process_start
    = Some (1000, pr')
    /\ gst_sctp_association_get 5 2000 pr'
       = Some (1000,
               mkProcess (associations_by_id pr') (ids_by_association pr')
                 (number_of_associations pr') (objects pr')
                 (events pr' ++ [G_object_ref 1000])).
Proof.
  eexists. split; [vm_compute; reflexivity|].
  apply (get_returns_the_association_of_the_identifier
           process_start 5 1000 2000 1000);
    [exact process_start_ok|lia|vm_compute; reflexivity].
Defined.

(** After the registry scenario identifier 5 leads to 1000 and back. *)
Lemma tables_stay_inverse_witness :
  exists pr',
    process_run (usrsctp := usrsctp_h) registry_scenario process_start
    = Some pr'
    /\ (registered_association pr' 5 = Some 1000
        <-> registered_id pr' 1000 = Some 5).
Proof.
  eexists. split; [vm_compute; reflexivity|].
  apply (tables_stay_inverse (usrsctp := usrsctp_h) registry_scenario);
    vm_compute; reflexivity.
Defined.

(** After the registry scenario the counter is the number of instances. *)
Lemma engine_set_up_while_associations_exist_witness :
  exists pr',
    process_run (usrsctp := usrsctp_h) registry_scenario process_start
    = Some pr'
    /\ number_of_associations pr' = Z.of_nat (List.length (objects pr'))
    /\ (engine_running (events pr') = true <-> objects pr' <> []).
Proof.
  eexists. split; [vm_compute; reflexivity|].
  apply (engine_set_up_while_associations_exist (usrsctp := usrsctp_h)
           registry_scenario);
    vm_compute; reflexivity.
Defined.

(** After the registry scenario the released address 2000 is valid exactly
    if an instance is there. *)
Lemma valid_exactly_while_alive_witness :
  exists pr',
    process_run (usrsctp := usrsctp_h) registry_scenario process_start
    = Some pr'
    /\ (association_is_valid 2000 pr' = true
        <-> exists a, g_hash_table_lookup (objects pr') 2000 = Some a).
Proof.
  eexists. split; [vm_compute; reflexivity|].
  apply (valid_exactly_while_alive (usrsctp := usrsctp_h)
           registry_scenario);
    vm_compute; reflexivity.
Defined.

(** The one association is released: the callbacks for 1000 are dropped. *)
Lemma callbacks_dropped_after_release_witness :
  exists pr',
    process_step (usrsctp := usrsctp_h) (Release 1000) one_association
    = Some pr'
    /\ association_is_valid 1000 pr' = false
    /\ sctp_packet_out_at 1000 [1; 2] 2 pr'
       = Some (0, pr')
    /\ receive_cb_at (usrsctp := usrsctp_h) 1000
         (Delivery_message [1; 2] 2 3 51) 0 0 pr'
       = Some (1, pr').
Proof.
  eexists. split; [vm_compute; reflexivity|].
  apply (callbacks_dropped_after_release (usrsctp := usrsctp_h)
           one_association).
  vm_compute. reflexivity.
Defined.

(** After the registry scenario the identifiers alive differ. *)
Lemma identifiers_of_live_associations_differ_witness :
  exists pr',
    process_run (usrsctp := usrsctp_h) registry_scenario process_start
    = Some pr'
    /\ NoDup (map (fun kv => association_id (snd kv)) (objects pr'))
    /\ 0 <= number_of_associations pr' <= 65536.
Proof.
  eexists. split; [vm_compute; reflexivity|].
  apply (identifiers_of_live_associations_differ (usrsctp := usrsctp_h)
           registry_scenario);
    vm_compute; reflexivity.
Defined.

(** The one association, registered under 5, is given identifier 6 and
    released: 5 still leads to 1000, where no instance is. *)
Lemma rewritten_identifier_leaves_entry_behind_witness :
  exists pr',
    process_run (usrsctp := usrsctp_h)
      [Call 1000 (Set_property PROP_ASSOCIATION_ID (G_value_uint 6));
       Release 1000]
      one_association
    = Some pr'
    /\ registered_association pr' 5 = Some 1000
    /\ g_hash_table_lookup (objects pr') 1000 = None
    /\ gst_sctp_association_get 5 2000 pr'
       = Some (1000,
               mkProcess (associations_by_id pr') (ids_by_association pr')
                 (number_of_associations pr') (objects pr')
                 (events pr' ++ [G_object_ref 1000])).
Proof.
  apply (rewritten_identifier_leaves_entry_behind (usrsctp := usrsctp_h)
           one_association 1000 5 6 2000 (new_association 5)).
  - apply (process_run_keeps_registry (usrsctp := usrsctp_h) [Get 5 1000]
             process_start one_association);
      [reflexivity|exact process_start_ok|vm_compute; reflexivity].
  - reflexivity.
  - reflexivity.
  - lia.
  - discriminate.
Defined.

(** Identifier 5 is created at 1000 and released, from the start of the
    process. *)
Lemma release_undoes_creation_witness :
  exists pr',
    process_run (usrsctp := usrsctp_h) [Get 5 1000; Release 1000]
      process_start
    = Some pr'
    /\ objects pr' = []
    /\ number_of_associations pr' = 0
    /\ registered_association pr' 5 = None
    /\ registered_id pr' 1000 = None
    /\ engine_running (events pr') = false.
Proof.
  apply (release_undoes_creation (usrsctp := usrsctp_h) process_start 5
           1000);
    [exact process_start_ok|lia|reflexivity|discriminate|reflexivity].
Defined.
